(** * Inference and Validation (intro-to-pytorch, Part 5)

    A shallow embedding of the notebook's code cells: the two [Classifier]
    classes, the batch accuracy of cells 5-11, the training/validation loops of
    cells 13 and 17 and the single-sample inference of cell 19.

    Tensors are a shape and a flat row-major list of entries, as in torch.
    Floating-point entries are read as real numbers ([R]): rounding is outside
    this development.  The torch primitives the cells call are modelled from
    their documented behaviour; the parts whose values never matter here (random
    draws, automatic differentiation, Adam's update) are fields of a runtime
    class. *)

From Stdlib Require Import List Arith ZArith Lia Reals Lra Bool Permutation.
From Stdlib Require String.
Import String.StringSyntax.
Delimit Scope string_scope with string.
Import ListNotations.

Set Implicit Arguments.

(** ** Errors and state: a small monad

    A computation reads and updates a state [S] and either returns a value or
    raises (result [None]); the state reached when it raised is kept, so that a
    property of everything a run did also covers the runs that fail. *)

Definition M (S A : Type) : Type := S -> option A * S.

Definition ret {S A} (a : A) : M S A := fun s => (Some a, s).

Definition bind {S A B} (m : M S A) (k : A -> M S B) : M S B :=
  fun s => match m s with
           | (Some a, s') => k a s'
           | (None, s') => (None, s')
           end.

Definition lift {S A} (o : option A) : M S A := fun s => (o, s).

Definition get {S} : M S S := fun s => (Some s, s).

Definition modify {S} (f : S -> S) : M S unit := fun s => (Some tt, f s).

Declare Scope monad_scope.
Delimit Scope monad_scope with monad.
Notation "x <- m ;; k" := (bind m (fun x => k))
  (at level 61, m at next level, right associativity) : monad_scope.
Notation "m ;;; k" := (bind m (fun _ => k))
  (at level 61, right associativity) : monad_scope.

(** Python's [for x in xs: body], the loop variables threaded through [acc]. *)
Fixpoint for_each {S A B} (xs : list A) (acc : B) (body : B -> A -> M S B)
  : M S B :=
  match xs with
  | [] => ret acc
  | x :: xs' => bind (body acc x) (fun acc' => for_each xs' acc' body)
  end.

(** The option monad, for the pure tensor code. *)
Definition obind {A B} (o : option A) (k : A -> option B) : option B :=
  match o with
  | Some a => k a
  | None => None
  end.

Declare Scope option_scope.
Delimit Scope option_scope with opt.
Notation "x <- m ;; k" := (obind m (fun x => k))
  (at level 61, m at next level, right associativity) : option_scope.

(** ** torch: tensors *)

Module torch.

Record tensor (A : Type) : Type := Tensor { shape : list nat; data : list A }.

Definition numel (s : list nat) : nat := fold_right Nat.mul 1 s.

(** The storage holds exactly the entries the shape announces. *)
Definition well_shaped {A} (t : tensor A) : bool :=
  length (data t) =? numel (shape t).

Definition has_shape {A} (s : list nat) (t : tensor A) : bool :=
  if list_eq_dec Nat.eq_dec (shape t) s then well_shaped t else false.

(** [t.view(dims)]: the same storage under another shape.  One dimension may
    be [-1] and is then inferred; torch raises when the sizes do not fit, and
    when the inferred dimension is ambiguous (the others multiply to 0). *)
Definition view {A} (t : tensor A) (dims : list Z) : option (tensor A) :=
  let n := length (data t) in
  let p := numel (map Z.to_nat (filter (fun d => negb (d =? -1)%Z) dims)) in
  if existsb (fun d => (d <? -1)%Z) dims then None
  else
    match count_occ Z.eq_dec dims (-1)%Z with
    | 0 => if p =? n then Some (Tensor (map Z.to_nat dims) (data t)) else None
    | 1 => if (p =? 0) || negb (n mod p =? 0) then None
           else Some (Tensor
                        (map (fun d => if (d =? -1)%Z then n / p else Z.to_nat d)
                             dims)
                        (data t))
    | _ => None
    end.

(** [t.shape[0]]; an IndexError on a 0-dimensional tensor. *)
Definition shape0 {A} (t : tensor A) : option nat := hd_error (shape t).

(** [t[i]]: the [i]-th slice along dimension 0. *)
Definition getitem {A} (t : tensor A) (i : nat) : option (tensor A) :=
  match shape t with
  | [] => None
  | n :: s =>
      if i <? n
      then Some (Tensor s (firstn (numel s) (skipn (i * numel s) (data t))))
      else None
  end.

(** Row [i] of a storage read with rows of [k] entries. *)
Definition row_at {A} (k : nat) (d : list A) (i : nat) : list A :=
  firstn k (skipn (i * k) d).

(** The rows of a 2-dimensional tensor. *)
Definition rows {A} (t : tensor A) : list (list A) :=
  match shape t with
  | [n; k] => map (row_at k (data t)) (seq 0 n)
  | _ => []
  end.

Definition sum (l : list R) : R := fold_right Rplus 0%R l.

(** [torch.exp(t)], entry by entry. *)
Definition exp (t : tensor R) : tensor R :=
  Tensor (shape t) (map Rtrigo_def.exp (data t)).

(** The largest entry of [v :: l] and its index, scanning left to right and
    keeping the first of equal entries. *)
Fixpoint max_from (best : R) (best_i : nat) (i : nat) (l : list R) : R * nat :=
  match l with
  | [] => (best, best_i)
  | v :: l' =>
      if Rlt_dec best v then max_from v i (S i) l'
      else max_from best best_i (S i) l'
  end.

Definition row_max (r : list R) : R * nat :=
  match r with
  | [] => (0%R, 0)
  | v :: l => max_from v 0 1 l
  end.

(** [t.topk(k, dim)] returns the values and the indices.  The case the
    notebook uses is modelled, [k = 1] along [dim = 1] of a 2-dimensional
    tensor: a result of shape [(n, 1)] each.  torch raises when a row has no
    entry; the other uses are not modelled ([None]). *)
Definition topk (t : tensor R) (k dim : nat)
  : option (tensor R * tensor nat) :=
  match shape t, k, dim with
  | [n; c], 1, 1 =>
      if c =? 0 then None
      else
        let best := map row_max (rows t) in
        Some (Tensor [n; 1] (map fst best), Tensor [n; 1] (map snd best))
  | _, _, _ => None
  end.

(** [a == b] on tensors of one shape, entry by entry.  (Other shapes would be
    broadcast; the notebook reshapes [labels] to [top_class]'s shape first, so
    only this case is reached and the others are not modelled.) *)
Definition eq (a b : tensor nat) : option (tensor bool) :=
  if list_eq_dec Nat.eq_dec (shape a) (shape b)
  then Some (Tensor (shape a)
               (map (fun xy => fst xy =? snd xy) (combine (data a) (data b))))
  else None.

(** [t.type(torch.FloatTensor)] on a Boolean tensor: True is 1.0, False 0.0. *)
Definition type_FloatTensor (t : tensor bool) : tensor R :=
  Tensor (shape t) (map (fun b : bool => if b then 1%R else 0%R) (data t)).

(** [torch.mean(t)]: the sum of all entries over their number.  The mean of an
    empty tensor is nan, which no real number stands for: [None]. *)
Definition mean (t : tensor R) : option R :=
  match data t with
  | [] => None
  | _ => Some (sum (data t) / INR (length (data t)))%R
  end.

(** [torch.stack(ts)] along a new first dimension; all shapes must agree. *)
Definition stack {A} (ts : list (tensor A)) : option (tensor A) :=
  match ts with
  | [] => None
  | t :: _ =>
      if forallb (fun u => if list_eq_dec Nat.eq_dec (shape u) (shape t)
                           then true else false) ts
      then Some (Tensor (length ts :: shape t) (flat_map (@data A) ts))
      else None
  end.

End torch.

Import torch.

(** ** The parts of torch left abstract

    The random generator, the random draws, the initial values [nn.Linear]
    gives its parameters, and Adam's update rule. *)

Class Runtime : Type := {
  Generator : Type;
  (** [n] Bernoulli draws with success probability [q] *)
  bernoulli : Generator -> R -> nat -> list bool * Generator;
  (** [torch.randperm(n)] *)
  randperm : Generator -> nat -> list nat * Generator;
  (** [n] initial parameter values *)
  init_values : Generator -> nat -> list R * Generator;
  AdamState : Type;
  adam_init : list (tensor R) -> AdamState;
  (** one Adam update: learning rate, state, parameters, gradients *)
  adam_update : R -> AdamState -> list (tensor R) -> list (tensor R)
                -> list (tensor R) * AdamState
}.

(** What the rest relies on: draws have the length asked for, [randperm n]
    permutes [0 .. n-1], and an update keeps every parameter's shape. *)
Class RuntimeLaws (rt : Runtime) : Prop := {
  bernoulli_length : forall g q n, length (fst (bernoulli g q n)) = n;
  randperm_perm : forall g n, Permutation (fst (randperm g n)) (seq 0 n);
  init_values_length : forall g n, length (fst (init_values g n)) = n;
  adam_update_shapes : forall lr st ps gs,
      map (fun t => (shape t, length (data t))) (fst (adam_update lr st ps gs))
      = map (fun t => (shape t, length (data t))) ps
}.

(** ** torch.nn.functional *)

Module F.

(** [F.relu(x)] *)
Definition relu (x : tensor R) : tensor R :=
  Tensor (shape x) (map (Rmax 0) (data x)).

(** log-softmax of one row: [log (exp x_i / sum_j exp x_j)]. *)
Definition log_softmax_row (r : list R) : list R :=
  map (fun v => ln (Rtrigo_def.exp v / torch.sum (map Rtrigo_def.exp r)))%R r.

(** [F.log_softmax(x, dim)]; the case the notebook uses is modelled, [dim = 1]
    of a 2-dimensional tensor (each row normalised on its own). *)
Definition log_softmax (x : tensor R) (dim : nat) : option (tensor R) :=
  match shape x, dim with
  | [n; c], 1 => Some (Tensor [n; c] (flat_map log_softmax_row (rows x)))
  | _, _ => None
  end.

End F.

(** ** torch.nn *)

Module nn.

Definition dot (u v : list R) : R :=
  torch.sum (map (fun ab => fst ab * snd ab)%R (combine u v)).

(** [nn.Linear]: [weight] has shape [(out_features, in_features)], [bias]
    shape [(out_features)]. *)
Record Linear : Type := {
  in_features : nat;
  out_features : nat;
  weight : tensor R;
  bias : tensor R
}.

Definition Linear_ok (l : Linear) : bool :=
  has_shape [out_features l; in_features l] (weight l)
  && has_shape [out_features l] (bias l).

(** [nn.Linear(in_features, out_features)] *)
Definition Linear_init {rt : Runtime} (i o : nat) (g : Generator)
  : Linear * Generator :=
  let (w, g1) := init_values g (o * i) in
  let (b, g2) := init_values g1 o in
  ({| in_features := i; out_features := o;
      weight := Tensor [o; i] w; bias := Tensor [o] b |}, g2).

(** Writing updated values into a layer's parameters. *)
Definition load (l : Linear) (w b : tensor R) : Linear :=
  {| in_features := in_features l; out_features := out_features l;
     weight := w; bias := b |}.

(** One output row: [x A^T + b]. *)
Definition affine (l : Linear) (r : list R) : list R :=
  map (fun wb => dot r (fst wb) + snd wb)%R
      (combine (rows (weight l)) (data (bias l))).

(** Calling the layer on a 2-dimensional input (the only rank the notebook
    feeds it); torch raises when the input's rows do not have [in_features]
    entries. *)
Definition Linear_forward (l : Linear) (x : tensor R) : option (tensor R) :=
  match shape x with
  | [n; k] =>
      if k =? in_features l
      then Some (Tensor [n; out_features l] (flat_map (affine l) (rows x)))
      else None
  | _ => None
  end.

(** [nn.Dropout(p)]; [training] is the module's own mode flag. *)
Record Dropout : Type := { p : R; training : bool }.

(** In training mode each entry is zeroed with probability [p] and the kept
    ones are scaled by [1/(1-p)]; in evaluation mode the input is returned. *)
Definition Dropout_forward {rt : Runtime} (d : Dropout) (x : tensor R)
  : M Generator (tensor R) :=
  fun g =>
    if training d then
      let (keep, g') := bernoulli g (1 - p d)%R (length (data x)) in
      (Some (Tensor (shape x)
               (map (fun vk => if snd vk : bool then (fst vk / (1 - p d))%R
                               else 0%R)
                    (combine (data x) keep))), g')
    else (Some x, g).

(** [nn.NLLLoss()(log_ps, labels)] with the default mean reduction: minus the
    mean of each row's entry at its label.  torch raises when the batch sizes
    differ or a label is not a class index. *)
Definition NLLLoss (log_ps : tensor R) (labels : tensor nat) : option R :=
  match shape log_ps, shape labels with
  | [n; c], [m] =>
      if (n =? m) && (0 <? n)
      then
        fold_right
          (fun rl acc =>
             match nth_error (fst rl) (snd rl), acc with
             | Some v, Some a => Some (a - v / INR n)%R
             | _, _ => None
             end)
          (Some 0%R)
          (combine (rows log_ps) (data labels))
      else None
  | _, _ => None
  end.

End nn.

(** ** Cell 3: the classifier *)

Module Cell3.

Record Classifier : Type := {
  fc1 : nn.Linear;
  fc2 : nn.Linear;
  fc3 : nn.Linear;
  fc4 : nn.Linear;
  training : bool
}.

(** [Classifier()]: the four layers with the sizes of [__init__]; a new module
    is in training mode. *)
Definition __init__ {rt : Runtime} (g : Generator) : Classifier * Generator :=
  let (l1, g) := nn.Linear_init 784 256 g in
  let (l2, g) := nn.Linear_init 256 128 g in
  let (l3, g) := nn.Linear_init 128 64 g in
  let (l4, g) := nn.Linear_init 64 10 g in
  ({| fc1 := l1; fc2 := l2; fc3 := l3; fc4 := l4; training := true |}, g).

Definition forward (self : Classifier) (x : tensor R) : option (tensor R) :=
  (n <- shape0 x ;;
   x <- view x [Z.of_nat n; (-1)%Z] ;;
   x <- option_map F.relu (nn.Linear_forward (fc1 self) x) ;;
   x <- option_map F.relu (nn.Linear_forward (fc2 self) x) ;;
   x <- option_map F.relu (nn.Linear_forward (fc3 self) x) ;;
   x <- nn.Linear_forward (fc4 self) x ;;
   F.log_softmax x 1)%opt.

(** [model.train(mode)] / [model.eval()] *)
Definition train (mode : bool) (self : Classifier) : Classifier :=
  {| fc1 := fc1 self; fc2 := fc2 self; fc3 := fc3 self; fc4 := fc4 self;
     training := mode |}.

Definition eval : Classifier -> Classifier := train false.

(** [model.parameters()], and writing updated values back into them. *)
Definition parameters (self : Classifier) : list (tensor R) :=
  [nn.weight (fc1 self); nn.bias (fc1 self);
   nn.weight (fc2 self); nn.bias (fc2 self);
   nn.weight (fc3 self); nn.bias (fc3 self);
   nn.weight (fc4 self); nn.bias (fc4 self)].

Definition load_parameters (self : Classifier) (ps : list (tensor R))
  : Classifier :=
  match ps with
  | [w1; b1; w2; b2; w3; b3; w4; b4] =>
      {| fc1 := nn.load (fc1 self) w1 b1; fc2 := nn.load (fc2 self) w2 b2;
         fc3 := nn.load (fc3 self) w3 b3; fc4 := nn.load (fc4 self) w4 b4;
         training := training self |}
  | _ => self
  end.

End Cell3.

(** ** Cell 16: the classifier with dropout *)

Module Cell16.

Record Classifier : Type := {
  fc1 : nn.Linear;
  fc2 : nn.Linear;
  fc3 : nn.Linear;
  fc4 : nn.Linear;
  dropout : nn.Dropout;
  training : bool
}.

(** [Classifier()]: as in cell 3, and a dropout module with drop probability
    0.2. *)
Definition __init__ {rt : Runtime} (g : Generator) : Classifier * Generator :=
  let (l1, g) := nn.Linear_init 784 256 g in
  let (l2, g) := nn.Linear_init 256 128 g in
  let (l3, g) := nn.Linear_init 128 64 g in
  let (l4, g) := nn.Linear_init 64 10 g in
  ({| fc1 := l1; fc2 := l2; fc3 := l3; fc4 := l4;
      dropout := {| nn.p := 0.2%R; nn.training := true |};
      training := true |}, g).

Definition forward {rt : Runtime} (self : Classifier) (x : tensor R)
  : M Generator (tensor R) :=
  (n <- lift (shape0 x) ;;
   x <- lift (view x [Z.of_nat n; (-1)%Z]) ;;
   x <- lift (option_map F.relu (nn.Linear_forward (fc1 self) x)) ;;
   x <- nn.Dropout_forward (dropout self) x ;;
   x <- lift (option_map F.relu (nn.Linear_forward (fc2 self) x)) ;;
   x <- nn.Dropout_forward (dropout self) x ;;
   x <- lift (option_map F.relu (nn.Linear_forward (fc3 self) x)) ;;
   x <- nn.Dropout_forward (dropout self) x ;;
   x <- lift (nn.Linear_forward (fc4 self) x) ;;
   lift (F.log_softmax x 1))%monad.

(** [model.train(mode)] sets the flag of the module and of every submodule;
    [model.eval()] is [model.train(False)]. *)
Definition train (mode : bool) (self : Classifier) : Classifier :=
  {| fc1 := fc1 self; fc2 := fc2 self; fc3 := fc3 self; fc4 := fc4 self;
     dropout := {| nn.p := nn.p (dropout self); nn.training := mode |};
     training := mode |}.

Definition eval : Classifier -> Classifier := train false.

Definition parameters (self : Classifier) : list (tensor R) :=
  [nn.weight (fc1 self); nn.bias (fc1 self);
   nn.weight (fc2 self); nn.bias (fc2 self);
   nn.weight (fc3 self); nn.bias (fc3 self);
   nn.weight (fc4 self); nn.bias (fc4 self)].

Definition load_parameters (self : Classifier) (ps : list (tensor R))
  : Classifier :=
  match ps with
  | [w1; b1; w2; b2; w3; b3; w4; b4] =>
      {| fc1 := nn.load (fc1 self) w1 b1; fc2 := nn.load (fc2 self) w2 b2;
         fc3 := nn.load (fc3 self) w3 b3; fc4 := nn.load (fc4 self) w4 b4;
         dropout := dropout self; training := training self |}
  | _ => self
  end.

End Cell16.

(** The layer sizes [__init__] gives both classifiers. *)
Definition layer_ok (i o : nat) (l : nn.Linear) : bool :=
  (nn.in_features l =? i) && (nn.out_features l =? o) && nn.Linear_ok l.

Definition layers_ok (l1 l2 l3 l4 : nn.Linear) : bool :=
  layer_ok 784 256 l1 && layer_ok 256 128 l2
  && layer_ok 128 64 l3 && layer_ok 64 10 l4.

Definition Classifier_ok (m : Cell3.Classifier) : bool :=
  layers_ok (Cell3.fc1 m) (Cell3.fc2 m) (Cell3.fc3 m) (Cell3.fc4 m).

Definition DropoutClassifier_ok (m : Cell16.Classifier) : bool :=
  layers_ok (Cell16.fc1 m) (Cell16.fc2 m) (Cell16.fc3 m) (Cell16.fc4 m).

(** What the network computes on one flattened example. *)
Definition forward_row (l1 l2 l3 l4 : nn.Linear) (r : list R) : list R :=
  F.log_softmax_row
    (nn.affine l4
       (map (Rmax 0)
          (nn.affine l3
             (map (Rmax 0)
                (nn.affine l2 (map (Rmax 0) (nn.affine l1 r))))))).

(** ** Cells 5-11: the accuracy of one batch *)

Module Cell11.

(** [top_p, top_class = ps.topk(1, dim=1)];
    [equals = top_class == labels.view(..)] with the dimensions of
    [top_class.shape] as the arguments of [view];
    [accuracy = torch.mean(equals.type(torch.FloatTensor))]. *)
Definition accuracy (ps : tensor R) (labels : tensor nat) : option R :=
  (top <- topk ps 1 1 ;;
   let top_class := snd top in
   labels' <- view labels (map Z.of_nat (shape top_class)) ;;
   equals <- torch.eq top_class labels' ;;
   mean (type_FloatTensor equals))%opt.

End Cell11.

(** ** torch.utils.data.DataLoader *)

Record DataLoader : Type := {
  dataset : list (tensor R * nat);
  batch_size : nat;
  shuffle : bool
}.

(** The sampler: a fresh random permutation of the indices for every
    iteration over the loader when [shuffle] is set. *)
Definition sampler {rt : Runtime} (dl : DataLoader) : M Generator (list nat) :=
  fun g =>
    if shuffle dl
    then let (perm, g') := randperm g (length (dataset dl)) in (Some perm, g')
    else (Some (seq 0 (length (dataset dl))), g).

(** The batch sampler collects indices and yields a batch whenever
    [batch_size] of them are there; what is left at the end is a last, smaller
    batch ([drop_last] is off). *)
Fixpoint batch_sampler (bs : nat) (batch : list nat) (idx : list nat)
  : list (list nat) :=
  match idx with
  | [] => match batch with
          | [] => []
          | _ => [rev batch]
          end
  | i :: idx' =>
      if length (i :: batch) =? bs
      then rev (i :: batch) :: batch_sampler bs [] idx'
      else batch_sampler bs (i :: batch) idx'
  end.

(** [len(loader)]: the number of batches. *)
Definition len (dl : DataLoader) : nat :=
  (length (dataset dl) + batch_size dl - 1) / batch_size dl.

Fixpoint all_some {A} (l : list (option A)) : option (list A) :=
  match l with
  | [] => Some []
  | None :: _ => None
  | Some a :: l' => option_map (cons a) (all_some l')
  end.

(** Fetching a batch: the examples at the batch's indices, the images stacked
    into one tensor and the labels into another. *)
Definition fetch (dl : DataLoader) (batch : list nat)
  : option (tensor R * tensor nat) :=
  (examples <- all_some (map (nth_error (dataset dl)) batch) ;;
   images <- stack (map fst examples) ;;
   Some (images, Tensor [length examples] (map snd examples)))%opt.

(** ** The training state and its primitive steps *)

(** Where a forward pass is called from. *)
Inductive site : Type := Training | Validation | Inference.

(** What a run does, in order. *)
Inductive event : Type :=
| Ezero_grad
| Eforward (from : site) (training_mode : bool) (grad_enabled : bool)
| Eloss
| Ebackward
| Estep (lr : R)
| Eprint (accuracy : R)
| Eview_classify (img : tensor R) (ps : tensor R) (version : String.string).

(** What the loops need of a model class: calling it, its mode flag (for the
    dropout classifier, the flag its dropout module reads), its parameters. *)
Class ModelClass {rt : Runtime} (Model : Type) : Type := {
  call : Model -> tensor R -> M Generator (tensor R);
  mode : Model -> bool;
  parameters : Model -> list (tensor R);
  load_parameters : Model -> list (tensor R) -> Model
}.

(** Automatic differentiation, left abstract: the gradient of the batch loss
    with respect to the parameters, for the model, the generator state its
    forward pass started from, the images and the labels. *)
Class Autograd {rt : Runtime} (Model : Type) : Type := {
  gradient : Model -> Generator -> tensor R -> tensor nat -> list (tensor R)
}.

(** A Python number that is either still the int it was initialised with or
    a 0-dimensional tensor. *)
Inductive number : Type :=
| PyInt (z : Z)
| Scalar (r : R).

Definition number_add (a : number) (t : R) : number :=
  match a with
  | PyInt z => Scalar (IZR z + t)
  | Scalar r => Scalar (r + t)
  end.

(** [a.item()]: an int has no such method. *)
Definition item (a : number) : option R :=
  match a with
  | PyInt _ => None
  | Scalar r => Some r
  end.

Section Machine.
Context {rt : Runtime} {Model : Type}
        {mc : ModelClass Model} {ag : Autograd Model}.

(** What autograd recorded of a forward pass. *)
Record tape : Type := {
  tape_model : Model;
  tape_generator : Generator;
  tape_images : tensor R;
  tape_labels : option (tensor nat)
}.

(** A value with the tape that produced it ([None] when gradients were
    off). *)
Record traced (A : Type) : Type := { value : A; grad_fn : option tape }.

Record state : Type := {
  model : Model;
  grads : option (list (tensor R));
  lr : R;
  adam_state : AdamState;
  grad_enabled : bool;
  generator : Generator;
  trace : list event
}.

Definition emit (e : event) : M state unit :=
  modify (fun s =>
    {| model := model s; grads := grads s; lr := lr s;
       adam_state := adam_state s; grad_enabled := grad_enabled s;
       generator := generator s; trace := trace s ++ [e] |}).

Definition set_model (f : Model -> Model) : M state unit :=
  modify (fun s =>
    {| model := f (model s); grads := grads s; lr := lr s;
       adam_state := adam_state s; grad_enabled := grad_enabled s;
       generator := generator s; trace := trace s |}).

Definition set_grad_enabled (b : bool) : M state unit :=
  modify (fun s =>
    {| model := model s; grads := grads s; lr := lr s;
       adam_state := adam_state s; grad_enabled := b;
       generator := generator s; trace := trace s |}).

Definition set_grads (f : option (list (tensor R)) -> option (list (tensor R)))
  : M state unit :=
  modify (fun s =>
    {| model := model s; grads := f (grads s); lr := lr s;
       adam_state := adam_state s; grad_enabled := grad_enabled s;
       generator := generator s; trace := trace s |}).

(** Running a computation on the random generator inside the state. *)
Definition with_generator {A} (m : M Generator A) : M state A :=
  fun s =>
    let (r, g) := m (generator s) in
    (r, {| model := model s; grads := grads s; lr := lr s;
           adam_state := adam_state s; grad_enabled := grad_enabled s;
           generator := g; trace := trace s |}).

(** [with torch.no_grad(): body]: gradients are off inside and the previous
    setting is restored on the way out, also when [body] raises. *)
Definition no_grad {A} (body : M state A) : M state A :=
  fun s =>
    let (r, s') := body (snd (set_grad_enabled false s)) in
    (r, snd (set_grad_enabled (grad_enabled s) s')).

(** [model(images)] *)
Definition model_call (from : site) (images : tensor R)
  : M state (traced (tensor R)) :=
  (s <- get ;;
   emit (Eforward from (mode (model s)) (grad_enabled s)) ;;;
   out <- with_generator (call (model s) images) ;;
   ret {| value := out;
          grad_fn := if grad_enabled s
                     then Some {| tape_model := model s;
                                  tape_generator := generator s;
                                  tape_images := images;
                                  tape_labels := None |}
                     else None |})%monad.

(** [criterion(log_ps, labels)] with [criterion = nn.NLLLoss()] *)
Definition criterion (log_ps : traced (tensor R)) (labels : tensor nat)
  : M state (traced R) :=
  (emit Eloss ;;;
   loss <- lift (nn.NLLLoss (value log_ps) labels) ;;
   ret {| value := loss;
          grad_fn := option_map
                       (fun t => {| tape_model := tape_model t;
                                    tape_generator := tape_generator t;
                                    tape_images := tape_images t;
                                    tape_labels := Some labels |})
                       (grad_fn log_ps) |})%monad.

Definition tensor_add (a b : tensor R) : tensor R :=
  Tensor (shape a) (map (fun xy => fst xy + snd xy)%R (combine (data a) (data b))).

(** [loss.backward()]: the gradients are added to the parameters' [.grad]
    (set, when there is none yet); raises when [loss] carries no tape. *)
Definition backward (loss : traced R) : M state unit :=
  (emit Ebackward ;;;
   t <- lift (grad_fn loss) ;;
   labels <- lift (tape_labels t) ;;
   let g := gradient (tape_model t) (tape_generator t) (tape_images t) labels in
   set_grads (fun old =>
     match old with
     | None => Some g
     | Some g0 => Some (map (fun ab => tensor_add (fst ab) (snd ab)) (combine g0 g))
     end))%monad.

(** [optimizer.zero_grad()]: existing gradients are zeroed. *)
Definition zero_grad : M state unit :=
  (emit Ezero_grad ;;;
   set_grads (option_map (map (fun t : tensor R =>
                                 Tensor (shape t) (map (fun _ => 0%R) (data t))))))%monad.

(** [optimizer.step()]: one Adam update of the parameters from their
    gradients (nothing to update while there are none). *)
Definition step : M state unit :=
  (s <- get ;;
   emit (Estep (lr s)) ;;;
   match grads s with
   | None => ret tt
   | Some g =>
       let (ps, st) := adam_update (lr s) (adam_state s) (parameters (model s)) g in
       modify (fun s =>
         {| model := load_parameters (model s) ps; grads := grads s; lr := lr s;
            adam_state := st; grad_enabled := grad_enabled s;
            generator := generator s; trace := trace s |})
   end)%monad.

(** [for images, labels in loader: body], the batches fetched one by one. *)
Definition for_batches {B} (dl : DataLoader) (acc : B)
           (body : B -> tensor R -> tensor nat -> M state B) : M state B :=
  (idx <- with_generator (sampler dl) ;;
   for_each (batch_sampler (batch_size dl) [] idx) acc
     (fun acc batch =>
        il <- lift (fetch dl batch) ;;
        body acc (fst il) (snd il)))%monad.

(** The body of the training loop (cells 13 and 17). *)
Definition training_batch (running_loss : R) (images : tensor R)
           (labels : tensor nat) : M state R :=
  (zero_grad ;;;
   log_ps <- model_call Training images ;;
   loss <- criterion log_ps labels ;;
   backward loss ;;;
   step ;;;
   ret (running_loss + value loss)%R)%monad.

(** The body of the validation loop (cells 13 and 17). *)
Definition validation_batch (accuracy : number) (images : tensor R)
           (labels : tensor nat) : M state number :=
  (out <- model_call Validation images ;;
   let ps := torch.exp (value out) in
   a <- lift (Cell11.accuracy ps labels) ;;
   ret (number_add accuracy a))%monad.

(** [print(f'Accuracy: {accuracy.item()*100/len(testloader)}%')] *)
Definition print_accuracy (accuracy : number) (testloader : DataLoader)
  : M state unit :=
  (a <- lift (item accuracy) ;;
   if len testloader =? 0 then lift None
   else emit (Eprint (a * 100 / INR (len testloader))%R))%monad.

(** The state after [model = Classifier()], [criterion = nn.NLLLoss()],
    [optimizer = optim.Adam(model.parameters(), lr=0.003)]. *)
Definition initial_state (m : Model) (g : Generator) : state :=
  {| model := m; grads := None; lr := 0.003%R;
     adam_state := adam_init (parameters m); grad_enabled := true;
     generator := g; trace := [] |}.

Definition epochs : nat := 10.
End Machine.

Arguments state {rt} Model.
Arguments tape {rt} Model.
Arguments traced {rt} Model A.

#[export] Instance Cell3_ModelClass {rt : Runtime} : ModelClass Cell3.Classifier := {
  call m x := lift (Cell3.forward m x);
  mode := Cell3.training;
  parameters := Cell3.parameters;
  load_parameters := Cell3.load_parameters
}.

#[export] Instance Cell16_ModelClass {rt : Runtime} : ModelClass Cell16.Classifier := {
  call := Cell16.forward;
  mode m := nn.training (Cell16.dropout m);
  parameters := Cell16.parameters;
  load_parameters := Cell16.load_parameters
}.

(** ** Cell 1: the loaders *)

Module Cell1.

Definition trainloader (trainset : list (tensor R * nat)) : DataLoader :=
  {| dataset := trainset; batch_size := 64; shuffle := true |}.

Definition testloader (testset : list (tensor R * nat)) : DataLoader :=
  {| dataset := testset; batch_size := 64; shuffle := true |}.

End Cell1.

(** ** Cell 13: training with a validation pass *)

Module Cell13.
Section Loop.
Context {rt : Runtime} {ag : Autograd Cell3.Classifier}.
Variables trainloader testloader : DataLoader.

(** The [else:] block of the epoch. *)
Definition validation_pass : M (state Cell3.Classifier) unit :=
  (accuracy <- no_grad (for_batches testloader (PyInt 0) validation_batch) ;;
   print_accuracy accuracy testloader)%monad.

Definition epoch (e : nat) : M (state Cell3.Classifier) unit :=
  (running_loss <- for_batches trainloader 0%R training_batch ;;
   validation_pass)%monad.

Definition run (g : Generator) : option unit * state Cell3.Classifier :=
  let (model, g) := Cell3.__init__ g in
  for_each (seq 0 epochs) tt (fun _ e => epoch e) (initial_state model g).
End Loop.
End Cell13.

(** ** Cell 17: the same with the dropout classifier *)

Module Cell17.
Section Loop.
Context {rt : Runtime} {ag : Autograd Cell16.Classifier}.
Variables trainloader testloader : DataLoader.

Definition validation_pass : M (state Cell16.Classifier) unit :=
  (accuracy <- no_grad
                 (set_model Cell16.eval ;;;
                  for_batches testloader (PyInt 0) validation_batch) ;;
   print_accuracy accuracy testloader ;;;
   set_model (Cell16.train true))%monad.

Definition epoch (e : nat) : M (state Cell16.Classifier) unit :=
  (running_loss <- for_batches trainloader 0%R training_batch ;;
   validation_pass)%monad.

Definition run (g : Generator) : option unit * state Cell16.Classifier :=
  let (model, g) := Cell16.__init__ g in
  for_each (seq 0 epochs) tt (fun _ e => epoch e) (initial_state model g).
End Loop.
End Cell17.

(** ** Cell 19: inference on one test image *)

Module Cell19.
Section Inference.
Context {rt : Runtime} {ag : Autograd Cell16.Classifier}.
Variable testloader : DataLoader.

(** [dataiter = iter(testloader)]; [images, labels = dataiter.next()];
    [img = images[0]] *)
Definition first_image : M (state Cell16.Classifier) (tensor R) :=
  (idx <- with_generator (sampler testloader) ;;
   batch <- lift (hd_error (batch_sampler (batch_size testloader) [] idx)) ;;
   il <- lift (fetch testloader batch) ;;
   lift (getitem (fst il) 0))%monad.

(** From [img = img.view(1, 784)] to the plotting call. *)
Definition classify (img : tensor R) : M (state Cell16.Classifier) unit :=
  (img <- lift (view img [1; 784]%Z) ;;
   output <- no_grad (model_call Inference img) ;;
   let ps := torch.exp (value output) in
   img' <- lift (view img [1; 28; 28]%Z) ;;
   emit (Eview_classify img' ps "Fashion"%string))%monad.

Definition inference : M (state Cell16.Classifier) unit :=
  (set_model Cell16.eval ;;;
   img <- first_image ;;
   classify img)%monad.
End Inference.
End Cell19.

(** ** Vocabulary of the properties *)

(** A 2-dimensional tensor of [n] rows of [k] entries. *)
Definition is_matrix (n k : nat) (x : tensor R) : Prop :=
  shape x = [n; k] /\ List.length (data x) = n * k.

(** The batch a classifier sees after [x.view(x.shape[0], -1)]. *)
Definition flattened (n : nat) (x : tensor R) : tensor R :=
  Tensor [n; 784] (data x).

(** [i] is the index of a largest entry of the row [r]. *)
Definition is_top1 (r : list R) (i : nat) : Prop :=
  exists v, nth_error r i = Some v /\ Forall (fun w => w <= v)%R r.

(** The number of examples of a batch whose top-1 class is their label. *)
Definition correct_in_batch (ps : tensor R) (labels : tensor nat) : nat :=
  List.length
    (filter (fun rl => snd (row_max (fst rl)) =? snd rl)
            (combine (rows ps) (data labels))).

(** The class the network gives an example: the index of the largest of the
    probabilities it computes from the example's entries. *)
Definition predicted_class (l1 l2 l3 l4 : nn.Linear) (img : tensor R) : nat :=
  snd (row_max (map Rtrigo_def.exp (forward_row l1 l2 l3 l4 (data img)))).

Definition correct (m : Cell3.Classifier) (example : tensor R * nat) : bool :=
  predicted_class (Cell3.fc1 m) (Cell3.fc2 m) (Cell3.fc3 m) (Cell3.fc4 m)
                  (fst example)
  =? snd example.

(** The fraction of the examples whose predicted class is their label. *)
Definition fraction_correct (m : Cell3.Classifier)
           (examples : list (tensor R * nat)) : R :=
  (INR (List.length (filter (correct m) examples))
   / INR (List.length examples))%R.

(** A data set of images with 784 entries each, of one shape, with labels
    among the 10 classes. *)
Definition dataset_ok (sh : list nat) (ds : list (tensor R * nat)) : bool :=
  (numel sh =? 784)
  && forallb (fun ex => has_shape sh (fst ex) && (snd ex <? 10)) ds.

(** The examples a list of indices selects. *)
Definition examples_at (ds : list (tensor R * nat)) (batch : list nat)
  : list (tensor R * nat) :=
  flat_map (fun i => match nth_error ds i with
                     | Some ex => [ex]
                     | None => []
                     end) batch.

(** The batch tensors of a list of examples. *)
Definition collate (sh : list nat) (exs : list (tensor R * nat))
  : tensor R * tensor nat :=
  (Tensor (List.length exs :: sh) (flat_map (fun ex => data (fst ex)) exs),
   Tensor [List.length exs] (map snd exs)).

(** The batches an iteration over the loader yields from the indices [idx],
    as examples. *)
Definition batches_of (dl : DataLoader) (idx : list nat)
  : list (list (tensor R * nat)) :=
  map (examples_at (dataset dl)) (batch_sampler (batch_size dl) [] idx).

(** What one training batch leaves in the trace. *)
Definition training_events (md : bool) (rate : R) : list event :=
  [Ezero_grad; Eforward Training md true; Eloss; Ebackward; Estep rate].

(** What one epoch leaves in the trace: the events of its [n_train] training
    batches, then [n_test] validation forward passes, then the printed
    accuracy. *)
Definition epoch_events (n_train n_test : nat) (md_train md_val : bool)
           (rate : R) (accuracy : R) : list event :=
  concat (repeat (training_events md_train rate) n_train)
  ++ repeat (Eforward Validation md_val false) n_test
  ++ [Eprint accuracy].

(** An event a validation pass may leave: a validation forward pass with
    gradients off, or the printed accuracy. *)
Definition validation_event (ev : event) : Prop :=
  match ev with
  | Eforward Validation _ false => True
  | Eprint _ => True
  | _ => False
  end.

(** Training forward passes run in training mode, validation forward passes
    in evaluation mode. *)
Definition mode_discipline (ev : event) : Prop :=
  match ev with
  | Eforward Training md _ => md = true
  | Eforward Validation md _ => md = false
  | _ => True
  end.

(** The parameters, the gradients and the optimizer are as they were. *)
Definition same_parameters {rt : Runtime} {Model : Type} {mc : ModelClass Model}
           (s s' : state Model) : Prop :=
  parameters (model s') = parameters (model s)
  /\ adam_state s' = adam_state s
  /\ lr s' = lr s
  /\ grads s' = grads s.

(** The cell-3 classifier with the layers of a dropout classifier. *)
Definition without_dropout (d : Cell16.Classifier) : Cell3.Classifier :=
  {| Cell3.fc1 := Cell16.fc1 d; Cell3.fc2 := Cell16.fc2 d;
     Cell3.fc3 := Cell16.fc3 d; Cell3.fc4 := Cell16.fc4 d;
     Cell3.training := Cell16.training d |}.

(** Two dropout classifiers with the same weights and biases. *)
Definition same_layers (d1 d2 : Cell16.Classifier) : Prop :=
  Cell16.fc1 d1 = Cell16.fc1 d2 /\ Cell16.fc2 d1 = Cell16.fc2 d2
  /\ Cell16.fc3 d1 = Cell16.fc3 d2 /\ Cell16.fc4 d1 = Cell16.fc4 d2.

(** What the training loop keeps true of the state, the trace apart: the model
    is among the [trainable] ones and in mode [md], gradients are on and the
    learning rate is [rate]. *)
Definition training_inv {rt : Runtime} {Model : Type} {mc : ModelClass Model}
           (trainable : Model -> Prop) (md : bool) (rate : R)
           (s : state Model) : Prop :=
  trainable (model s) /\ mode (model s) = md
  /\ grad_enabled s = true /\ lr s = rate.

(** Inside [no_grad]: nothing but validation events since [s0], and the model
    itself, the gradients and the optimizer as they were. *)
Definition validating {rt : Runtime} {Model : Type} (s0 s : state Model) : Prop :=
  model s = model s0 /\ adam_state s = adam_state s0 /\ lr s = lr s0
  /\ grads s = grads s0 /\ grad_enabled s = false
  /\ exists evs, trace s = trace s0 ++ evs /\ Forall validation_event evs.

(** The model is in mode [md] and the trace so far keeps the mode
    discipline. *)
Definition disciplined {rt : Runtime} {Model : Type} {mc : ModelClass Model}
           (md : bool) (s : state Model) : Prop :=
  mode (model s) = md /\ Forall mode_discipline (trace s).

(** ** Concrete instances

    A runtime whose shuffle leaves the order as it is, whose dropout keeps
    every entry, whose initial values are zeros and whose update changes
    nothing; a classifier with zero weights and the bias [(1, 0, ..., 0)] on
    the last layer, which gives every input class 0. *)

Definition constant_runtime : Runtime := {|
  Generator := unit;
  bernoulli := fun g _ n => (repeat true n, g);
  randperm := fun g n => (seq 0 n, g);
  init_values := fun g n => (repeat 0%R n, g);
  AdamState := unit;
  adam_init := fun _ => tt;
  adam_update := fun _ st ps _ => (ps, st)
|}.

(** A stand-in for automatic differentiation (the update of
    [constant_runtime] ignores the gradients). *)
Definition parameters_as_gradient {Model : Type}
           (mc : @ModelClass constant_runtime Model)
  : @Autograd constant_runtime Model :=
  {| gradient := fun m _ _ _ => @parameters constant_runtime Model mc m |}.

Definition zeros (s : list nat) : tensor R := Tensor s (repeat 0%R (numel s)).

Definition zero_layer (i o : nat) (b : list R) : nn.Linear :=
  {| nn.in_features := i; nn.out_features := o;
     nn.weight := zeros [o; i]; nn.bias := Tensor [o] b |}.

Definition class0_bias : list R := 1%R :: repeat 0%R 9.

Definition class0_model : Cell3.Classifier :=
  {| Cell3.fc1 := zero_layer 784 256 (repeat 0%R 256);
     Cell3.fc2 := zero_layer 256 128 (repeat 0%R 128);
     Cell3.fc3 := zero_layer 128 64 (repeat 0%R 64);
     Cell3.fc4 := zero_layer 64 10 class0_bias;
     Cell3.training := true |}.

Definition class0_dropout_model : Cell16.Classifier :=
  {| Cell16.fc1 := Cell3.fc1 class0_model;
     Cell16.fc2 := Cell3.fc2 class0_model;
     Cell16.fc3 := Cell3.fc3 class0_model;
     Cell16.fc4 := Cell3.fc4 class0_model;
     Cell16.dropout := {| nn.p := 0.2%R; nn.training := true |};
     Cell16.training := true |}.

Definition blank_image : tensor R := zeros [1; 28; 28].

(** A batch of one blank image, and a batch of two rows of class
    probabilities with its labels. *)
Definition blank_batch : tensor R := zeros [1; 1; 28; 28].

Definition two_rows : tensor R :=
  Tensor [2; 10] (class0_bias ++ (0%R :: 1%R :: repeat 0%R 8)).

Definition two_labels : tensor nat := Tensor [2] [0; 3].

(** 65 examples: the first 64 labelled 1, the last one labelled 0. *)
Definition examples65 : list (tensor R * nat) :=
  repeat (blank_image, 1) 64 ++ [(blank_image, 0)].

(** 64 examples labelled 0. *)
Definition examples64 : list (tensor R * nat) := repeat (blank_image, 0) 64.

(** The state after the three assignments that open cells 13 and 17, with
    the zero-weight classifiers. *)
Definition class0_state : @state constant_runtime Cell3.Classifier :=
  @initial_state constant_runtime _ _ class0_model tt.

Definition class0_dropout_state : @state constant_runtime Cell16.Classifier :=
  @initial_state constant_runtime _ _ class0_dropout_model tt.

(** ** Cells 5 and 7: a first look at one batch *)

(** [t[:k, :]]: the first [k] rows of a 2-dimensional tensor, all of them
    when there are fewer. *)
Definition slice_rows {A : Type} (t : tensor A) (k : nat) : option (tensor A) :=
  match shape t with
  | [n; c] => Some (Tensor [Nat.min k n; c] (firstn (Nat.min k n * c) (data t)))
  | _ => None
  end.

Module Cell5.

(** What the cell leaves behind: the model, the batch, the probabilities, and
    the shape it prints. *)
Record result : Type := {
  model : Cell3.Classifier;
  images : tensor R;
  labels : tensor nat;
  ps : tensor R;
  printed : list nat
}.

(** [model = Classifier()]; [images, labels = next(iter(testloader))];
    [ps = torch.exp(model(images))]; [print(ps.shape)] *)
Definition run {rt : Runtime} (testloader : DataLoader) : M Generator result :=
  fun g =>
    let (model, g) := Cell3.__init__ g in
    (idx <- sampler testloader ;;
     batch <- lift (hd_error (batch_sampler (batch_size testloader) [] idx)) ;;
     il <- lift (fetch testloader batch) ;;
     out <- lift (Cell3.forward model (fst il)) ;;
     let ps := torch.exp out in
     ret {| model := model; images := fst il; labels := snd il; ps := ps;
            printed := shape ps |})%monad g.

End Cell5.

Module Cell7.

(** [top_p, top_class = ps.topk(1, dim=1)]; [print(top_class[:10,:])]:
    the two results and what is printed. *)
Definition run (ps : tensor R) : option (tensor R * tensor nat * tensor nat) :=
  (top <- topk ps 1 1 ;;
   printed <- slice_rows (snd top) 10 ;;
   Some (fst top, snd top, printed))%opt.

End Cell7.

(** A cell-3 classifier and a dropout classifier with the same weights and
    biases. *)
Definition same_layers_as (m : Cell3.Classifier) (d : Cell16.Classifier) : Prop :=
  Cell3.fc1 m = Cell16.fc1 d /\ Cell3.fc2 m = Cell16.fc2 d
  /\ Cell3.fc3 m = Cell16.fc3 d /\ Cell3.fc4 m = Cell16.fc4 d.

(** A cell-13 state in which an earlier batch has left gradients. *)
Definition class0_state_with_grads : @state constant_runtime Cell3.Classifier :=
  @Build_state constant_runtime Cell3.Classifier
    class0_model (Some (Cell3.parameters class0_model)) 0.003%R tt true tt [].

(** Whatever is printed is a percentage. *)
Definition prints_percentage (ev : event) : Prop :=
  match ev with
  | Eprint a => (0 <= a <= 100)%R
  | _ => True
  end.

(** ** What the training loop does, step by step, with its data *)

(** The batches one iteration over a loader yields from the indices [idx]. *)
Definition loader_batches (dl : DataLoader) (idx : list nat)
  : option (list (tensor R * tensor nat)) :=
  all_some (map (fetch dl) (batch_sampler (batch_size dl) [] idx)).

Section Steps.
Context {rt : Runtime} {Model : Type}
        {mc : ModelClass Model} {ag : Autograd Model}.

(** The state once the sampler has drawn and left the generator in [g]. *)
Definition after_draw (g : Generator) (s : state Model) : state Model :=
  {| model := model s; grads := grads s; lr := lr s;
     adam_state := adam_state s; grad_enabled := grad_enabled s;
     generator := g; trace := trace s |}.

(** One training step on the batch [(images, labels)], from [s] to [s']:
    the forward pass gives [log_ps] from the images under the current
    parameters; [loss] is the negative log-likelihood of [log_ps] against the
    labels; the gradients left in [.grad] are those of this batch alone
    (whatever was there is zeroed first); the parameters are replaced by one
    Adam update from these gradients at the learning rate of [s]; and the five
    events are recorded in this order. *)
Definition training_step (images : tensor R) (labels : tensor nat)
           (s : state Model) (loss : R) (s' : state Model) : Prop :=
  exists log_ps g1,
    call (model s) images (generator s) = (Some log_ps, g1)
    /\ nn.NLLLoss log_ps labels = Some loss
    /\ s' = {| model :=
                 load_parameters (model s)
                   (fst (adam_update (lr s) (adam_state s) (parameters (model s))
                           (gradient (model s) (generator s) images labels)));
               grads := Some (gradient (model s) (generator s) images labels);
               lr := lr s;
               adam_state :=
                 snd (adam_update (lr s) (adam_state s) (parameters (model s))
                        (gradient (model s) (generator s) images labels));
               grad_enabled := true;
               generator := g1;
               trace := trace s
                        ++ [Ezero_grad; Eforward Training (mode (model s)) true;
                            Eloss; Ebackward; Estep (lr s)] |}.

(** One training step per batch, in order; the running loss collects the
    batch losses. *)
Fixpoint training_steps (batches : list (tensor R * tensor nat))
         (running_loss : R) (s : state Model)
         (running_loss' : R) (s' : state Model) : Prop :=
  match batches with
  | [] => running_loss' = running_loss /\ s' = s
  | (images, labels) :: rest =>
      exists loss s1,
        training_step images labels s loss s1
        /\ training_steps rest (running_loss + loss)%R s1 running_loss' s'
  end.
End Steps.

(** One epoch of cell 13 from [s] to [s']: the train loader's sampler draws,
    every batch it yields gets one training step, in order (this is what the
    training loop computes, running loss included), and then the validation
    pass runs once and prints [accuracy]. *)
Definition training_epoch {rt : Runtime} {ag : Autograd Cell3.Classifier}
           (trainloader testloader : DataLoader)
           (s : state Cell3.Classifier) (accuracy : R)
           (s' : state Cell3.Classifier) : Prop :=
  exists idx g0 batches running_loss s1,
    sampler trainloader (generator s) = (Some idx, g0)
    /\ loader_batches trainloader idx = Some batches
    /\ length batches = len trainloader
    /\ training_steps batches 0%R (after_draw g0 s) running_loss s1
    /\ for_batches trainloader 0%R training_batch s = (Some running_loss, s1)
    /\ Cell13.validation_pass testloader s1 = (Some tt, s')
    /\ trace s'
       = trace s1
         ++ repeat (Eforward Validation (Cell3.training (model s1)) false)
                   (len testloader)
         ++ [Eprint accuracy].

(** One epoch per printed accuracy, in order. *)
Fixpoint training_epochs {rt : Runtime} {ag : Autograd Cell3.Classifier}
         (trainloader testloader : DataLoader) (accuracies : list R)
         (s s' : state Cell3.Classifier) : Prop :=
  match accuracies with
  | [] => s' = s
  | a :: rest =>
      exists s1,
        training_epoch trainloader testloader s a s1
        /\ training_epochs trainloader testloader rest s1 s'
  end.

(** A runtime like [constant_runtime], except that initial values alternate
    between all zeros (for a layer's weights) and [(1, 0, ..., 0)] (for its
    bias): from the generator state [false], a freshly built classifier has
    zero weights and the bias [(1, 0, ..., 0)] on every layer, so that class 0
    alone has the largest probability for every input. *)
Definition biased_runtime : Runtime := {|
  Generator := bool;
  bernoulli := fun g _ n => (repeat true n, g);
  randperm := fun g n => (seq 0 n, g);
  init_values := fun g n =>
    (firstn n (if g : bool then 1%R :: repeat 0%R n else repeat 0%R n), negb g);
  AdamState := unit;
  adam_init := fun _ => tt;
  adam_update := fun _ st ps _ => (ps, st)
|}.

(** * Properties *)

(** ** The tensor primitives on small inputs *)

Example view_infers_a_dimension :
  view (Tensor [2; 1; 3] [1; 2; 3; 4; 5; 6]) [2; -1]%Z
  = Some (Tensor [2; 3] [1; 2; 3; 4; 5; 6]).
Proof. reflexivity. Qed.

Example view_refuses_a_bad_size :
  view (Tensor [2; 3] [1; 2; 3; 4; 5; 6]) [4; -1]%Z = None.
Proof. reflexivity. Qed.

Example view_refuses_an_empty_batch :
  view (Tensor [0; 28; 28] (@nil nat)) [0; -1]%Z = None.
Proof. reflexivity. Qed.

Example getitem_takes_a_slice :
  getitem (Tensor [2; 3] [1; 2; 3; 4; 5; 6]) 1 = Some (Tensor [3] [4; 5; 6]).
Proof. reflexivity. Qed.

Example rows_of_a_matrix :
  rows (Tensor [2; 3] [1; 2; 3; 4; 5; 6]) = [[1; 2; 3]; [4; 5; 6]].
Proof. reflexivity. Qed.

Example eq_compares_entries :
  torch.eq (Tensor [3; 1] [4; 8; 2]) (Tensor [3; 1] [4; 2; 2])
  = Some (Tensor [3; 1] [true; false; true]).
Proof. reflexivity. Qed.

Example batch_sampler_keeps_a_short_last_batch :
  batch_sampler 2 [] [3; 0; 4; 1; 2] = [[3; 0]; [4; 1]; [2]].
Proof. reflexivity. Qed.

(** The 10000 test images of Fashion-MNIST make 156 batches of 64 and one
    batch of 16. *)
Example batches_of_10000 :
  map (@length nat) (batch_sampler 64 [] (seq 0 (100 * 100)))
  = repeat 64 156 ++ [16].
Proof. vm_compute. reflexivity. Qed.

(** ** Lists and rows *)

Section Rows.
Context {A : Type}.

Lemma row_at_head (k : nat) (r rest : list A) :
  length r = k -> row_at k (r ++ rest) 0 = r.
Proof.
  intros H. unfold row_at. simpl.
  rewrite firstn_app, H, Nat.sub_diag. simpl.
  rewrite <- H, firstn_all. apply app_nil_r.
Qed.

Lemma row_at_tail (k : nat) (r rest : list A) (i : nat) :
  length r = k -> row_at k (r ++ rest) (S i) = row_at k rest i.
Proof.
  intros H. unfold row_at. simpl.
  rewrite skipn_app, H.
  rewrite skipn_all2 by lia.
  replace (k + i * k - k) with (i * k) by lia. reflexivity.
Qed.

Lemma rows_of_concat (k : nat) (ls : list (list A)) :
  Forall (fun r => length r = k) ls ->
  map (row_at k (concat ls)) (seq 0 (length ls)) = ls.
Proof.
  induction 1 as [|r ls Hr Hls IH]; [reflexivity|].
  cbn [length seq map concat].
  rewrite row_at_head by assumption. f_equal.
  rewrite <- seq_shift, map_map.
  rewrite <- IH at 2.
  apply map_ext. intros i. now apply row_at_tail.
Qed.

Lemma length_rows (t : tensor A) (n k : nat) :
  shape t = [n; k] -> length (rows t) = n.
Proof.
  intros H. unfold rows. rewrite H. now rewrite length_map, length_seq.
Qed.

Lemma length_row_at (k : nat) (d : list A) (i : nat) :
  (S i) * k <= length d -> length (row_at k d i) = k.
Proof.
  intros H. unfold row_at. rewrite length_firstn, length_skipn. simpl in H. lia.
Qed.

Lemma rows_lengths (t : tensor A) (n k : nat) :
  shape t = [n; k] -> length (data t) = n * k ->
  Forall (fun r => length r = k) (rows t).
Proof.
  intros Hs Hd. unfold rows. rewrite Hs.
  apply Forall_forall. intros r Hr.
  apply in_map_iff in Hr. destruct Hr as [i [<- Hi]].
  apply in_seq in Hi. apply length_row_at. rewrite Hd. nia.
Qed.

Lemma concat_rows (t : tensor A) (n k : nat) :
  shape t = [n; k] -> length (data t) = n * k -> concat (rows t) = data t.
Proof.
  intros Hs Hd. unfold rows. rewrite Hs. clear Hs.
  remember (data t) as d eqn:E. clear E t.
  revert d Hd. induction n as [|n IH]; intros d Hd.
  - destruct d; [reflexivity | discriminate].
  - cbn [seq map concat]. rewrite <- seq_shift, map_map.
    transitivity (firstn k d ++ skipn k d); [|apply firstn_skipn].
    f_equal.
    rewrite <- (IH (skipn k d)).
    + f_equal. apply map_ext. intros i. unfold row_at. simpl.
      rewrite Nat.add_comm, <- skipn_skipn. reflexivity.
    + rewrite length_skipn. simpl in Hd. lia.
Qed.
End Rows.

(** A tensor built row by row has exactly those rows. *)
Lemma rows_rowwise {A B : Type} (f : A -> list B) (l : list A) (c : nat) :
  (forall x, In x l -> length (f x) = c) ->
  rows (Tensor [length l; c] (flat_map f l)) = map f l.
Proof.
  intros H. unfold rows. cbn [shape data].
  rewrite flat_map_concat_map.
  rewrite <- (length_map f l).
  apply rows_of_concat.
  apply Forall_forall. intros r Hr.
  apply in_map_iff in Hr. destruct Hr as [x [<- Hx]]. auto.
Qed.

Lemma map_flat_map {A B C : Type} (g : B -> C) (f : A -> list B) (l : list A) :
  map g (flat_map f l) = flat_map (fun x => map g (f x)) l.
Proof.
  induction l as [|x l IH]; [reflexivity|].
  simpl. now rewrite map_app, IH.
Qed.

Lemma rows_rowwise_n {A B : Type} (f : A -> list B) (l : list A) (n c : nat) :
  length l = n ->
  (forall x, In x l -> length (f x) = c) ->
  rows (Tensor [n; c] (flat_map f l)) = map f l.
Proof. intros <-. apply rows_rowwise. Qed.

Lemma flat_map_map {A B C : Type} (g : B -> list C) (f : A -> B) (l : list A) :
  flat_map g (map f l) = flat_map (fun x => g (f x)) l.
Proof.
  induction l as [|x l IH]; [reflexivity|].
  simpl. now rewrite IH.
Qed.

(** ** Shapes *)

Lemma has_shape_true {A : Type} (s : list nat) (t : tensor A) :
  has_shape s t = true -> shape t = s /\ length (data t) = numel s.
Proof.
  unfold has_shape, well_shaped.
  destruct (list_eq_dec Nat.eq_dec (shape t) s) as [E|]; [|discriminate].
  intros H. apply Nat.eqb_eq in H. rewrite E in H. auto.
Qed.

Lemma has_shape_intro {A : Type} (s : list nat) (t : tensor A) :
  shape t = s -> length (data t) = numel s -> has_shape s t = true.
Proof.
  intros Hs Hd. unfold has_shape, well_shaped.
  destruct (list_eq_dec Nat.eq_dec (shape t) s); [|contradiction].
  apply Nat.eqb_eq. now rewrite Hs.
Qed.

Lemma layer_ok_true (i o : nat) (l : nn.Linear) :
  layer_ok i o l = true ->
  nn.in_features l = i /\ nn.out_features l = o
  /\ shape (nn.weight l) = [o; i] /\ length (data (nn.weight l)) = o * i
  /\ length (data (nn.bias l)) = o.
Proof.
  unfold layer_ok, nn.Linear_ok. intros H.
  apply andb_prop in H. destruct H as [H Hok].
  apply andb_prop in H. destruct H as [Hi Ho].
  apply andb_prop in Hok. destruct Hok as [Hw Hb].
  apply Nat.eqb_eq in Hi, Ho.
  apply has_shape_true in Hw, Hb. rewrite Hi, Ho in *.
  destruct Hw as [Hw1 Hw2], Hb as [Hb1 Hb2].
  cbn [numel fold_right] in *. repeat split; auto; lia.
Qed.

Lemma length_affine (i o : nat) (l : nn.Linear) (r : list R) :
  layer_ok i o l = true -> length (nn.affine l r) = o.
Proof.
  intros H. apply layer_ok_true in H.
  destruct H as (_ & _ & Hw & _ & Hb).
  unfold nn.affine. rewrite length_map, length_combine.
  rewrite (length_rows _ Hw), Hb. apply Nat.min_id.
Qed.

Lemma view_batch {A : Type} (x : tensor A) (n k : nat) :
  0 < n -> length (data x) = n * k ->
  view x [Z.of_nat n; (-1)%Z] = Some (Tensor [n; k] (data x)).
Proof.
  intros Hn Hd. unfold view.
  assert (E1 : (Z.of_nat n <? -1)%Z = false) by (apply Z.ltb_ge; lia).
  assert (E2 : (Z.of_nat n =? -1)%Z = false) by (apply Z.eqb_neq; lia).
  cbn [existsb filter count_occ map]. rewrite E1, E2. cbn [negb orb].
  destruct (Z.eq_dec (Z.of_nat n) (-1)) as [E|_]; [lia|].
  cbn. rewrite Nat2Z.id, Nat.mul_1_r, Hd.
  destruct (Nat.eqb_spec n 0) as [->|_]; [lia|]. cbn [orb].
  rewrite Nat.mul_comm, Nat.Div0.mod_mul. cbn [Nat.eqb negb].
  now rewrite Nat.div_mul by lia.
Qed.

(** ** The layers, row by row *)

Section Rowwise.
Variables (f : list R -> list R) (rs : list (list R)) (n c : nat).
Hypothesis Hn : length rs = n.
Hypothesis Hc : forall r, In r rs -> length (f r) = c.

Lemma Linear_forward_rowwise (l : nn.Linear) (o : nat) :
  layer_ok c o l = true ->
  nn.Linear_forward l (Tensor [n; c] (flat_map f rs))
  = Some (Tensor [n; o] (flat_map (fun r => nn.affine l (f r)) rs)).
Proof.
  intros Hl. pose proof (layer_ok_true _ _ _ Hl) as (Hi & Ho & _).
  unfold nn.Linear_forward. cbn [shape]. rewrite Hi, Ho, Nat.eqb_refl.
  now rewrite (rows_rowwise_n f rs Hn Hc), flat_map_map.
Qed.

Lemma relu_rowwise :
  F.relu (Tensor [n; c] (flat_map f rs))
  = Tensor [n; c] (flat_map (fun r => map (Rmax 0) (f r)) rs).
Proof. unfold F.relu. cbn [shape data]. now rewrite map_flat_map. Qed.

Lemma log_softmax_rowwise :
  F.log_softmax (Tensor [n; c] (flat_map f rs)) 1
  = Some (Tensor [n; c] (flat_map (fun r => F.log_softmax_row (f r)) rs)).
Proof.
  unfold F.log_softmax. cbn [shape].
  now rewrite (rows_rowwise_n f rs Hn Hc), flat_map_map.
Qed.
End Rowwise.

Lemma tensor_as_rows (x : tensor R) (n k : nat) :
  shape x = [n; k] -> length (data x) = n * k ->
  x = Tensor [n; k] (flat_map (fun r => r) (rows x)).
Proof.
  intros Hs Hd. destruct x as [s d]. cbn in *. subst s. f_equal.
  rewrite flat_map_concat_map, map_id.
  symmetry. exact (concat_rows (Tensor [n; k] d) eq_refl Hd).
Qed.

Section Forward.
Variables l1 l2 l3 l4 : nn.Linear.
Hypothesis Hok : layers_ok l1 l2 l3 l4 = true.

Lemma layers_ok_true :
  layer_ok 784 256 l1 = true /\ layer_ok 256 128 l2 = true
  /\ layer_ok 128 64 l3 = true /\ layer_ok 64 10 l4 = true.
Proof.
  pose proof Hok as H. unfold layers_ok in H.
  apply andb_prop in H. destruct H as [H H4].
  apply andb_prop in H. destruct H as [H H3].
  apply andb_prop in H. destruct H as [H1 H2]. auto.
Qed.

Variables (x : tensor R) (n : nat).
Hypothesis Hd : length (data x) = n * 784.

Let rs := rows (flattened n x).

Lemma length_flattened_rows : length rs = n.
Proof. apply (@length_rows _ (flattened n x) n 784). reflexivity. Qed.

Lemma flattened_rows_784 : forall r, In r rs -> length r = 784.
Proof.
  apply Forall_forall.
  apply (@rows_lengths _ (flattened n x) n 784); [reflexivity | exact Hd].
Qed.

(** The four layers on the flattened batch, step by step. *)
Lemma layers_steps :
  exists a1 a2 a3 a4,
    nn.Linear_forward l1 (flattened n x) = Some a1 /\ shape a1 = [n; 256]
    /\ nn.Linear_forward l2 (F.relu a1) = Some a2 /\ shape a2 = [n; 128]
    /\ nn.Linear_forward l3 (F.relu a2) = Some a3 /\ shape a3 = [n; 64]
    /\ nn.Linear_forward l4 (F.relu a3) = Some a4 /\ shape a4 = [n; 10]
    /\ F.log_softmax a4 1
       = Some (Tensor [n; 10] (flat_map (forward_row l1 l2 l3 l4) rs)).
Proof.
  destruct layers_ok_true as (H1 & H2 & H3 & H4).
  pose proof length_flattened_rows as Hn.
  pose proof flattened_rows_784 as H784.
  assert (E0 : flattened n x = Tensor [n; 784] (flat_map (fun r => r) rs))
    by (apply tensor_as_rows; [reflexivity | exact Hd]).
  eexists _, _, _, _.
  split; [rewrite E0; apply Linear_forward_rowwise with (o := 256); auto|].
  split; [reflexivity|].
  rewrite (relu_rowwise _ rs n 256).
  split; [apply Linear_forward_rowwise with (o := 128); auto;
          intros; rewrite length_map; now apply length_affine with (i := 784)|].
  split; [reflexivity|].
  rewrite (relu_rowwise _ rs n 128).
  split; [apply Linear_forward_rowwise with (o := 64); auto;
          intros; rewrite length_map; now apply length_affine with (i := 256)|].
  split; [reflexivity|].
  rewrite (relu_rowwise _ rs n 64).
  split; [apply Linear_forward_rowwise with (o := 10); auto;
          intros; rewrite length_map; now apply length_affine with (i := 128)|].
  split; [reflexivity|].
  apply log_softmax_rowwise; auto.
  intros; now apply length_affine with (i := 64).
Qed.
End Forward.

(** ** Cell 3: the forward pass *)

Lemma well_shaped_batch {A : Type} (x : tensor A) (n : nat) (s : list nat) :
  shape x = n :: s -> numel s = 784 -> well_shaped x = true ->
  length (data x) = n * 784.
Proof.
  intros Hs Hk Hw. unfold well_shaped in Hw. apply Nat.eqb_eq in Hw.
  rewrite Hw, Hs. cbn [numel fold_right]. fold (numel s). now rewrite Hk.
Qed.

Lemma forward_rows (m : Cell3.Classifier) (x : tensor R) (n : nat) (s : list nat) :
  Classifier_ok m = true ->
  shape x = n :: s -> 0 < n -> length (data x) = n * 784 ->
  Cell3.forward m x
  = Some (Tensor [n; 10]
            (flat_map (forward_row (Cell3.fc1 m) (Cell3.fc2 m)
                                   (Cell3.fc3 m) (Cell3.fc4 m))
                      (rows (flattened n x)))).
Proof.
  intros Hok Hs Hn Hd.
  destruct (@layers_steps _ _ _ _ Hok x n Hd)
    as (a1 & a2 & a3 & a4 & E1 & _ & E2 & _ & E3 & _ & E4 & _ & E5).
  unfold Cell3.forward, shape0. rewrite Hs. cbn [hd_error obind].
  rewrite (@view_batch _ x n 784 Hn Hd). cbn [obind].
  fold (flattened n x). rewrite E1. cbn [option_map obind].
  rewrite E2. cbn [option_map obind].
  rewrite E3. cbn [option_map obind].
  rewrite E4. cbn [obind]. exact E5.
Qed.

(** A batch without examples is refused by the flattening [view]. *)
Lemma forward_empty_batch (m : Cell3.Classifier) (x : tensor R) (s : list nat) :
  shape x = 0 :: s -> Cell3.forward m x = None.
Proof.
  intros Hs. unfold Cell3.forward, shape0. rewrite Hs. cbn [hd_error obind].
  unfold view. cbn. reflexivity.
Qed.

(** C5.  On a batch of [n >= 1] examples of 784 entries each, the forward
    pass of the cell-3 classifier flattens the batch to shape [(n, 784)],
    applies the four linear layers 784 -> 256 -> 128 -> 64 -> 10 with ReLU
    after the first three and log-softmax along dimension 1 after the fourth,
    and returns a tensor of shape [(n, 10)]. *)
Theorem forward_four_layers
  (m : Cell3.Classifier) (x : tensor R) (n : nat) (s : list nat) :
  Classifier_ok m = true ->
  shape x = n :: s -> 0 < n -> numel s = 784 -> well_shaped x = true ->
  exists x0 a1 a2 a3 a4 y,
    view x [Z.of_nat n; (-1)%Z] = Some x0 /\ shape x0 = [n; 784]
    /\ nn.Linear_forward (Cell3.fc1 m) x0 = Some a1 /\ shape a1 = [n; 256]
    /\ nn.Linear_forward (Cell3.fc2 m) (F.relu a1) = Some a2
    /\ shape a2 = [n; 128]
    /\ nn.Linear_forward (Cell3.fc3 m) (F.relu a2) = Some a3
    /\ shape a3 = [n; 64]
    /\ nn.Linear_forward (Cell3.fc4 m) (F.relu a3) = Some a4
    /\ shape a4 = [n; 10]
    /\ F.log_softmax a4 1 = Some y
    /\ Cell3.forward m x = Some y
    /\ has_shape [n; 10] y = true.
Proof.
  intros Hok Hs Hn Hk Hw.
  pose proof (well_shaped_batch x Hs Hk Hw) as Hd.
  destruct (@layers_steps _ _ _ _ Hok x n Hd)
    as (a1 & a2 & a3 & a4 & E1 & S1 & E2 & S2 & E3 & S3 & E4 & S4 & E5).
  exists (flattened n x), a1, a2, a3, a4.
  eexists.
  split; [now apply view_batch|]. split; [reflexivity|].
  do 8 (split; [eassumption|]).
  split; [exact E5|].
  split; [now apply forward_rows with (s := s)|].
  - apply has_shape_intro; [reflexivity|].
    cbn [data shape numel fold_right].
    rewrite (@flat_map_constant_length _ _ 10).
    + rewrite length_flattened_rows. lia.
    + intros r _. unfold forward_row, F.log_softmax_row.
      rewrite length_map.
      destruct (@layers_ok_true _ _ _ _ Hok) as (_ & _ & _ & H4).
      now apply length_affine with (i := 64).
Qed.

(** ** Softmax rows are distributions *)

Lemma sum_exp_pos (r : list R) : r <> [] -> (0 < torch.sum (map Rtrigo_def.exp r))%R.
Proof.
  destruct r as [|v r]; [congruence|]. intros _.
  cbn [map torch.sum fold_right].
  assert (H : (0 <= torch.sum (map Rtrigo_def.exp r))%R).
  { induction r as [|w r IH]; cbn; [lra|].
    pose proof (exp_pos w). fold (torch.sum (map Rtrigo_def.exp r)). lra. }
  pose proof (exp_pos v). fold (torch.sum (map Rtrigo_def.exp r)). lra.
Qed.

Lemma sum_map_div (g : R -> R) (c : R) (r : list R) :
  torch.sum (map (fun v => g v / c)%R r) = (torch.sum (map g r) / c)%R.
Proof.
  induction r as [|v r IH]; cbn.
  - unfold Rdiv. now rewrite Rmult_0_l.
  - fold (torch.sum (map (fun v => g v / c)%R r)).
    fold (torch.sum (map g r)). rewrite IH. unfold Rdiv. ring.
Qed.

Lemma exp_log_softmax_row (r : list R) :
  r <> [] ->
  map Rtrigo_def.exp (F.log_softmax_row r)
  = map (fun v => Rtrigo_def.exp v / torch.sum (map Rtrigo_def.exp r))%R r.
Proof.
  intros Hr. unfold F.log_softmax_row. rewrite map_map.
  apply map_ext. intros v. apply exp_ln.
  apply Rdiv_lt_0_compat; [apply exp_pos | now apply sum_exp_pos].
Qed.

Lemma softmax_row_distribution (r : list R) :
  r <> [] ->
  Forall (fun v => 0 <= v)%R (map Rtrigo_def.exp (F.log_softmax_row r))
  /\ torch.sum (map Rtrigo_def.exp (F.log_softmax_row r)) = 1%R.
Proof.
  intros Hr. split.
  - apply Forall_forall. intros v Hv. apply in_map_iff in Hv.
    destruct Hv as [w [<- _]]. left. apply exp_pos.
  - rewrite exp_log_softmax_row by assumption.
    rewrite sum_map_div. pose proof (sum_exp_pos Hr). field. lra.
Qed.

(** The rows of [torch.exp] of a forward pass. *)
Lemma exp_forward_rows (m : Cell3.Classifier) (x : tensor R) (n : nat) (s : list nat) :
  Classifier_ok m = true ->
  shape x = n :: s -> 0 < n -> length (data x) = n * 784 ->
  exists y, Cell3.forward m x = Some y
    /\ shape (torch.exp y) = [n; 10]
    /\ rows (torch.exp y)
       = map (fun r => map Rtrigo_def.exp
                         (forward_row (Cell3.fc1 m) (Cell3.fc2 m)
                                      (Cell3.fc3 m) (Cell3.fc4 m) r))
             (rows (flattened n x)).
Proof.
  intros Hok Hs Hn Hd. eexists.
  split; [exact (forward_rows m x Hok Hs Hn Hd)|].
  split; [reflexivity|].
  unfold torch.exp. cbn [shape data]. rewrite map_flat_map.
  apply rows_rowwise_n.
  - now apply length_flattened_rows.
  - intros r _. unfold forward_row, F.log_softmax_row. rewrite !length_map.
    destruct (@layers_ok_true _ _ _ _ Hok) as (_ & _ & _ & H4).
    now apply length_affine with (i := 64).
Qed.

(** C10.  [torch.exp] of the classifier's output is, row by row, a probability
    distribution over the 10 classes: every entry is nonnegative and each
    row's entries sum to 1. *)
Theorem exp_forward_distribution
  (m : Cell3.Classifier) (x : tensor R) (n : nat) (s : list nat) :
  Classifier_ok m = true ->
  shape x = n :: s -> 0 < n -> numel s = 784 -> well_shaped x = true ->
  exists y,
    Cell3.forward m x = Some y
    /\ length (rows (torch.exp y)) = n
    /\ Forall (fun r => length r = 10
                        /\ Forall (fun v => 0 <= v)%R r
                        /\ torch.sum r = 1%R)
              (rows (torch.exp y)).
Proof.
  intros Hok Hs Hn Hk Hw.
  pose proof (well_shaped_batch x Hs Hk Hw) as Hd.
  destruct (exp_forward_rows m x Hok Hs Hn Hd) as (y & Ey & Sy & Ry).
  exists y. split; [exact Ey|]. split.
  - now apply length_rows with (k := 10).
  - rewrite Ry. apply Forall_forall. intros q Hq.
    apply in_map_iff in Hq. destruct Hq as [r [<- _]].
    destruct (@layers_ok_true _ _ _ _ Hok) as (_ & _ & _ & H4).
    unfold forward_row.
    set (z := nn.affine (Cell3.fc4 m) _).
    assert (Hz : length z = 10) by (now apply length_affine with (i := 64)).
    assert (Hne : z <> []) by (intros E; rewrite E in Hz; discriminate).
    destruct (softmax_row_distribution Hne) as [Hpos Hsum].
    repeat split; auto.
    unfold F.log_softmax_row. now rewrite !length_map.
Qed.

(** ** Cell 16: dropout in evaluation mode *)

Lemma Dropout_forward_eval {rt : Runtime} (d : nn.Dropout) (x : tensor R)
      (g : Generator) :
  nn.training d = false -> nn.Dropout_forward d x g = (Some x, g).
Proof. intros H. unfold nn.Dropout_forward. now rewrite H. Qed.

Lemma forward_eval_mode {rt : Runtime}
      (m : Cell3.Classifier) (d : Cell16.Classifier)
      (x : tensor R) (g : Generator) :
  Cell16.fc1 d = Cell3.fc1 m -> Cell16.fc2 d = Cell3.fc2 m ->
  Cell16.fc3 d = Cell3.fc3 m -> Cell16.fc4 d = Cell3.fc4 m ->
  nn.training (Cell16.dropout d) = false ->
  Cell16.forward d x g = (Cell3.forward m x, g).
Proof.
  intros E1 E2 E3 E4 Hd.
  unfold Cell16.forward, Cell3.forward. rewrite E1, E2, E3, E4.
  unfold bind, lift, obind.
  destruct (shape0 x) as [n|]; [|reflexivity].
  destruct (view x _) as [x0|]; [|reflexivity].
  destruct (nn.Linear_forward (Cell3.fc1 m) x0) as [a1|]; [|reflexivity].
  cbn [option_map]. rewrite (Dropout_forward_eval _ _ _ Hd).
  destruct (nn.Linear_forward (Cell3.fc2 m) _) as [a2|]; [|reflexivity].
  cbn [option_map]. rewrite (Dropout_forward_eval _ _ _ Hd).
  destruct (nn.Linear_forward (Cell3.fc3 m) _) as [a3|]; [|reflexivity].
  cbn [option_map]. rewrite (Dropout_forward_eval _ _ _ Hd).
  destruct (nn.Linear_forward (Cell3.fc4 m) _) as [a4|]; reflexivity.
Qed.

(** C3.  With the same four layers, the dropout classifier of cell 16 put in
    evaluation mode by [model.eval()] computes, on every input and from every
    generator state, the output of the cell-3 classifier, and draws nothing
    from the generator. *)
Theorem dropout_eval_same_output {rt : Runtime}
        (m : Cell3.Classifier) (d : Cell16.Classifier) :
  Cell16.fc1 d = Cell3.fc1 m -> Cell16.fc2 d = Cell3.fc2 m ->
  Cell16.fc3 d = Cell3.fc3 m -> Cell16.fc4 d = Cell3.fc4 m ->
  forall (x : tensor R) (g : Generator),
    Cell16.forward (Cell16.eval d) x g = (Cell3.forward m x, g).
Proof.
  intros E1 E2 E3 E4 x g.
  apply forward_eval_mode; auto.
Qed.

(** ** Cells 5-11: top-1 class and batch accuracy *)

Lemma max_from_spec (l : list R) :
  forall (best : R) (bi i : nat),
    let r := max_from best bi i l in
    (best <= fst r)%R
    /\ Forall (fun w => w <= fst r)%R l
    /\ (r = (best, bi) \/ (i <= snd r /\ nth_error l (snd r - i) = Some (fst r))).
Proof.
  induction l as [|v l IH]; intros best bi i; cbn [max_from].
  - cbn. split; [lra|]. split; [constructor | now left].
  - destruct (Rlt_dec best v) as [Hlt|Hge].
    + destruct (IH v i (S i)) as (H1 & H2 & H3).
      split; [lra|]. split; [constructor; [exact H1 | exact H2]|].
      right. destruct H3 as [-> | [Hi Hn]]; cbn [fst snd].
      * split; [lia|]. now rewrite Nat.sub_diag.
      * split; [lia|].
        replace (snd (max_from v i (S i) l) - i)
          with (S (snd (max_from v i (S i) l) - S i)) by lia.
        exact Hn.
    + destruct (IH best bi (S i)) as (H1 & H2 & H3).
      split; [exact H1|]. split; [constructor; [lra | exact H2]|].
      destruct H3 as [-> | [Hi Hn]]; [now left|].
      right. split; [lia|].
      replace (snd (max_from best bi (S i) l) - i)
        with (S (snd (max_from best bi (S i) l) - S i)) by lia.
      exact Hn.
Qed.

Lemma row_max_is_top1 (r : list R) : r <> [] -> is_top1 r (snd (row_max r)).
Proof.
  destruct r as [|v l]; [congruence|]. intros _.
  unfold row_max, is_top1.
  destruct (max_from_spec l v 0 1) as (H1 & H2 & H3).
  exists (fst (max_from v 0 1 l)). split.
  - destruct H3 as [-> | [Hi Hn]]; [reflexivity|].
    destruct (snd (max_from v 0 1 l)) as [|j]; [lia|].
    cbn [nth_error]. replace (S j - 1) with j in Hn by lia. exact Hn.
  - constructor; assumption.
Qed.

Lemma sum_indicator (bs : list bool) :
  torch.sum (map (fun b : bool => if b then 1%R else 0%R) bs)
  = INR (length (filter (fun b => b) bs)).
Proof.
  induction bs as [|b bs IH]; [reflexivity|].
  cbn [map torch.sum fold_right]. fold (torch.sum (map (fun b : bool => if b then 1%R else 0%R) bs)).
  rewrite IH. destruct b; cbn [filter].
  - cbn [length]. rewrite S_INR. lra.
  - lra.
Qed.

Lemma filter_map_length {A : Type} (f : A -> bool) (l : list A) :
  length (filter (fun b => b) (map f l)) = length (filter f l).
Proof.
  induction l as [|x l IH]; [reflexivity|].
  cbn. destruct (f x); cbn; now rewrite IH.
Qed.

Lemma view_column {A : Type} (t : tensor A) (n : nat) :
  length (data t) = n ->
  view t (map Z.of_nat [n; 1]) = Some (Tensor [n; 1] (data t)).
Proof.
  intros Hd. change (map Z.of_nat [n; 1]) with [Z.of_nat n; 1%Z]. unfold view.
  assert (E1 : (Z.of_nat n <? -1)%Z = false) by (apply Z.ltb_ge; lia).
  assert (E2 : (Z.of_nat n =? -1)%Z = false) by (apply Z.eqb_neq; lia).
  cbn [existsb filter count_occ map]. rewrite E1, E2.
  destruct (Z.eq_dec (Z.of_nat n) (-1)) as [E|_]; [lia|].
  cbn. rewrite Nat2Z.id, Hd.
  change (PosDef.Pos.to_nat 1) with 1.
  replace (n * (1 * 1)) with n by lia. now rewrite Nat.eqb_refl.
Qed.

Lemma accuracy_count (ps : tensor R) (labels : tensor nat) (n c : nat) :
  shape ps = [n; c] -> 0 < c -> 0 < n -> length (data labels) = n ->
  Cell11.accuracy ps labels
  = Some (INR (correct_in_batch ps labels) / INR n)%R.
Proof.
  intros Hs Hc Hn Hl. unfold Cell11.accuracy, topk. rewrite Hs.
  destruct (Nat.eqb_spec c 0) as [->|_]; [lia|].
  cbn [obind snd shape]. rewrite (view_column labels Hl). cbn [obind].
  unfold torch.eq. cbn [shape data].
  destruct (list_eq_dec Nat.eq_dec [n; 1] [n; 1]) as [_|N]; [|congruence].
  cbn [obind]. unfold mean, type_FloatTensor. cbn [data].
  assert (Hlen : length (combine (map snd (map row_max (rows ps))) (data labels)) = n).
  { rewrite length_combine, !length_map, (length_rows _ Hs), Hl. apply Nat.min_id. }
  set (eqs := map _ (combine _ (data labels))).
  assert (Heqs : length eqs = n) by (unfold eqs; now rewrite length_map).
  destruct (map _ eqs) as [|z zs] eqn:E.
  - apply (f_equal (@length R)) in E. rewrite length_map, Heqs in E. cbn in E. lia.
  - rewrite <- E. rewrite length_map, Heqs, sum_indicator. do 3 f_equal.
    unfold eqs. rewrite filter_map_length. unfold correct_in_batch.
    rewrite map_map.
    clear. generalize (data labels). generalize (rows ps).
    induction l as [|r l IH]; intros [|y ys]; try reflexivity.
    cbn [map combine filter fst snd]. 
    destruct (snd (row_max r) =? y); cbn [length]; now rewrite IH.
Qed.

(** C2.  For a batch of [n >= 1] rows of 10 class probabilities and [n]
    labels, the accuracy of cells 7-11 is the number of examples whose top-1
    index equals the label, divided by [n]; the top-1 index of a row is the
    index of one of its largest entries. *)
Theorem batch_accuracy (ps : tensor R) (labels : tensor nat) (n : nat) :
  has_shape [n; 10] ps = true -> 0 < n -> length (data labels) = n ->
  Cell11.accuracy ps labels
  = Some (INR (correct_in_batch ps labels) / INR n)%R
  /\ Forall (fun r => is_top1 r (snd (row_max r))) (rows ps).
Proof.
  intros Hps Hn Hl. apply has_shape_true in Hps. destruct Hps as [Hs Hd].
  split.
  - apply accuracy_count with (c := 10); auto; lia.
  - cbn [numel fold_right] in Hd.
    assert (Hd' : length (data ps) = n * 10) by lia.
    pose proof (rows_lengths ps Hs Hd') as Hr.
    rewrite Forall_forall in *. intros r Hin. apply row_max_is_top1.
    intros E. specialize (Hr r Hin). rewrite E in Hr. discriminate.
Qed.

(** ** Loops in the monad *)

Section Loops.
Context {S A B : Type}.
Variable body : B -> A -> M S B.

(** An invariant kept by every iteration, raising or not, is kept by the
    loop. *)
Lemma for_each_invariant (I : S -> Prop) (xs : list A) :
  (forall acc x s, I s -> I (snd (body acc x s))) ->
  forall acc s, I s -> I (snd (for_each xs acc body s)).
Proof.
  intros Hbody. induction xs as [|x xs IH]; intros acc s Hs; cbn.
  - exact Hs.
  - unfold bind. specialize (Hbody acc x s Hs).
    destruct (body acc x s) as [[acc'|] s']; cbn in *; auto.
Qed.

(** Iterations that all succeed: a relation between the elements already
    processed, the loop variables and the state is carried along. *)
Lemma for_each_rel (xs : list A) :
  forall (J : list A -> B -> S -> Prop),
    (forall pre x post acc s, xs = pre ++ x :: post -> J pre acc s ->
        exists acc', fst (body acc x s) = Some acc'
                     /\ J (pre ++ [x]) acc' (snd (body acc x s))) ->
    forall acc s, J [] acc s ->
      exists acc', fst (for_each xs acc body s) = Some acc'
                   /\ J xs acc' (snd (for_each xs acc body s)).
Proof.
  induction xs as [|x xs IH]; intros J Hbody acc s H0; cbn.
  - eauto.
  - unfold bind.
    destruct (Hbody [] x xs acc s eq_refl H0) as (acc1 & E & H1).
    destruct (body acc x s) as [r s1]. cbn in E, H1. subst r.
    apply (IH (fun pre => J (x :: pre))); [|exact H1].
    intros pre y post acc' s' -> HJ.
    apply (Hbody (x :: pre) y post acc' s' eq_refl HJ).
Qed.
End Loops.

(** ** The batch sampler *)

Lemma batch_sampler_concat (bs : nat) (idx : list nat) :
  forall batch, concat (batch_sampler bs batch idx) = rev batch ++ idx.
Proof.
  induction idx as [|i idx IH]; intros batch.
  - cbn. destruct batch as [|b batch]; cbn; now rewrite ?app_nil_r.
  - cbn [batch_sampler]. destruct (length (i :: batch) =? bs).
    + cbn [concat]. rewrite IH. cbn. now rewrite <- !app_assoc.
    + rewrite IH. cbn. now rewrite <- app_assoc.
Qed.

Lemma batch_sampler_nonempty (bs : nat) (idx : list nat) :
  forall batch, Forall (fun b => b <> []) (batch_sampler bs batch idx).
Proof.
  induction idx as [|i idx IH]; intros batch.
  - cbn. destruct batch as [|b batch]; constructor; [|constructor].
    intros E. apply (f_equal (@length nat)) in E.
    rewrite length_rev in E. discriminate.
  - cbn [batch_sampler]. destruct (length (i :: batch) =? bs); [|apply IH].
    constructor; [|apply IH].
    intros E. apply (f_equal (@length nat)) in E.
    rewrite length_rev in E. discriminate.
Qed.

Lemma batch_sampler_length (bs : nat) (idx : list nat) :
  0 < bs ->
  forall batch, length batch < bs ->
    length (batch_sampler bs batch idx)
    = (length batch + length idx + bs - 1) / bs.
Proof.
  intros Hbs. induction idx as [|i idx IH]; intros batch Hb.
  - cbn [batch_sampler length]. rewrite Nat.add_0_r.
    destruct batch as [|b batch]; cbn [length].
    + symmetry. apply Nat.div_small. lia.
    + replace (S (length batch) + bs - 1) with (length batch + 1 * bs) by lia.
      rewrite Nat.div_add by lia. rewrite Nat.div_small; [reflexivity|].
      cbn [length] in Hb. lia.
  - cbn [batch_sampler]. destruct (Nat.eqb_spec (length (i :: batch)) bs) as [E|N].
    + cbn [length] in *. rewrite IH by (cbn; lia). cbn [length].
      replace (length batch + S (length idx) + bs - 1)
        with (0 + length idx + bs - 1 + 1 * bs) by lia.
      rewrite Nat.div_add by lia. lia.
    + cbn [length] in *. rewrite IH by (cbn [length]; lia). cbn [length].
      f_equal. lia.
Qed.

Lemma batch_sampler_full (bs : nat) (idx : list nat) :
  0 < bs ->
  forall batch, length batch < bs ->
    (length batch + length idx) mod bs = 0 ->
    Forall (fun b => length b = bs) (batch_sampler bs batch idx).
Proof.
  intros Hbs. induction idx as [|i idx IH]; intros batch Hb Hmod.
  - cbn [batch_sampler]. destruct batch as [|b batch]; [constructor|].
    cbn [length] in *. rewrite Nat.add_0_r, Nat.mod_small in Hmod by lia. lia.
  - cbn [batch_sampler]. destruct (Nat.eqb_spec (length (i :: batch)) bs) as [E|N].
    + constructor; [now rewrite length_rev|].
      apply IH; [cbn; lia|]. cbn [length] in *.
      replace (length batch + S (length idx)) with (length idx + 1 * bs) in Hmod by lia.
      now rewrite Nat.Div0.mod_add in Hmod.
    + apply IH; cbn [length] in *; [lia|].
      now replace (S (length batch) + length idx)
        with (length batch + S (length idx)) by lia.
Qed.

(** The first batch holds the first [bs] indices drawn (all of them when
    there are fewer). *)
Lemma batch_sampler_first (bs : nat) (idx : list nat) :
  forall batch, length batch < bs -> batch ++ idx <> [] ->
    hd_error (batch_sampler bs batch idx)
    = Some (rev batch ++ firstn (bs - length batch) idx).
Proof.
  induction idx as [|i idx IH]; intros batch Hb Hne.
  - cbn [batch_sampler]. destruct batch as [|j batch]; [now rewrite app_nil_r in Hne|].
    cbn [hd_error]. now rewrite firstn_nil, app_nil_r.
  - cbn [batch_sampler]. destruct (Nat.eqb_spec (length (i :: batch)) bs) as [E|E].
    + cbn [hd_error length] in *. replace (bs - length batch) with 1 by lia.
      reflexivity.
    + rewrite IH; [|cbn [length] in *; lia|discriminate].
      cbn [length rev] in *.
      replace (bs - length batch) with (S (bs - S (length batch))) by lia.
      cbn [firstn]. now rewrite <- app_assoc.
Qed.

Lemma removelast_map {A B : Type} (f : A -> B) (l : list A) :
  removelast (map f l) = map f (removelast l).
Proof.
  induction l as [|x [|y l] IH]; [reflexivity|reflexivity|].
  change (f x :: removelast (map f (y :: l)) = f x :: map f (removelast (y :: l))).
  now rewrite IH.
Qed.

Lemma In_removelast {A : Type} (l : list A) (x : A) :
  In x (removelast l) -> In x l.
Proof.
  induction l as [|y [|z l] IH]; [intros []|intros []|].
  change (In x (y :: removelast (z :: l)) -> In x (y :: z :: l)).
  intros [->|H]; [now left|right; now apply IH].
Qed.

Lemma batch_sampler_sizes (bs : nat) (idx : list nat) :
  0 < bs ->
  forall batch, length batch < bs ->
    Forall (fun b => 1 <= length b <= bs) (batch_sampler bs batch idx)
    /\ Forall (fun b => length b = bs) (removelast (batch_sampler bs batch idx)).
Proof.
  intros Hbs. induction idx as [|i idx IH]; intros batch Hb.
  - cbn [batch_sampler]. destruct batch as [|j batch].
    + split; constructor.
    + split; [|constructor]. constructor; [|constructor].
      rewrite length_rev. cbn [length] in *. lia.
  - cbn [batch_sampler]. destruct (Nat.eqb_spec (length (i :: batch)) bs) as [E|E].
    + destruct (IH [] Hbs) as [IH1 IH2]. split.
      * constructor; [|exact IH1]. rewrite length_rev. lia.
      * destruct (batch_sampler bs [] idx) as [|b l] eqn:El; [constructor|].
        change (Forall (fun b0 => length b0 = bs)
                       (rev (i :: batch) :: removelast (b :: l))).
        constructor; [|exact IH2]. now rewrite length_rev.
    + apply IH. cbn [length] in *. lia.
Qed.

(** ** Sampling and fetching batches *)

Lemma sampler_perm {rt : Runtime} {laws : RuntimeLaws rt}
      (dl : DataLoader) (g : Generator) :
  exists idx g', sampler dl g = (Some idx, g')
                 /\ Permutation idx (seq 0 (length (dataset dl))).
Proof.
  unfold sampler. destruct (shuffle dl).
  - pose proof (randperm_perm g (length (dataset dl))) as H.
    destruct (randperm g (length (dataset dl))) as [perm g']. eauto.
  - eauto.
Qed.

Lemma examples_at_seq (ds : list (tensor R * nat)) :
  examples_at ds (seq 0 (length ds)) = ds.
Proof.
  unfold examples_at.
  assert (H : forall pre, flat_map
                (fun i => match nth_error (pre ++ ds) i with
                          | Some ex => [ex]
                          | None => []
                          end) (seq (length pre) (length ds)) = ds).
  { induction ds as [|ex ds IH]; intros pre; [reflexivity|].
    cbn [length seq flat_map].
    rewrite nth_error_app2, Nat.sub_diag by lia. cbn. f_equal.
    specialize (IH (pre ++ [ex])).
    rewrite length_app, Nat.add_1_r, <- app_assoc in IH. exact IH. }
  exact (H []).
Qed.

Lemma examples_at_perm (ds : list (tensor R * nat)) (idx : list nat) :
  Permutation idx (seq 0 (length ds)) -> Permutation (examples_at ds idx) ds.
Proof.
  intros H. rewrite <- (examples_at_seq ds) at 2.
  unfold examples_at. now apply Permutation_flat_map.
Qed.

Lemma examples_at_concat (ds : list (tensor R * nat)) (bs : list (list nat)) :
  examples_at ds (concat bs) = concat (map (examples_at ds) bs).
Proof.
  unfold examples_at. induction bs as [|b bs IH]; [reflexivity|].
  cbn. now rewrite flat_map_app, IH.
Qed.

Lemma all_some_nth (ds : list (tensor R * nat)) (batch : list nat) :
  Forall (fun i => i < length ds) batch ->
  all_some (map (nth_error ds) batch) = Some (examples_at ds batch)
  /\ length (examples_at ds batch) = length batch.
Proof.
  induction 1 as [|i batch Hi _ [IH1 IH2]]; [now split|].
  cbn [map all_some examples_at flat_map].
  destruct (nth_error ds i) as [ex|] eqn:E.
  - fold (examples_at ds batch). rewrite IH1. cbn. now rewrite IH2.
  - apply nth_error_None in E. lia.
Qed.

Lemma examples_at_incl (ds : list (tensor R * nat)) (batch : list nat) :
  incl (examples_at ds batch) ds.
Proof.
  intros ex Hex. unfold examples_at in Hex. apply in_flat_map in Hex.
  destruct Hex as (i & _ & Hi).
  destruct (nth_error ds i) as [ex'|] eqn:E; [|contradiction].
  destruct Hi as [<-|[]]. eapply nth_error_In; eauto.
Qed.

Lemma dataset_ok_true (sh : list nat) (ds : list (tensor R * nat)) :
  dataset_ok sh ds = true ->
  numel sh = 784
  /\ forall ex, In ex ds ->
       shape (fst ex) = sh /\ length (data (fst ex)) = 784 /\ snd ex < 10.
Proof.
  unfold dataset_ok. intros H. apply andb_prop in H. destruct H as [Hn Hall].
  apply Nat.eqb_eq in Hn. split; [exact Hn|].
  rewrite forallb_forall in Hall. intros ex Hex.
  specialize (Hall ex Hex). apply andb_prop in Hall. destruct Hall as [H1 H2].
  apply has_shape_true in H1. apply Nat.ltb_lt in H2.
  destruct H1 as [H1 H1']. rewrite Hn in H1'. auto.
Qed.

Lemma stack_images (sh : list nat) (exs : list (tensor R * nat)) :
  exs <> [] -> Forall (fun ex => shape (fst ex) = sh) exs ->
  stack (map fst exs)
  = Some (Tensor (length exs :: sh) (flat_map (fun ex => data (fst ex)) exs)).
Proof.
  intros Hne Hall. destruct exs as [|ex exs]; [congruence|].
  unfold stack. cbn [map].
  assert (E : forallb (fun u => if list_eq_dec Nat.eq_dec (shape u) (shape (fst ex))
                                then true else false)
                      (fst ex :: map fst exs) = true).
  { apply forallb_forall. intros u Hu.
    change (fst ex :: map fst exs) with (map fst (ex :: exs)) in Hu.
    apply in_map_iff in Hu. destruct Hu as (e & <- & He).
    rewrite Forall_forall in Hall.
    rewrite (Hall e He), (Hall ex (or_introl eq_refl)).
    destruct (list_eq_dec Nat.eq_dec sh sh); congruence. }
  rewrite E. inversion Hall as [|? ? Hex _]; subst.
  change (fst ex :: map fst exs) with (map fst (ex :: exs)).
  now rewrite length_map, flat_map_map.
Qed.

Lemma fetch_batch (sh : list nat) (dl : DataLoader) (batch : list nat) :
  dataset_ok sh (dataset dl) = true ->
  batch <> [] -> Forall (fun i => i < length (dataset dl)) batch ->
  fetch dl batch = Some (collate sh (examples_at (dataset dl) batch)).
Proof.
  intros Hok Hne Hidx. apply dataset_ok_true in Hok. destruct Hok as [_ Hok].
  destruct (all_some_nth (dataset dl) Hidx) as [E Hlen].
  unfold fetch. rewrite E. cbn [obind].
  rewrite (@stack_images sh).
  - reflexivity.
  - intros E0. rewrite E0 in Hlen. destruct batch; [congruence | discriminate].
  - apply Forall_forall. intros ex Hex. apply Hok.
    now apply (examples_at_incl (dataset dl) batch).
Qed.

(** ** The forward pass and the accuracy on a fetched batch *)

Lemma count_top1_labels {A : Type} (f : A -> list R) (lab : A -> nat)
      (l : list A) :
  length (filter (fun rl => snd (row_max (fst rl)) =? snd rl)
                 (combine (map f l) (map lab l)))
  = length (filter (fun x => snd (row_max (f x)) =? lab x) l).
Proof.
  induction l as [|x l IH]; [reflexivity|].
  cbn [map combine filter fst snd].
  destruct (snd (row_max (f x)) =? lab x); cbn [length]; now rewrite IH.
Qed.

Section Collated.
Variables (m : Cell3.Classifier) (sh : list nat) (exs : list (tensor R * nat)).
Hypothesis Hok : Classifier_ok m = true.
Hypothesis Hne : exs <> [].
Hypothesis H784 : forall ex, In ex exs -> length (data (fst ex)) = 784.

Let frow := forward_row (Cell3.fc1 m) (Cell3.fc2 m) (Cell3.fc3 m) (Cell3.fc4 m).

Lemma length_exs_pos : 0 < length exs.
Proof. destruct exs; [congruence | cbn; lia]. Qed.

Lemma length_frow (r : list R) : length (frow r) = 10.
Proof.
  unfold frow, forward_row, F.log_softmax_row. rewrite length_map.
  destruct (@layers_ok_true _ _ _ _ Hok) as (_ & _ & _ & H4).
  now apply length_affine with (i := 64).
Qed.

Lemma forward_collated :
  Cell3.forward m (fst (collate sh exs))
  = Some (Tensor [length exs; 10]
            (flat_map (fun ex => frow (data (fst ex))) exs)).
Proof.
  assert (Hd : length (data (fst (collate sh exs))) = length exs * 784).
  { cbn [collate fst data]. now apply flat_map_constant_length. }
  rewrite (@forward_rows m (fst (collate sh exs)) (length exs) sh Hok eq_refl
             length_exs_pos Hd).
  do 2 f_equal. unfold flattened. cbn [collate fst data].
  rewrite (@rows_rowwise_n _ _ (fun ex => data (fst ex)) exs (length exs) 784 eq_refl H784).
  now rewrite flat_map_map.
Qed.

Lemma accuracy_collated :
  Cell11.accuracy
    (torch.exp (Tensor [length exs; 10]
                  (flat_map (fun ex => frow (data (fst ex))) exs)))
    (snd (collate sh exs))
  = Some (fraction_correct m exs).
Proof.
  rewrite (@accuracy_count _ _ (length exs) 10);
    [| reflexivity | lia | exact length_exs_pos
     | cbn [collate snd data]; now rewrite length_map].
  unfold fraction_correct. do 3 f_equal.
  unfold correct_in_batch, torch.exp. cbn [shape data collate snd].
  rewrite map_flat_map.
  rewrite (@rows_rowwise_n _ _ (fun ex => map Rtrigo_def.exp (frow (data (fst ex))))
             exs (length exs) 10 eq_refl)
    by (intros; rewrite length_map; apply length_frow).
  exact (count_top1_labels
           (fun ex => map Rtrigo_def.exp (frow (data (fst ex)))) snd exs).
Qed.
End Collated.

(** [predicted_class] is the top-1 index the code computes when the example
    is fed to the network on its own. *)
Lemma predicted_class_alone (m : Cell3.Classifier) (sh : list nat)
      (img : tensor R) (label : nat) :
  Classifier_ok m = true -> length (data img) = 784 ->
  exists y top_p,
    Cell3.forward m (fst (collate sh [(img, label)])) = Some y
    /\ topk (torch.exp y) 1 1
       = Some (top_p,
               Tensor [1; 1]
                 [predicted_class (Cell3.fc1 m) (Cell3.fc2 m)
                                  (Cell3.fc3 m) (Cell3.fc4 m) img]).
Proof.
  intros Hok Hd.
  assert (Hne : [(img, label)] <> []) by discriminate.
  assert (H784 : forall ex, In ex [(img, label)] -> length (data (fst ex)) = 784)
    by (intros ex [<-|[]]; exact Hd).
  rewrite (@forward_collated m sh [(img, label)] Hok Hne H784).
  eexists _, _. split; [reflexivity|].
  unfold topk, torch.exp. cbn [shape data length Nat.eqb].
  rewrite map_flat_map.
  rewrite (@rows_rowwise_n _ _ _ [(img, label)] 1 10 eq_refl)
    by (intros; rewrite length_map; now apply length_frow).
  reflexivity.
Qed.

(** ** The validation loop *)

Lemma fold_number_add (fs : list R) :
  forall acc : R,
    fold_left number_add fs (Scalar acc) = Scalar (acc + torch.sum fs).
Proof.
  induction fs as [|f fs IH]; intros acc; cbn [fold_left torch.sum fold_right].
  - f_equal. lra.
  - cbn [number_add]. rewrite IH. f_equal.
    fold (torch.sum fs). lra.
Qed.

Lemma fold_number_add_from_int (fs : list R) :
  fs <> [] -> fold_left number_add fs (PyInt 0) = Scalar (torch.sum fs).
Proof.
  destruct fs as [|f fs]; [congruence|]. intros _.
  cbn [fold_left number_add]. rewrite fold_number_add.
  f_equal. cbn [torch.sum fold_right]. fold (torch.sum fs). lra.
Qed.

Lemma fold_left_map {A B C : Type} (f : C -> B -> C) (g : A -> B) (l : list A) :
  forall c, fold_left (fun acc x => f acc (g x)) l c = fold_left f (map g l) c.
Proof. induction l as [|x l IH]; intros c; cbn; auto. Qed.

Section ValidationLoop.
Context {rt : Runtime} {laws : RuntimeLaws rt} {Model : Type}
        {mc : ModelClass Model} {ag : Autograd Model}.

(** The model computes what a cell-3 classifier computes and draws nothing
    from the generator, whenever it is [ready]. *)
Variable plain : Model -> Cell3.Classifier.
Variable ready : Model -> Prop.
Hypothesis call_plain :
  forall md x g, ready md -> call md x g = (Cell3.forward (plain md) x, g).

Variables (sh : list nat) (dl : DataLoader).
Hypothesis Hds : dataset_ok sh (dataset dl) = true.

Let State := state Model.

Lemma validation_batch_collated (s : State) (acc : number)
      (exs : list (tensor R * nat)) :
  ready (model s) -> Classifier_ok (plain (model s)) = true ->
  exs <> [] -> (forall ex, In ex exs -> length (data (fst ex)) = 784) ->
  validation_batch acc (fst (collate sh exs)) (snd (collate sh exs)) s
  = (Some (number_add acc (fraction_correct (plain (model s)) exs)),
     snd (emit (Eforward Validation (mode (model s)) (grad_enabled s)) s)).
Proof.
  intros Hr Hok Hne H784.
  unfold validation_batch, model_call, bind, get, emit, modify, with_generator, ret, lift.
  cbn [fst snd model generator grad_enabled].
  rewrite (call_plain _ _ Hr). 
  rewrite (@forward_collated (plain (model s)) sh exs Hok Hne H784). cbn [value].
  now rewrite (@accuracy_collated (plain (model s)) sh exs Hok Hne H784).
Qed.

Lemma validation_loop (s : State) :
  ready (model s) -> Classifier_ok (plain (model s)) = true ->
  exists idx g',
    sampler dl (generator s) = (Some idx, g')
    /\ Permutation idx (seq 0 (length (dataset dl)))
    /\ for_batches dl (PyInt 0) validation_batch s
       = (Some (fold_left number_add
                  (map (fraction_correct (plain (model s))) (batches_of dl idx))
                  (PyInt 0)),
          {| model := model s; grads := grads s; lr := lr s;
             adam_state := adam_state s; grad_enabled := grad_enabled s;
             generator := g';
             trace := trace s
                      ++ repeat (Eforward Validation (mode (model s)) (grad_enabled s))
                                (length (batches_of dl idx)) |}).
Proof.
  intros Hr Hok.
  destruct (sampler_perm dl (generator s)) as (idx & g' & Es & Hperm).
  exists idx, g'. split; [exact Es|]. split; [exact Hperm|].
  unfold for_batches, bind at 1, with_generator. rewrite Es.
  set (s1 := {| model := model s; grads := grads s; lr := lr s;
                adam_state := adam_state s; grad_enabled := grad_enabled s;
                generator := g'; trace := trace s |}).
  set (e := Eforward Validation (mode (model s)) (grad_enabled s)).
  set (batches := batch_sampler (batch_size dl) [] idx).
  set (body := fun (acc : number) (batch : list nat) => _).
  pose (J := fun (pre : list (list nat)) (acc : number) (s' : State) =>
               s' = {| model := model s; grads := grads s; lr := lr s;
                       adam_state := adam_state s; grad_enabled := grad_enabled s;
                       generator := g';
                       trace := trace s ++ repeat e (length pre) |}
               /\ acc = fold_left number_add
                          (map (fraction_correct (plain (model s)))
                               (map (examples_at (dataset dl)) pre))
                          (PyInt 0)).
  assert (Hbatches : Forall (fun b => b <> [] /\ Forall (fun i => i < length (dataset dl)) b)
                            batches).
  { apply Forall_forall. intros b Hb. split.
    - pose proof (batch_sampler_nonempty (batch_size dl) idx []) as H.
      rewrite Forall_forall in H. now apply H.
    - apply Forall_forall. intros i Hi.
      assert (Hin : In i idx).
      { pose proof (batch_sampler_concat (batch_size dl) idx []) as Hc.
        cbn in Hc. rewrite <- Hc. apply in_concat. eauto. }
      apply (Permutation_in _ Hperm) in Hin. apply in_seq in Hin. lia. }
  destruct (@for_each_rel _ _ _ body batches J) with (acc := PyInt 0) (s := s1)
    as (acc' & Eacc & Hs' & Hacc).
  - intros pre b post acc s' Ebs [-> ->].
    assert (Hb : In b batches) by (rewrite Ebs; apply in_elt).
    rewrite Forall_forall in Hbatches. destruct (Hbatches b Hb) as [Hne Hidx].
    unfold body, bind, lift.
    rewrite (fetch_batch sh dl Hds Hne Hidx).
    destruct (all_some_nth (dataset dl) Hidx) as [_ Hlen].
    rewrite validation_batch_collated; cbn [model]; auto.
    + cbn [fst snd emit modify model grads lr adam_state grad_enabled generator trace].
      eexists. split; [reflexivity|]. split.
      * f_equal. rewrite length_app, repeat_app, app_assoc. reflexivity.
      * rewrite !map_app, fold_left_app. reflexivity.
    + intros E. rewrite E in Hlen. destruct b; [congruence | discriminate].
    + intros ex Hex. apply (examples_at_incl (dataset dl) b) in Hex.
      destruct (dataset_ok_true _ _ Hds) as [_ H]. now apply H.
  - split; [|reflexivity]. cbn [length repeat]. now rewrite app_nil_r.
  - destruct (for_each batches (PyInt 0) body s1) as [r s'].
    cbn in Eacc, Hs', Hacc. subst r s' acc'.
    unfold batches_of. fold batches. now rewrite length_map.
Qed.
End ValidationLoop.

(** ** Cell 13: the validation pass *)

Lemma len_testloader (testset : list (tensor R * nat)) (idx : list nat) :
  Permutation idx (seq 0 (length testset)) ->
  length (batch_sampler 64 [] idx) = len (Cell1.testloader testset).
Proof.
  intros Hperm. rewrite batch_sampler_length by (cbn; lia).
  apply Permutation_length in Hperm. rewrite length_seq in Hperm.
  unfold len. cbn [Cell1.testloader dataset batch_size length].
  now rewrite Hperm.
Qed.

Lemma len_testloader_pos (testset : list (tensor R * nat)) :
  testset <> [] -> 0 < len (Cell1.testloader testset).
Proof.
  intros Hne. unfold len. cbn [Cell1.testloader dataset batch_size].
  destruct testset as [|ex l]; [congruence|]. cbn [length].
  replace (S (length l) + 64 - 1) with (length l + 1 * 64) by lia.
  rewrite Nat.div_add by lia. lia.
Qed.

Section Cell13Validation.
Context {rt : Runtime} {laws : RuntimeLaws rt} {ag : Autograd Cell3.Classifier}.
Variables (sh : list nat) (testset : list (tensor R * nat)).
Hypothesis Hds : dataset_ok sh testset = true.
Hypothesis Hne : testset <> [].

Let tl := Cell1.testloader testset.

Lemma validation_pass_prints (s : state Cell3.Classifier) :
  Classifier_ok (model s) = true ->
  exists idx g',
    sampler tl (generator s) = (Some idx, g')
    /\ Permutation idx (seq 0 (length testset))
    /\ Cell13.validation_pass tl s
       = (Some tt,
          {| model := model s; grads := grads s; lr := lr s;
             adam_state := adam_state s; grad_enabled := grad_enabled s;
             generator := g';
             trace := trace s
               ++ repeat (Eforward Validation (Cell3.training (model s)) false)
                         (len tl)
               ++ [Eprint (torch.sum (map (fraction_correct (model s))
                                          (batches_of tl idx))
                           * 100 / INR (len tl))%R] |}).
Proof.
  intros Hok.
  set (s0 := snd (set_grad_enabled false s)).
  destruct (@validation_loop rt laws _ Cell3_ModelClass (fun m => m) (fun _ => True)
              (fun md x g _ => eq_refl (Cell3.forward md x, g)) sh tl Hds s0 I Hok)
    as (idx & g' & Es & Hperm & Eloop).
  exists idx, g'. split; [exact Es|]. split; [exact Hperm|].
  unfold Cell13.validation_pass, bind at 1, no_grad. fold s0.
  rewrite Eloop. cbn [snd set_grad_enabled modify model grads lr adam_state
                        grad_enabled generator trace].
  assert (Hlen : length (batches_of tl idx) = len tl).
  { unfold batches_of. rewrite length_map. now apply len_testloader. }
  pose proof (len_testloader_pos Hne) as Hpos. change (0 < len tl) in Hpos.
  rewrite fold_number_add_from_int.
  - unfold print_accuracy, bind, lift. cbn [item].
    destruct (Nat.eqb_spec (len tl) 0) as [E|_]; [lia|].
    unfold emit, modify. cbn [model grads lr adam_state grad_enabled generator trace].
    rewrite Hlen, <- app_assoc. reflexivity.
  - intros E. apply (f_equal (@length R)) in E. rewrite length_map, Hlen in E.
    change (len tl = 0) in E. lia.
Qed.
End Cell13Validation.

(** ** Batches of one size *)

Lemma count_perm {A : Type} (f : A -> bool) (l l' : list A) :
  Permutation l l' -> length (filter f l) = length (filter f l').
Proof.
  induction 1 as [|x l l' _ IH|x y l|l l' l'' _ IH1 _ IH2]; cbn.
  - reflexivity.
  - destruct (f x); cbn; now rewrite IH.
  - destruct (f x), (f y); reflexivity.
  - now rewrite IH1.
Qed.

Lemma length_concat_full {A : Type} (k : nat) (bs : list (list A)) :
  Forall (fun b => length b = k) bs -> length (concat bs) = length bs * k.
Proof.
  induction 1 as [|b bs Hb _ IH]; [reflexivity|].
  cbn. rewrite length_app, IH, Hb. reflexivity.
Qed.

Lemma sum_fractions_full (m : Cell3.Classifier) (k : nat)
      (bs : list (list (tensor R * nat))) :
  0 < k -> Forall (fun b => length b = k) bs ->
  torch.sum (map (fraction_correct m) bs)
  = (INR (length (filter (correct m) (concat bs))) / INR k)%R.
Proof.
  intros Hk. pose proof (lt_0_INR k Hk) as HR.
  induction 1 as [|b bs Hb _ IH]; cbn [map torch.sum fold_right concat].
  - cbn. unfold Rdiv. now rewrite Rmult_0_l.
  - fold (torch.sum (map (fraction_correct m) bs)). rewrite IH.
    unfold fraction_correct. rewrite Hb, filter_app, length_app, plus_INR.
    field. lra.
Qed.

(** With batches of one size, the mean of the batch accuracies is the
    accuracy over all their examples. *)
Lemma mean_of_full_batches (m : Cell3.Classifier) (k : nat)
      (bs : list (list (tensor R * nat))) (ds : list (tensor R * nat)) :
  0 < k -> bs <> [] -> Forall (fun b => length b = k) bs ->
  Permutation (concat bs) ds ->
  (torch.sum (map (fraction_correct m) bs) * 100 / INR (length bs))%R
  = (100 * fraction_correct m ds)%R.
Proof.
  intros Hk Hne Hfull Hperm.
  rewrite (sum_fractions_full m Hk Hfull).
  unfold fraction_correct at 1.
  rewrite (count_perm (correct m) Hperm).
  unfold fraction_correct.
  rewrite <- (Permutation_length Hperm), (length_concat_full Hfull), mult_INR.
  assert (0 < length bs) by (destruct bs; [congruence | cbn; lia]).
  pose proof (lt_0_INR k Hk). pose proof (lt_0_INR (length bs) H).
  field. lra.
Qed.

(** ** The loss and the update on well-formed data *)

Lemma NLLLoss_defined (log_ps : tensor R) (labels : tensor nat) (n : nat) :
  has_shape [n; 10] log_ps = true -> 0 < n ->
  shape labels = [n] -> Forall (fun l => l < 10) (data labels) ->
  exists v, nn.NLLLoss log_ps labels = Some v.
Proof.
  intros Hps Hn Hl Hlab. apply has_shape_true in Hps. destruct Hps as [Hs Hd].
  cbn [numel fold_right] in Hd.
  assert (Hd' : length (data log_ps) = n * 10) by lia.
  pose proof (rows_lengths log_ps Hs Hd') as Hrows.
  unfold nn.NLLLoss. rewrite Hs, Hl, Nat.eqb_refl.
  destruct (Nat.ltb_spec 0 n) as [_|]; [|lia]. cbn [andb].
  revert Hrows Hlab. generalize (data labels). generalize (rows log_ps).
  induction l as [|r l IH]; intros labs Hrows Hlab; [cbn; eauto|].
  destruct labs as [|lab labs]; [cbn; eauto|].
  inversion Hrows as [|? ? Hr Hrows']; subst.
  inversion Hlab as [|? ? Hlt Hlab']; subst.
  cbn [combine fold_right fst snd].
  destruct (IH labs Hrows' Hlab') as [v ->].
  destruct (nth_error r lab) as [x|] eqn:E; [eauto|].
  apply nth_error_None in E. lia.
Qed.

Lemma has_shape_same {A : Type} (s : list nat) (t t' : tensor A) :
  (shape t', length (data t')) = (shape t, length (data t)) ->
  has_shape s t' = has_shape s t.
Proof.
  intros E. inversion E as [[E1 E2]]. unfold has_shape, well_shaped.
  now rewrite E1, E2.
Qed.

Lemma layers_ok_load (l1 l2 l3 l4 : nn.Linear) (ps : list (tensor R)) :
  map (fun t => (shape t, length (data t))) ps
  = map (fun t => (shape t, length (data t)))
        [nn.weight l1; nn.bias l1; nn.weight l2; nn.bias l2;
         nn.weight l3; nn.bias l3; nn.weight l4; nn.bias l4] ->
  exists w1 b1 w2 b2 w3 b3 w4 b4,
    ps = [w1; b1; w2; b2; w3; b3; w4; b4]
    /\ layers_ok (nn.load l1 w1 b1) (nn.load l2 w2 b2)
                 (nn.load l3 w3 b3) (nn.load l4 w4 b4)
       = layers_ok l1 l2 l3 l4.
Proof.
  intros E.
  destruct ps as [|w1 [|b1 [|w2 [|b2 [|w3 [|b3 [|w4 [|b4 [|? ?]]]]]]]]];
    try discriminate E.
  exists w1, b1, w2, b2, w3, b3, w4, b4. split; [reflexivity|].
  cbn [map] in E.
  injection E as E1 E2 E3 E4 E5 E6 E7 E8 E9 E10 E11 E12 E13 E14 E15 E16.
  unfold layers_ok, layer_ok, nn.Linear_ok, nn.load.
  cbn [nn.in_features nn.out_features nn.weight nn.bias].
  repeat match goal with
         | |- context [has_shape ?s ?t] =>
             lazymatch goal with
             | H1 : shape t = shape ?u, H2 : length (data t) = length (data ?u) |- _ =>
                 rewrite (@has_shape_same _ s u t) by (now rewrite H1, H2);
                 clear H1 H2
             end
         end.
  reflexivity.
Qed.

(** ** The training loop *)

Section TrainingLoop.
Context {rt : Runtime} {laws : RuntimeLaws rt} {Model : Type}
        {mc : ModelClass Model} {ag : Autograd Model}.

(** The models the loop keeps to: calling one on a batch gives [(n, 10)]
    log-probabilities, and an update of the parameters stays among them
    and keeps the mode. *)
Variable trainable : Model -> Prop.
Variable sh : list nat.
Hypothesis call_defined :
  forall md exs g,
    trainable md -> exs <> [] ->
    (forall ex, In ex exs -> length (data (fst ex)) = 784) ->
    exists y g', call md (fst (collate sh exs)) g = (Some y, g')
                 /\ has_shape [length exs; 10] y = true.
Hypothesis load_trainable :
  forall md ps,
    trainable md ->
    map (fun t => (shape t, length (data t))) ps
    = map (fun t => (shape t, length (data t))) (parameters md) ->
    trainable (load_parameters md ps)
    /\ mode (load_parameters md ps) = mode md.

Let State := state Model.

Lemma training_batch_collated (s : State) (md : bool) (rate : R)
      (running_loss : R) (exs : list (tensor R * nat)) :
  training_inv trainable md rate s ->
  exs <> [] ->
  (forall ex, In ex exs -> length (data (fst ex)) = 784 /\ snd ex < 10) ->
  exists running_loss' s',
    training_batch running_loss (fst (collate sh exs)) (snd (collate sh exs)) s
    = (Some running_loss', s')
    /\ training_inv trainable md rate s'
    /\ trace s' = trace s ++ training_events md rate.
Proof.
  intros (Htr & Hmd & Hge & Hlr) Hne Hexs.
  destruct (call_defined (generator s) Htr Hne (fun ex H => proj1 (Hexs ex H)))
    as (y & g' & Ecall & Hy).
  destruct (@NLLLoss_defined y (snd (collate sh exs)) (length exs) Hy) as [v Ev].
  { destruct exs; [congruence | cbn; lia]. }
  { reflexivity. }
  { cbn [collate snd data]. apply Forall_forall. intros l Hl.
    apply in_map_iff in Hl. destruct Hl as (ex & <- & Hex). now apply Hexs. }
  unfold training_batch, zero_grad, model_call, criterion, backward, step.
  unfold bind, get, emit, set_grads, modify, with_generator, ret, lift.
  cbn [fst snd model grads lr adam_state grad_enabled generator trace].
  rewrite Ecall. cbn [value grad_fn]. rewrite Ev, Hge.
  cbn [option_map grad_fn tape_labels tape_model tape_generator tape_images
       fst snd model grads lr adam_state grad_enabled generator trace].
  set (g := match option_map _ (grads s) with
            | Some g0 => Some _
            | None => Some _
            end).
  assert (Eg : exists gr, g = Some gr)
    by (unfold g; destruct (option_map _ (grads s)); eauto).
  destruct Eg as [gr ->].
  pose proof (adam_update_shapes (lr s) (adam_state s) (parameters (model s)) gr)
    as Hshapes.
  destruct (adam_update (lr s) (adam_state s) (parameters (model s)) gr)
    as [ps st] eqn:Eadam.
  cbn [fst] in Hshapes.
  destruct (load_trainable ps Htr Hshapes) as [Htr' Hmd'].
  eexists _, _. split; [reflexivity|].
  cbn [model grads lr adam_state grad_enabled generator trace].
  split.
  - unfold training_inv. cbn [model grads lr adam_state grad_enabled]. 
    repeat split; auto. congruence.
  - unfold training_events. rewrite Hmd, Hlr, <- !app_assoc. reflexivity.
Qed.

Variable dl : DataLoader.
Hypothesis Hds : dataset_ok sh (dataset dl) = true.

Lemma training_loop (s : State) (md : bool) (rate : R) :
  training_inv trainable md rate s ->
  exists idx running_loss s',
    Permutation idx (seq 0 (length (dataset dl)))
    /\ for_batches dl 0%R training_batch s = (Some running_loss, s')
    /\ training_inv trainable md rate s'
    /\ trace s'
       = trace s
         ++ concat (repeat (training_events md rate)
                           (length (batch_sampler (batch_size dl) [] idx))).
Proof.
  intros Hinv.
  destruct (sampler_perm dl (generator s)) as (idx & g' & Es & Hperm).
  exists idx.
  unfold for_batches, bind at 1, with_generator. rewrite Es.
  set (s1 := {| model := model s; grads := grads s; lr := lr s;
                adam_state := adam_state s; grad_enabled := grad_enabled s;
                generator := g'; trace := trace s |}).
  set (batches := batch_sampler (batch_size dl) [] idx).
  set (body := fun (acc : R) (batch : list nat) => _).
  pose (J := fun (pre : list (list nat)) (acc : R) (s' : State) =>
               training_inv trainable md rate s'
               /\ trace s' = trace s
                             ++ concat (repeat (training_events md rate) (length pre))).
  assert (Hbatches : Forall (fun b => b <> [] /\ Forall (fun i => i < length (dataset dl)) b)
                            batches).
  { apply Forall_forall. intros b Hb. split.
    - pose proof (batch_sampler_nonempty (batch_size dl) idx []) as H.
      rewrite Forall_forall in H. now apply H.
    - apply Forall_forall. intros i Hi.
      assert (Hin : In i idx).
      { pose proof (batch_sampler_concat (batch_size dl) idx []) as Hc.
        cbn in Hc. rewrite <- Hc. apply in_concat. eauto. }
      apply (Permutation_in _ Hperm) in Hin. apply in_seq in Hin. lia. }
  destruct (@for_each_rel _ _ _ body batches J) with (acc := 0%R) (s := s1)
    as (acc' & Eacc & Hinv' & Htrace).
  - intros pre b post acc s' Ebs [Hi Ht].
    assert (Hb : In b batches) by (rewrite Ebs; apply in_elt).
    rewrite Forall_forall in Hbatches. destruct (Hbatches b Hb) as [Hne Hidx].
    unfold body, bind, lift.
    rewrite (fetch_batch sh dl Hds Hne Hidx).
    destruct (all_some_nth (dataset dl) Hidx) as [_ Hlen].
    destruct (@training_batch_collated s' md rate acc
                (examples_at (dataset dl) b) Hi) as (rl & s2 & E & Hi2 & Ht2).
    + intros E. rewrite E in Hlen. destruct b; [congruence | discriminate].
    + intros ex Hex. apply (examples_at_incl (dataset dl) b) in Hex.
      destruct (dataset_ok_true _ _ Hds) as [_ H].
      destruct (H ex Hex) as (_ & H1 & H2). auto.
    + cbn [fst snd]. rewrite E. cbn [fst snd]. exists rl.
      split; [reflexivity|]. split; [exact Hi2|].
      rewrite Ht2, Ht, length_app, repeat_app, concat_app, <- app_assoc.
      cbn [length repeat concat]. now rewrite app_nil_r.
  - split; [exact Hinv|]. cbn [length repeat concat]. now rewrite app_nil_r.
  - destruct (for_each batches 0%R body s1) as [r s'].
    cbn in Eacc, Hinv', Htrace. subst r.
    exists acc', s'. auto.
Qed.
End TrainingLoop.

(** ** Cell 13: epochs *)

Lemma Linear_init_ok {rt : Runtime} {laws : RuntimeLaws rt}
      (i o : nat) (g : Generator) :
  layer_ok i o (fst (nn.Linear_init i o g)) = true.
Proof.
  unfold nn.Linear_init.
  pose proof (init_values_length g (o * i)) as Hw.
  destruct (init_values g (o * i)) as [w g1].
  pose proof (init_values_length g1 o) as Hb.
  destruct (init_values g1 o) as [b g2].
  cbn [fst] in *. unfold layer_ok, nn.Linear_ok.
  cbn [nn.in_features nn.out_features nn.weight nn.bias].
  rewrite !Nat.eqb_refl. cbn [andb].
  rewrite !has_shape_intro; try reflexivity; cbn [data shape numel fold_right]; lia.
Qed.

Lemma Cell3_init_ok {rt : Runtime} {laws : RuntimeLaws rt} (g : Generator) :
  Classifier_ok (fst (Cell3.__init__ g)) = true
  /\ Cell3.training (fst (Cell3.__init__ g)) = true.
Proof.
  unfold Cell3.__init__.
  pose proof (Linear_init_ok 784 256 g) as H1.
  destruct (nn.Linear_init 784 256 g) as [l1 g1].
  pose proof (Linear_init_ok 256 128 g1) as H2.
  destruct (nn.Linear_init 256 128 g1) as [l2 g2].
  pose proof (Linear_init_ok 128 64 g2) as H3.
  destruct (nn.Linear_init 128 64 g2) as [l3 g3].
  pose proof (Linear_init_ok 64 10 g3) as H4.
  destruct (nn.Linear_init 64 10 g3) as [l4 g4].
  cbn [fst] in *. unfold Classifier_ok, layers_ok.
  cbn [Cell3.fc1 Cell3.fc2 Cell3.fc3 Cell3.fc4 Cell3.training].
  now rewrite H1, H2, H3, H4.
Qed.

Lemma len_trainloader (trainset : list (tensor R * nat)) (idx : list nat) :
  Permutation idx (seq 0 (length trainset)) ->
  length (batch_sampler 64 [] idx) = len (Cell1.trainloader trainset).
Proof. exact (len_testloader trainset (idx := idx)). Qed.

Lemma add_to_zeros (l1 l2 : list R) :
  length l1 = length l2 ->
  map (fun xy => fst xy + snd xy)%R (combine (map (fun _ => 0%R) l1) l2) = l2.
Proof.
  revert l2. induction l1 as [|a l1 IH]; intros [|b l2] H; try discriminate.
  - reflexivity.
  - cbn [map combine fst snd]. rewrite Rplus_0_l. f_equal. apply IH.
    now injection H.
Qed.

Lemma accumulate_on_zeroed (g0 g : list (tensor R)) :
  map (fun t => (shape t, length (data t))) g0
  = map (fun t => (shape t, length (data t))) g ->
  map (fun ab => tensor_add (fst ab) (snd ab))
      (combine (map (fun t : tensor R =>
                       Tensor (shape t) (map (fun _ => 0%R) (data t))) g0) g)
  = g.
Proof.
  revert g. induction g0 as [|a g0 IH]; intros [|b g] H; try discriminate.
  - reflexivity.
  - cbn [map] in H. injection H as Hs Hd Hrest.
    cbn [map combine fst snd]. rewrite (IH g Hrest). f_equal.
    unfold tensor_add. cbn [shape data]. rewrite (add_to_zeros _ _ Hd), Hs.
    now destruct b.
Qed.

Lemma training_steps_snoc
      {rt : Runtime} {Model : Type} {mc : ModelClass Model} {ag : Autograd Model}
      (batches : list (tensor R * tensor nat))
      (images : tensor R) (labels : tensor nat) :
  forall (rl0 : R) (s0 : state Model) (rl : R) (s : state Model)
         (loss : R) (s' : state Model),
    training_steps batches rl0 s0 rl s ->
    training_step images labels s loss s' ->
    training_steps (batches ++ [(images, labels)]) rl0 s0 (rl + loss)%R s'.
Proof.
  induction batches as [|[im lab] batches IH]; intros rl0 s0 rl s loss s' H Hstep.
  - destruct H as [-> ->]. cbn [app training_steps].
    exists loss, s'. split; [exact Hstep|]. split; reflexivity.
  - cbn [app training_steps] in *. destruct H as (l1 & s1 & Hs & Hrest).
    exists l1, s1. split; [exact Hs|]. now apply IH with (s := s).
Qed.

Lemma loader_batches_collated (sh : list nat) (dl : DataLoader) (idx : list nat) :
  dataset_ok sh (dataset dl) = true ->
  Permutation idx (seq 0 (length (dataset dl))) ->
  loader_batches dl idx
  = Some (map (fun b => collate sh (examples_at (dataset dl) b))
              (batch_sampler (batch_size dl) [] idx)).
Proof.
  intros Hds Hperm. unfold loader_batches.
  assert (Hbatches : Forall (fun b => b <> []
                                      /\ Forall (fun i => i < length (dataset dl)) b)
                            (batch_sampler (batch_size dl) [] idx)).
  { apply Forall_forall. intros b Hb. split.
    - pose proof (batch_sampler_nonempty (batch_size dl) idx []) as H.
      rewrite Forall_forall in H. now apply H.
    - apply Forall_forall. intros i Hi.
      assert (Hin : In i idx).
      { pose proof (batch_sampler_concat (batch_size dl) idx []) as Hc.
        cbn in Hc. rewrite <- Hc. apply in_concat. eauto. }
      apply (Permutation_in _ Hperm) in Hin. apply in_seq in Hin. lia. }
  induction Hbatches as [|b l [Hne Hidx] _ IH]; [reflexivity|].
  cbn [map all_some]. rewrite (fetch_batch sh dl Hds Hne Hidx), IH. reflexivity.
Qed.

Section Cell13Epochs.
Context {rt : Runtime} {laws : RuntimeLaws rt} {ag : Autograd Cell3.Classifier}.
Variables (sh_train sh_test : list nat).
Variables (trainset testset : list (tensor R * nat)).
Hypothesis Htrain : dataset_ok sh_train trainset = true.
Hypothesis Htest : dataset_ok sh_test testset = true.
Hypothesis Hne : testset <> [].

Let trainloader := Cell1.trainloader trainset.
Let testloader := Cell1.testloader testset.
Let ok (m : Cell3.Classifier) : Prop := Classifier_ok m = true.

Lemma Cell3_call_defined (sh : list nat) :
  forall (md : Cell3.Classifier) exs (g : Generator),
    ok md -> exs <> [] ->
    (forall ex, In ex exs -> length (data (fst ex)) = 784) ->
    exists y g', call md (fst (collate sh exs)) g = (Some y, g')
                 /\ has_shape [length exs; 10] y = true.
Proof.
  intros md exs g Hok Hexs H784. eexists _, g. split.
  - cbn [call Cell3_ModelClass]. unfold lift.
    now rewrite (@forward_collated md sh exs Hok Hexs H784).
  - apply has_shape_intro; [reflexivity|].
    cbn [data numel fold_right].
    rewrite (@flat_map_constant_length _ _ 10); [lia|].
    intros ex _. now apply length_frow.
Qed.

Lemma Cell3_load_trainable :
  forall (md : Cell3.Classifier) ps,
    ok md ->
    map (fun t => (shape t, length (data t))) ps
    = map (fun t => (shape t, length (data t))) (parameters md) ->
    ok (load_parameters md ps) /\ mode (load_parameters md ps) = mode md.
Proof.
  intros md ps Hok E.
  destruct (layers_ok_load _ _ _ _ ps E)
    as (w1 & b1 & w2 & b2 & w3 & b3 & w4 & b4 & -> & Eok).
  split; [|reflexivity].
  unfold ok, Classifier_ok. cbn. unfold ok, Classifier_ok in Hok.
  now rewrite Eok.
Qed.

(** The gradients in [.grad], if any, have the shapes of the parameters. *)
Let grads_ok (s : state Cell3.Classifier) : Prop :=
  forall g0, grads s = Some g0 ->
    map (fun t => (shape t, length (data t))) g0
    = map (fun t => (shape t, length (data t))) (Cell3.parameters (model s)).

(** Autograd gives every parameter a gradient of its own shape. *)
Let gradient_shapes : Prop :=
  forall (m : Cell3.Classifier) (g : Generator)
         (images : tensor R) (labels : tensor nat),
    map (fun t => (shape t, length (data t))) (gradient m g images labels)
    = map (fun t => (shape t, length (data t))) (Cell3.parameters m).

Lemma training_batch_step (sh : list nat) (s : state Cell3.Classifier)
      (md : bool) (rate rl : R) (exs : list (tensor R * nat)) :
  gradient_shapes ->
  training_inv ok md rate s -> grads_ok s ->
  exs <> [] ->
  (forall ex, In ex exs -> length (data (fst ex)) = 784 /\ snd ex < 10) ->
  exists loss s',
    training_batch rl (fst (collate sh exs)) (snd (collate sh exs)) s
    = (Some (rl + loss)%R, s')
    /\ training_step (fst (collate sh exs)) (snd (collate sh exs)) s loss s'
    /\ training_inv ok md rate s' /\ grads_ok s'
    /\ trace s' = trace s ++ training_events md rate.
Proof.
  intros Hgrad (Hok & Hmd & Hge & Hlr) Hg Hexne Hexs.
  destruct (Cell3_call_defined sh (generator s) Hok Hexne
              (fun ex H => proj1 (Hexs ex H)))
    as (y & g' & Ecall & Hy).
  destruct (@NLLLoss_defined y (snd (collate sh exs)) (length exs) Hy) as [v Ev].
  { destruct exs; [congruence | cbn; lia]. }
  { reflexivity. }
  { cbn [collate snd data]. apply Forall_forall. intros l Hl.
    apply in_map_iff in Hl. destruct Hl as (ex & <- & Hex). now apply Hexs. }
  remember (fst (collate sh exs)) as images eqn:Eim.
  remember (snd (collate sh exs)) as labels eqn:Elab.
  set (gr := gradient (model s) (generator s) images labels).
  pose proof (adam_update_shapes (lr s) (adam_state s) (parameters (model s)) gr)
    as Hshapes.
  pose proof (Hgrad (model s) (generator s) images labels) as Hgr. fold gr in Hgr.
  assert (Eadam : adam_update (lr s) (adam_state s) (parameters (model s)) gr
                  = (fst (adam_update (lr s) (adam_state s) (parameters (model s)) gr),
                     snd (adam_update (lr s) (adam_state s) (parameters (model s)) gr)))
    by apply surjective_pairing.
  set (ps := fst (adam_update (lr s) (adam_state s) (parameters (model s)) gr)) in *.
  set (st := snd (adam_update (lr s) (adam_state s) (parameters (model s)) gr)) in *.
  destruct (Cell3_load_trainable ps Hok Hshapes) as [Hok' Hmd'].
  assert (Epar : Cell3.parameters (Cell3.load_parameters (model s) ps) = ps).
  { destruct (layers_ok_load _ _ _ _ ps Hshapes)
      as (w1 & b1 & w2 & b2 & w3 & b3 & w4 & b4 & -> & _). reflexivity. }
  set (s' := {| model := load_parameters (model s) ps;
                grads := Some gr; lr := lr s; adam_state := st;
                grad_enabled := true; generator := g';
                trace := trace s
                         ++ [Ezero_grad; Eforward Training (mode (model s)) true;
                             Eloss; Ebackward; Estep (lr s)] |}).
  exists v, s'. split; [|split; [|split; [|split]]].
  - unfold training_batch, zero_grad, model_call, criterion, backward, step.
    unfold bind, get, emit, set_grads, modify, with_generator, ret, lift.
    cbn [fst snd model grads lr adam_state grad_enabled generator trace].
    rewrite Ecall. cbn [fst snd value grad_fn]. rewrite Ev, Hge.
    cbn [option_map grad_fn tape_labels tape_model tape_generator tape_images
         fst snd model grads lr adam_state grad_enabled generator trace value].
    fold gr.
    assert (Eacc : match option_map
                           (map (fun t : tensor R =>
                                   Tensor (shape t) (map (fun _ => 0%R) (data t))))
                           (grads s) with
                   | Some g0 =>
                       Some (map (fun ab => tensor_add (fst ab) (snd ab))
                                 (combine g0 gr))
                   | None => Some gr
                   end = Some gr).
    { destruct (grads s) as [g0|] eqn:Eg; cbn [option_map]; [|reflexivity].
      rewrite accumulate_on_zeroed; [reflexivity|].
      rewrite (Hg g0 Eg). symmetry. exact Hgr. }
    rewrite Eacc, Eadam.
    cbn [fst snd model grads lr adam_state grad_enabled generator trace].
    unfold s'. rewrite <- !app_assoc. reflexivity.
  - exists y, g'. split; [exact Ecall|]. split; [exact Ev | reflexivity].
  - unfold training_inv, s'. cbn [model grads lr adam_state grad_enabled].
    split; [exact Hok'|]. split; [congruence|]. split; [reflexivity | exact Hlr].
  - unfold grads_ok, s'. cbn [model grads]. intros g0 [= <-].
    change (Cell3.parameters (load_parameters (model s) ps))
      with (Cell3.parameters (Cell3.load_parameters (model s) ps)).
    rewrite Epar, Hgr. symmetry. exact Hshapes.
  - unfold s', training_events. cbn [trace]. now rewrite Hmd, Hlr.
Qed.

(** The training loop of one epoch: one training step for each batch the
    loader yields, in the loader's order. *)
Lemma training_loop_steps (s : state Cell3.Classifier) (md : bool) (rate : R) :
  gradient_shapes ->
  training_inv ok md rate s -> grads_ok s ->
  exists idx g0 batches running_loss s1,
    sampler trainloader (generator s) = (Some idx, g0)
    /\ loader_batches trainloader idx = Some batches
    /\ length batches = len trainloader
    /\ for_batches trainloader 0%R training_batch s = (Some running_loss, s1)
    /\ training_steps batches 0%R (after_draw g0 s) running_loss s1
    /\ training_inv ok md rate s1 /\ grads_ok s1
    /\ trace s1
       = trace s ++ concat (repeat (training_events md rate) (len trainloader)).
Proof.
  intros Hgrad Hinv Hg.
  destruct (sampler_perm trainloader (generator s)) as (idx & g0 & Es & Hperm).
  pose proof (loader_batches_collated sh_train trainloader Htrain Hperm) as Eb.
  set (ibatches := batch_sampler (batch_size trainloader) [] idx) in *.
  assert (Hlen : length ibatches = len trainloader).
  { unfold ibatches. change (batch_size trainloader) with 64.
    exact (len_trainloader trainset Hperm). }
  exists idx, g0. eexists. 
  unfold for_batches, bind at 1, with_generator. rewrite Es.
  change {| model := model s; grads := grads s; lr := lr s;
            adam_state := adam_state s; grad_enabled := grad_enabled s;
            generator := g0; trace := trace s |} with (after_draw g0 s).
  fold ibatches.
  set (body := fun (acc : R) (batch : list nat) => _).
  set (co := fun b : list nat => collate sh_train (examples_at (dataset trainloader) b)) in *.
  pose (J := fun (pre : list (list nat)) (acc : R) (s' : state Cell3.Classifier) =>
               training_inv ok md rate s' /\ grads_ok s'
               /\ training_steps (map co pre) 0%R (after_draw g0 s) acc s'
               /\ trace s' = trace s
                             ++ concat (repeat (training_events md rate) (length pre))).
  assert (Hbatches : Forall (fun b => b <> []
                                      /\ Forall (fun i => i < length (dataset trainloader)) b)
                            ibatches).
  { apply Forall_forall. intros b Hb. split.
    - pose proof (batch_sampler_nonempty (batch_size trainloader) idx []) as H.
      rewrite Forall_forall in H. now apply H.
    - apply Forall_forall. intros i Hi.
      assert (Hin : In i idx).
      { pose proof (batch_sampler_concat (batch_size trainloader) idx []) as Hc.
        cbn in Hc. rewrite <- Hc. apply in_concat. eauto. }
      apply (Permutation_in _ Hperm) in Hin. apply in_seq in Hin. lia. }
  destruct (@for_each_rel _ _ _ body ibatches J) with (acc := 0%R) (s := after_draw g0 s)
    as (acc' & Eacc & Hinv' & Hg' & Hsteps & Htrace).
  - intros pre b post acc s' Ebs (Hi & Hgi & Hst & Ht).
    assert (Hb : In b ibatches) by (rewrite Ebs; apply in_elt).
    rewrite Forall_forall in Hbatches. destruct (Hbatches b Hb) as [Hbne Hidx].
    unfold body, bind, lift.
    rewrite (fetch_batch sh_train trainloader Htrain Hbne Hidx).
    destruct (all_some_nth (dataset trainloader) Hidx) as [_ Hl].
    destruct (@training_batch_step sh_train s' md rate acc
                (examples_at (dataset trainloader) b) Hgrad Hi Hgi)
      as (loss & s2 & E & Hstep & Hi2 & Hg2 & Ht2).
    + intros E. rewrite E in Hl. destruct b; [congruence | discriminate].
    + intros ex Hex. apply (examples_at_incl (dataset trainloader) b) in Hex.
      destruct (dataset_ok_true _ _ Htrain) as [_ H].
      destruct (H ex Hex) as (_ & H1 & H2). auto.
    + cbn [fst snd]. rewrite E. cbn [fst snd]. exists (acc + loss)%R.
      split; [reflexivity|]. split; [exact Hi2|]. split; [exact Hg2|]. split.
      * rewrite map_app. cbn [map].
        change (collate sh_train (examples_at (dataset trainloader) b))
          with (co b) in Hstep.
        destruct (co b) as [im lab] eqn:Eco. cbn [fst snd] in Hstep.
        eapply training_steps_snoc; eassumption.
      * rewrite Ht2, Ht, length_app, repeat_app, concat_app, <- app_assoc.
        cbn [length repeat concat]. now rewrite app_nil_r.
  - unfold J. split; [exact Hinv|]. split; [exact Hg|].
    split; [split; reflexivity|].
    cbn [length repeat concat after_draw trace]. now rewrite app_nil_r.
  - destruct (for_each ibatches 0%R body (after_draw g0 s)) as [r s'].
    cbn [fst snd] in Eacc, Hinv', Hg', Hsteps, Htrace. subst r.
    exists acc', s'. split; [reflexivity|]. split; [exact Eb|].
    split; [now rewrite length_map|]. split; [reflexivity|].
    split; [exact Hsteps|]. split; [exact Hinv'|]. split; [exact Hg'|].
    now rewrite Htrace, Hlen.
Qed.

(** One epoch, with the data of its steps. *)
Lemma epoch_steps (e : nat) (s : state Cell3.Classifier) (md : bool) (rate : R) :
  gradient_shapes ->
  training_inv ok md rate s -> grads_ok s ->
  exists s' a,
    Cell13.epoch trainloader testloader e s = (Some tt, s')
    /\ training_epoch trainloader testloader s a s'
    /\ training_inv ok md rate s' /\ grads_ok s'
    /\ trace s'
       = trace s ++ epoch_events (len trainloader) (len testloader) md md rate a.
Proof.
  intros Hgrad Hinv Hg.
  destruct (training_loop_steps Hgrad Hinv Hg)
    as (idx & g0 & batches & rl & s1 & Es & Eb & Hlen & Eloop & Hsteps
        & Hinv1 & Hg1 & Ht1).
  destruct Hinv1 as (Hok1 & Hmd1 & Hge1 & Hlr1).
  destruct (@validation_pass_prints rt laws sh_test testset Htest Hne s1 Hok1)
    as (idx' & g' & _ & Hperm' & Eval).
  fold testloader in Eval.
  cbn [mode Cell3_ModelClass] in Hmd1.
  eexists _, _. split; [|split; [|split; [|split]]].
  - unfold Cell13.epoch, bind. rewrite Eloop, Eval. reflexivity.
  - exists idx, g0, batches, rl, s1. split; [exact Es|]. split; [exact Eb|].
    split; [exact Hlen|]. split; [exact Hsteps|]. split; [exact Eloop|].
    split; [exact Eval|]. reflexivity.
  - unfold training_inv. cbn [model grad_enabled lr]. auto.
  - unfold grads_ok. cbn [model grads]. exact Hg1.
  - cbn [trace]. rewrite Ht1, Hmd1. unfold epoch_events.
    rewrite <- !app_assoc. reflexivity.
Qed.

(** One epoch, with the draw of the test loader. *)
Lemma epoch_runs_sampled (e : nat) (s : state Cell3.Classifier)
      (md : bool) (rate : R) :
  training_inv ok md rate s ->
  exists running_loss s1 idx g' s',
    for_batches trainloader 0%R training_batch s = (Some running_loss, s1)
    /\ sampler testloader (generator s1) = (Some idx, g')
    /\ Permutation idx (seq 0 (length testset))
    /\ Cell13.epoch trainloader testloader e s = (Some tt, s')
    /\ model s' = model s1
    /\ Classifier_ok (model s') = true
    /\ trace s'
       = trace s
         ++ epoch_events (len trainloader) (len testloader) md md rate
              (torch.sum (map (fraction_correct (model s'))
                              (batches_of testloader idx))
               * 100 / INR (len testloader))%R.
Proof.
  intros Hinv.
  destruct (@training_loop rt laws _ _ ag ok sh_train
              (Cell3_call_defined sh_train) Cell3_load_trainable
              trainloader Htrain s md rate Hinv)
    as (idx & rl & s1 & Hperm & Eloop & Hinv1 & Ht1).
  destruct Hinv1 as (Hok1 & Hmd1 & Hge1 & Hlr1).
  destruct (@validation_pass_prints rt laws sh_test testset Htest Hne s1 Hok1)
    as (idx' & g' & Es' & Hperm' & Eval).
  fold testloader in Eval, Es'.
  exists rl, s1, idx', g'. eexists.
  split; [exact Eloop|]. split; [exact Es'|]. split; [exact Hperm'|].
  split; [unfold Cell13.epoch, bind; rewrite Eloop, Eval; reflexivity|].
  split; [reflexivity|]. split; [exact Hok1|].
  cbn [trace model]. rewrite Ht1. unfold epoch_events.
  change (batch_size trainloader) with 64.
  rewrite (len_trainloader trainset Hperm).
  cbn [mode Cell3_ModelClass] in Hmd1. rewrite Hmd1, <- !app_assoc.
  reflexivity.
Qed.

(** One epoch from a state the loop keeps to. *)
Lemma epoch_runs (e : nat) (s : state Cell3.Classifier) (md : bool) (rate : R) :
  training_inv ok md rate s ->
  exists s' idx,
    Cell13.epoch trainloader testloader e s = (Some tt, s')
    /\ training_inv ok md rate s'
    /\ Permutation idx (seq 0 (length testset))
    /\ trace s'
       = trace s
         ++ epoch_events (len trainloader) (len testloader) md md rate
              (torch.sum (map (fraction_correct (model s'))
                              (batches_of testloader idx))
               * 100 / INR (len testloader))%R.
Proof.
  intros Hinv.
  destruct (@training_loop rt laws _ _ ag ok sh_train
              (Cell3_call_defined sh_train) Cell3_load_trainable
              trainloader Htrain s md rate Hinv)
    as (idx & rl & s1 & Hperm & Eloop & Hinv1 & Ht1).
  destruct Hinv1 as (Hok1 & Hmd1 & Hge1 & Hlr1).
  destruct (@validation_pass_prints rt laws sh_test testset Htest Hne s1 Hok1)
    as (idx' & g' & _ & Hperm' & Eval).
  unfold Cell13.epoch, bind. fold trainloader testloader in Eloop, Eval |- *.
  rewrite Eloop, Eval.
  eexists _, idx'. split; [reflexivity|].
  split; [unfold training_inv; cbn; auto|].
  split; [exact Hperm'|].
  cbn [trace model]. rewrite Ht1. unfold epoch_events.
  change (batch_size trainloader) with 64.
  rewrite (len_trainloader trainset Hperm).
  cbn [mode Cell3_ModelClass] in Hmd1. rewrite Hmd1, <- !app_assoc.
  reflexivity.
Qed.
End Cell13Epochs.

Lemma training_epochs_snoc
      {rt : Runtime} {ag : Autograd Cell3.Classifier}
      (trainloader testloader : DataLoader) (accs : list R) :
  forall (s0 s : state Cell3.Classifier) (a : R) (s' : state Cell3.Classifier),
    training_epochs trainloader testloader accs s0 s ->
    training_epoch trainloader testloader s a s' ->
    training_epochs trainloader testloader (accs ++ [a]) s0 s'.
Proof.
  induction accs as [|a0 accs IH]; intros s0 s a s' H He.
  - cbn [training_epochs] in H. subst s. cbn [app training_epochs].
    exists s'. split; [exact He | reflexivity].
  - cbn [app training_epochs] in *. destruct H as (s1 & H1 & Hrest).
    exists s1. split; [exact H1|]. now apply IH with (s := s).
Qed.

(** C6.  The run of cell 13 completes, and it is 10 epochs in a row from the
    state the three assignments before the loop set up.  In each epoch the
    train loader's sampler draws, and every batch the loader yields gets one
    training step, in the loader's order: the forward pass on the batch's
    images, the negative log-likelihood loss of the resulting
    log-probabilities against the batch's labels (added to the running
    loss), backpropagation leaving in [.grad] the gradients of this batch
    alone (those of the batch before are zeroed first), and one Adam update
    of the parameters from these gradients at learning rate 0.003; then the
    validation pass runs once and prints one accuracy.  The trace of the run
    is, epoch after epoch: for every training batch zero_grad, forward
    (gradients on), loss, backward, step with learning rate 0.003; then the
    validation forward passes (gradients off); then the print.  (Autograd is
    taken to give every parameter a gradient of its own shape.) *)
Theorem training_loop_order
        {rt : Runtime} {laws : RuntimeLaws rt} {ag : Autograd Cell3.Classifier}
        (sh_train sh_test : list nat)
        (trainset testset : list (tensor R * nat)) (g : Generator) :
  dataset_ok sh_train trainset = true ->
  dataset_ok sh_test testset = true ->
  testset <> [] ->
  (forall (m : Cell3.Classifier) (g0 : Generator)
          (images : tensor R) (labels : tensor nat),
      map (fun t => (shape t, length (data t))) (gradient m g0 images labels)
      = map (fun t => (shape t, length (data t))) (Cell3.parameters m)) ->
  exists s' accuracies,
    Cell13.run (Cell1.trainloader trainset) (Cell1.testloader testset) g
    = (Some tt, s')
    /\ length accuracies = 10
    /\ training_epochs (Cell1.trainloader trainset) (Cell1.testloader testset)
         accuracies
         (initial_state (fst (Cell3.__init__ g)) (snd (Cell3.__init__ g))) s'
    /\ lr s' = 0.003%R
    /\ trace s'
       = flat_map
           (fun a =>
              concat (repeat [Ezero_grad; Eforward Training true true; Eloss;
                              Ebackward; Estep 0.003%R]
                             (len (Cell1.trainloader trainset)))
              ++ repeat (Eforward Validation true false)
                        (len (Cell1.testloader testset))
              ++ [Eprint a])
           accuracies.
Proof.
  intros Htrain Htest Hne Hgrad.
  unfold Cell13.run.
  destruct (Cell3_init_ok g) as [Hok Hmode].
  destruct (Cell3.__init__ g) as [m g0]. cbn [fst snd] in *.
  set (trainloader := Cell1.trainloader trainset).
  set (testloader := Cell1.testloader testset).
  set (evs := fun a : R => _ ++ _ ++ [Eprint a]).
  set (s0 := initial_state m g0).
  pose (J := fun (pre : list nat) (_ : unit) (s : state Cell3.Classifier) =>
               training_inv (fun m => Classifier_ok m = true) true 0.003%R s
               /\ (forall gs, grads s = Some gs ->
                      map (fun t => (shape t, length (data t))) gs
                      = map (fun t => (shape t, length (data t)))
                            (Cell3.parameters (model s)))
               /\ exists accs, length accs = length pre
                               /\ training_epochs trainloader testloader accs s0 s
                               /\ trace s = flat_map evs accs).
  destruct (@for_each_rel _ _ _
              (fun (_ : unit) e => Cell13.epoch trainloader testloader e)
              (seq 0 epochs) J) with (acc := tt) (s := s0)
    as (u & Erun & Hinv & _ & accs & Hlen & Hchain & Htrace).
  - intros pre e post [] s _ (Hinv & Hg & accs & Hlen & Hchain & Htrace).
    destruct (@epoch_steps rt laws ag sh_train sh_test trainset testset
                Htrain Htest Hne e s true 0.003%R Hgrad Hinv Hg)
      as (s1 & a & E & Hep & Hinv1 & Hg1 & Ht1).
    fold trainloader testloader in E, Ht1, Hep. rewrite E. cbn [fst snd].
    exists tt. split; [reflexivity|]. split; [exact Hinv1|].
    split; [exact Hg1|].
    exists (accs ++ [a]). split; [|split].
    + rewrite !length_app, Hlen. reflexivity.
    + now apply training_epochs_snoc with (s := s).
    + rewrite Ht1, Htrace, flat_map_app. cbn [flat_map].
      rewrite app_nil_r. reflexivity.
  - split; [|split].
    + unfold training_inv, s0, initial_state. cbn. auto.
    + unfold s0, initial_state. cbn [grads]. discriminate.
    + exists []. split; [reflexivity|]. split; reflexivity.
  - destruct (for_each _ _ _ _) as [r s']. cbn [fst snd] in *. subst r.
    destruct u. destruct Hinv as (_ & _ & _ & Hlr).
    exists s', accs. split; [reflexivity|].
    split; [rewrite Hlen; reflexivity|]. split; [exact Hchain|].
    split; [exact Hlr | exact Htrace].
Qed.

(** ** The concrete instances *)

#[local] Instance constant_runtime_laws : RuntimeLaws constant_runtime.
Proof.
  constructor; cbn; intros.
  - apply repeat_length.
  - reflexivity.
  - apply repeat_length.
  - reflexivity.
Qed.

Lemma max_from_first (l : list R) (best : R) (bi i : nat) :
  Forall (fun v => v <= best)%R l -> max_from best bi i l = (best, bi).
Proof.
  revert i. induction l as [|v l IH]; intros i H; [reflexivity|].
  inversion H as [|? ? Hv Hl]; subst. cbn [max_from].
  destruct (Rlt_dec best v) as [Hlt|_]; [lra|]. now apply IH.
Qed.

Lemma max_from_next (l : list R) (best v : R) (bi i : nat) :
  (best < v)%R -> max_from best bi i (v :: l) = max_from v i (S i) l.
Proof.
  intros H. cbn [max_from]. destruct (Rlt_dec best v); [reflexivity | contradiction].
Qed.

Lemma dot_zero (r v : list R) : Forall (fun w => w = 0%R) v -> nn.dot r v = 0%R.
Proof.
  unfold nn.dot. revert r. induction v as [|w v IH]; intros r H.
  - destruct r; reflexivity.
  - destruct r as [|a r]; [reflexivity|].
    inversion H as [|? ? Hw Hv]; subst.
    cbn [combine map torch.sum fold_right fst snd].
    fold (torch.sum (map (fun ab => (fst ab * snd ab)%R) (combine r v))).
    rewrite (IH r Hv). lra.
Qed.

Lemma in_row_at {A : Type} (k : nat) (d : list A) (i : nat) (x : A) :
  In x (row_at k d i) -> In x d.
Proof.
  unfold row_at. intros H.
  rewrite <- (firstn_skipn (i * k) d). apply in_or_app. right.
  rewrite <- (firstn_skipn k (skipn (i * k) d)). apply in_or_app. now left.
Qed.

Lemma rows_zeros (o i : nat) :
  Forall (Forall (fun w => w = 0%R)) (rows (zeros [o; i])).
Proof.
  unfold rows, zeros. cbn [shape data].
  apply Forall_forall. intros r Hr. apply in_map_iff in Hr.
  destruct Hr as (k & <- & _). apply Forall_forall. intros w Hw.
  apply in_row_at in Hw. now apply repeat_spec in Hw.
Qed.

Lemma affine_zero_layer (i o : nat) (b r : list R) :
  length b = o ->
  nn.affine (zero_layer i o b) r = map (fun v => 0 + v)%R b.
Proof.
  intros Hb. unfold nn.affine, zero_layer. cbn [nn.weight nn.bias data].
  pose proof (rows_zeros o i) as Hz.
  assert (Hl : length (rows (zeros [o; i])) = length b)
    by (rewrite Hb; now apply length_rows with (k := i)).
  revert Hz Hl. generalize (rows (zeros [o; i])). clear Hb.
  induction b as [|v b IH]; intros ws Hz Hl.
  - destruct ws; [reflexivity | discriminate].
  - destruct ws as [|w ws]; [discriminate|].
    inversion Hz as [|? ? Hw Hws]; subst.
    cbn [combine map fst snd]. rewrite (dot_zero r Hw). f_equal.
    apply IH; [exact Hws | now injection Hl].
Qed.

Lemma class0_model_ok : Classifier_ok class0_model = true.
Proof. vm_compute. reflexivity. Qed.

(** The zero-weight classifier gives every image class 0. *)
Lemma class0_model_predicts (img : tensor R) :
  predicted_class (Cell3.fc1 class0_model) (Cell3.fc2 class0_model)
                  (Cell3.fc3 class0_model) (Cell3.fc4 class0_model) img
  = 0.
Proof.
  unfold predicted_class, forward_row. cbn [class0_model Cell3.fc4].
  rewrite (@affine_zero_layer 64 10 class0_bias _ eq_refl).
  rewrite exp_log_softmax_row by discriminate.
  set (S := torch.sum _).
  assert (HS : (0 < S)%R) by (apply sum_exp_pos; discriminate).
  cbn [class0_bias repeat map row_max].
  rewrite max_from_first; [reflexivity|].
  assert (E : (Rtrigo_def.exp (0 + 0) / S <= Rtrigo_def.exp (0 + 1) / S)%R).
  { apply Rmult_le_compat_r.
    - left. now apply Rinv_0_lt_compat.
    - left. apply exp_increasing. lra. }
  repeat (apply Forall_cons; [exact E|]). apply Forall_nil.
Qed.

Lemma class0_model_correct (ex : tensor R * nat) :
  correct class0_model ex = (0 =? snd ex).
Proof. unfold correct. now rewrite class0_model_predicts. Qed.

Lemma examples65_ok : dataset_ok [1; 28; 28] examples65 = true.
Proof. vm_compute. reflexivity. Qed.

Lemma examples64_ok : dataset_ok [1; 28; 28] examples64 = true.
Proof. vm_compute. reflexivity. Qed.

(** ** C1: what the printed accuracy is *)

Lemma batches_of_testloader (testset : list (tensor R * nat)) (idx : list nat) :
  Permutation idx (seq 0 (length testset)) ->
  let batches := batches_of (Cell1.testloader testset) idx in
  Permutation (concat batches) testset
  /\ length batches = len (Cell1.testloader testset)
  /\ (length testset mod 64 = 0 -> Forall (fun b => length b = 64) batches).
Proof.
  intros Hperm. unfold batches_of.
  cbn [Cell1.testloader dataset batch_size]. split; [|split].
  - rewrite <- examples_at_concat.
    pose proof (batch_sampler_concat 64 idx []) as Hc. cbn in Hc. rewrite Hc.
    now apply examples_at_perm.
  - rewrite length_map. now apply len_testloader.
  - intros Hmod.
    assert (Hfull : Forall (fun b => length b = 64) (batch_sampler 64 [] idx)).
    { apply batch_sampler_full; cbn [length]; try lia.
      apply Permutation_length in Hperm. rewrite length_seq in Hperm.
      now rewrite Hperm. }
    apply Forall_forall. intros b Hb. apply in_map_iff in Hb.
    destruct Hb as (ib & <- & Hib).
    rewrite Forall_forall in Hfull. rewrite <- (Hfull ib Hib).
    apply all_some_nth. apply Forall_forall. intros i Hi.
    assert (Hin : In i idx).
    { pose proof (batch_sampler_concat 64 idx []) as Hc.
      cbn in Hc. rewrite <- Hc. apply in_concat. eauto. }
    apply (Permutation_in _ Hperm) in Hin. apply in_seq in Hin. lia.
Qed.

Lemma batches_of_sizes (dl : DataLoader) (idx : list nat) :
  0 < batch_size dl ->
  Permutation idx (seq 0 (length (dataset dl))) ->
  Forall (fun b => 1 <= length b <= batch_size dl) (batches_of dl idx)
  /\ Forall (fun b => length b = batch_size dl) (removelast (batches_of dl idx)).
Proof.
  intros Hbs Hperm.
  pose proof (batch_sampler_concat (batch_size dl) idx []) as Hc. cbn in Hc.
  destruct (@batch_sampler_sizes (batch_size dl) idx Hbs [] Hbs) as [Hs1 Hs2].
  assert (Hlen : forall b, In b (batch_sampler (batch_size dl) [] idx) ->
                   length (examples_at (dataset dl) b) = length b).
  { intros b Hb. apply all_some_nth. apply Forall_forall. intros i Hi.
    assert (Hin : In i idx) by (rewrite <- Hc; apply in_concat; eauto).
    apply (Permutation_in _ Hperm) in Hin. apply in_seq in Hin. lia. }
  unfold batches_of. split.
  - apply Forall_forall. intros b Hb. apply in_map_iff in Hb.
    destruct Hb as (ib & <- & Hib). rewrite (Hlen ib Hib).
    rewrite Forall_forall in Hs1. now apply Hs1.
  - rewrite removelast_map. apply Forall_forall. intros b Hb.
    apply in_map_iff in Hb. destruct Hb as (ib & <- & Hib).
    rewrite (Hlen ib (In_removelast _ _ Hib)).
    rewrite Forall_forall in Hs2. now apply Hs2.
Qed.

Lemma batches_of_wellformed (sh : list nat) (dl : DataLoader) (idx : list nat) :
  dataset_ok sh (dataset dl) = true ->
  Permutation idx (seq 0 (length (dataset dl))) ->
  Forall (fun b => b <> []
                   /\ forall ex, In ex b -> length (data (fst ex)) = 784)
         (batches_of dl idx).
Proof.
  intros Hds Hperm.
  pose proof (batch_sampler_concat (batch_size dl) idx []) as Hc. cbn in Hc.
  pose proof (batch_sampler_nonempty (batch_size dl) idx []) as Hn.
  rewrite Forall_forall in Hn.
  unfold batches_of. apply Forall_forall. intros b Hb. apply in_map_iff in Hb.
  destruct Hb as (ib & <- & Hib). split.
  - assert (Hl : length (examples_at (dataset dl) ib) = length ib).
    { apply all_some_nth. apply Forall_forall. intros i Hi.
      assert (Hin : In i idx) by (rewrite <- Hc; apply in_concat; eauto).
      apply (Permutation_in _ Hperm) in Hin. apply in_seq in Hin. lia. }
    intros E. rewrite E in Hl. specialize (Hn ib Hib).
    destruct ib; [contradiction | discriminate].
  - intros ex Hex. apply (examples_at_incl (dataset dl) ib) in Hex.
    exact (proj1 (proj2 (proj2 (dataset_ok_true _ _ Hds) ex Hex))).
Qed.

(** C1, as the code has it.  From a state whose model is well formed, an
    epoch of cell 13 completes: after the training loop the test loader's
    sampler draws the indices [idx], the loader yields the batches
    [batches_of testloader idx] (a reordering of the test set cut into
    batches of 64, the last one possibly smaller), and the accuracy printed
    is 100 times the mean, over these batches, of the accuracy cells 7-11
    compute for each batch under the model as the training loop left it,
    which is the fraction of the batch's examples whose predicted class is
    their label.  When 64 divides the size of the test set the printed value
    is 100 times the fraction of correctly classified examples of the whole
    test set. *)
Theorem printed_accuracy_is_mean_of_batch_accuracies
        {rt : Runtime} {laws : RuntimeLaws rt} {ag : Autograd Cell3.Classifier}
        (sh_train sh_test : list nat)
        (trainset testset : list (tensor R * nat))
        (e : nat) (s : state Cell3.Classifier) :
  dataset_ok sh_train trainset = true ->
  dataset_ok sh_test testset = true ->
  testset <> [] ->
  Classifier_ok (model s) = true ->
  grad_enabled s = true ->
  exists running_loss s1 idx g' s' before,
    for_batches (Cell1.trainloader trainset) 0%R training_batch s
    = (Some running_loss, s1)
    /\ sampler (Cell1.testloader testset) (generator s1) = (Some idx, g')
    /\ loader_batches (Cell1.testloader testset) idx
       = Some (map (collate sh_test) (batches_of (Cell1.testloader testset) idx))
    /\ Cell13.epoch (Cell1.trainloader trainset) (Cell1.testloader testset) e s
       = (Some tt, s')
    /\ model s' = model s1
    /\ Permutation (concat (batches_of (Cell1.testloader testset) idx)) testset
    /\ length (batches_of (Cell1.testloader testset) idx)
       = len (Cell1.testloader testset)
    /\ Forall (fun b => 1 <= length b <= 64)
              (batches_of (Cell1.testloader testset) idx)
    /\ Forall (fun b => length b = 64)
              (removelast (batches_of (Cell1.testloader testset) idx))
    /\ Forall (fun b =>
                 exists y,
                   Cell3.forward (model s') (fst (collate sh_test b)) = Some y
                   /\ Cell11.accuracy (torch.exp y) (snd (collate sh_test b))
                      = Some (fraction_correct (model s') b))
              (batches_of (Cell1.testloader testset) idx)
    /\ trace s'
       = trace s ++ before
         ++ [Eprint (torch.sum (map (fraction_correct (model s'))
                                    (batches_of (Cell1.testloader testset) idx))
                     * 100
                     / INR (length (batches_of (Cell1.testloader testset) idx)))%R]
    /\ Forall (fun ev => match ev with Eprint _ => False | _ => True end) before
    /\ (length testset mod 64 = 0 ->
        (torch.sum (map (fraction_correct (model s'))
                        (batches_of (Cell1.testloader testset) idx))
         * 100 / INR (length (batches_of (Cell1.testloader testset) idx)))%R
        = (100 * fraction_correct (model s') testset)%R).
Proof.
  intros Htrain Htest Hne Hok Hge.
  destruct (@epoch_runs_sampled rt laws ag sh_train sh_test trainset testset
              Htrain Htest Hne e s (Cell3.training (model s)) (lr s))
    as (rl & s1 & idx & g' & s' & Eloop & Es & Hperm & E & Hm & Hok' & Ht).
  { unfold training_inv. repeat split; auto. }
  set (tl := Cell1.testloader testset) in *.
  destruct (batches_of_testloader testset Hperm) as (Hp & Hlen & Hfull).
  fold tl in Hp, Hlen, Hfull.
  destruct (@batches_of_sizes tl idx) as [Hs1 Hs2]; [cbn; lia | exact Hperm |].
  pose proof (@batches_of_wellformed sh_test tl idx Htest Hperm) as Hwf.
  pose proof (@loader_batches_collated sh_test tl idx Htest Hperm) as Eb.
  exists rl, s1, idx, g', s'. eexists.
  split; [exact Eloop|]. split; [exact Es|].
  split; [rewrite Eb; unfold batches_of; now rewrite map_map|].
  split; [exact E|]. split; [exact Hm|]. split; [exact Hp|].
  split; [exact Hlen|]. split; [exact Hs1|]. split; [exact Hs2|].
  split; [|split; [|split]].
  - apply Forall_forall. intros b Hb. rewrite Forall_forall in Hwf.
    destruct (Hwf b Hb) as [Hbne H784]. eexists. split.
    + exact (@forward_collated (model s') sh_test b Hok' Hbne H784).
    + exact (@accuracy_collated (model s') sh_test b Hok' Hbne H784).
  - rewrite Ht. unfold epoch_events. rewrite Hlen, <- app_assoc. reflexivity.
  - apply Forall_app. split.
    + apply Forall_concat. apply Forall_forall. intros l Hl.
      apply repeat_spec in Hl. subst l. unfold training_events.
      repeat constructor.
    + apply Forall_forall. intros ev Hev. apply repeat_spec in Hev. now subst ev.
  - intros Hmod. apply mean_of_full_batches with (k := 64); auto; [lia|].
    intros E0. rewrite E0 in Hlen. cbn [length] in Hlen.
    pose proof (len_testloader_pos Hne). fold tl in H. lia.
Qed.

Lemma INR_numeral (n : nat) : INR n = IZR (Z.of_nat n).
Proof. apply INR_IZR_INZ. Qed.

(** C1 as the specification has it fails: with the zero-weight classifier
    and the 65 test images (64 of class 1 in the first batch, one of class 0
    in the second), the validation pass prints 50, while 100 times the
    fraction of correctly classified test images is 100/65. *)
Lemma printed_accuracy_is_not_test_set_accuracy :
  trace (snd (@Cell13.validation_pass constant_runtime
                (Cell1.testloader examples65) class0_state))
  = [Eforward Validation true false; Eforward Validation true false;
     Eprint 50%R]
  /\ model (snd (@Cell13.validation_pass constant_runtime
                   (Cell1.testloader examples65) class0_state))
     = class0_model
  /\ (100 * fraction_correct class0_model examples65 = 100 / 65)%R
  /\ (50 <> 100 * fraction_correct class0_model examples65)%R.
Proof.
  pose (s := class0_state).
  destruct (@validation_pass_prints constant_runtime constant_runtime_laws
              [1; 28; 28] examples65 examples65_ok ltac:(discriminate)
              s class0_model_ok)
    as (idx & g' & Es & _ & E).
  assert (Eidx : idx = seq 0 65)
    by (vm_compute in Es; injection Es as Hidx _; now rewrite <- Hidx).
  subst idx. fold s. rewrite E. cbn [snd trace model].
  assert (Ebatches : batches_of (Cell1.testloader examples65) (seq 0 65)
                     = [repeat (blank_image, 1) 64; [(blank_image, 0)]])
    by (vm_compute; reflexivity).
  assert (Elen : len (Cell1.testloader examples65) = 2) by (vm_compute; reflexivity).
  assert (F1 : fraction_correct class0_model (repeat (blank_image, 1) 64) = 0%R).
  { unfold fraction_correct.
    rewrite (filter_ext _ _ class0_model_correct).
    replace (filter _ _) with (@nil (tensor R * nat)) by (vm_compute; reflexivity).
    cbn [length INR]. unfold Rdiv. apply Rmult_0_l. }
  assert (F2 : fraction_correct class0_model [(blank_image, 0)] = 1%R).
  { unfold fraction_correct.
    rewrite (filter_ext _ _ class0_model_correct).
    cbn. field. }
  assert (F : fraction_correct class0_model examples65 = (1 / 65)%R).
  { unfold fraction_correct.
    rewrite (filter_ext _ _ class0_model_correct).
    replace (filter _ _) with [(blank_image, 0)] by (vm_compute; reflexivity).
    replace (length examples65) with 65 by (vm_compute; reflexivity).
    rewrite !INR_numeral. cbn [length Z.of_nat Pos.of_succ_nat Pos.succ].
    reflexivity. }
  rewrite Ebatches, Elen. subst s. unfold class0_state.
  cbn [map torch.sum fold_right initial_state model trace].
  rewrite F1, F2, F. cbn [repeat app Cell3.training class0_model].
  rewrite INR_numeral. cbn [Z.of_nat Pos.of_succ_nat Pos.succ].
  split; [|split; [|split]].
  - do 4 f_equal. lra.
  - reflexivity.
  - lra.
  - lra.
Qed.

(** ** C8: the validation pass touches no parameter *)

Section Frame.
Context {rt : Runtime} {Model : Type} {mc : ModelClass Model}.

Let State := state Model.

Lemma validating_batch (s0 s : State) (acc : number)
      (images : tensor R) (labels : tensor nat) :
  validating s0 s ->
  validating s0 (snd (validation_batch acc images labels s)).
Proof.
  intros (Hm & Ha & Hl & Hg & Hge & evs & Ht & Hev).
  unfold validation_batch, model_call, bind, get, emit, modify,
    with_generator, ret, lift.
  cbn [fst snd model generator grad_enabled].
  destruct (call (model s) images (generator s)) as [[y|] g'];
    [destruct (Cell11.accuracy _ labels)|];
    cbn [snd]; unfold validating;
    cbn [model grads lr adam_state grad_enabled trace];
    (repeat split; auto; exists (evs ++ [Eforward Validation (mode (model s)) (grad_enabled s)]);
     split; [now rewrite Ht, app_assoc
            | apply Forall_app; split; [exact Hev | rewrite Hge; repeat constructor]]).
Qed.

Lemma validating_loop (dl : DataLoader) (s0 s : State) :
  validating s0 s ->
  validating s0 (snd (for_batches dl (PyInt 0) validation_batch s)).
Proof.
  intros H. unfold for_batches, bind at 1, with_generator.
  destruct (sampler dl (generator s)) as [[idx|] g'].
  - apply for_each_invariant.
    + intros acc batch s1 H1. unfold bind, lift.
      destruct (fetch dl batch) as [il|]; [|exact H1].
      now apply validating_batch.
    + exact H.
  - exact H.
Qed.

Lemma print_accuracy_events (a : number) (dl : DataLoader) (s : State) :
  exists evs,
    snd (print_accuracy a dl s)
    = {| model := model s; grads := grads s; lr := lr s;
         adam_state := adam_state s; grad_enabled := grad_enabled s;
         generator := generator s; trace := trace s ++ evs |}
    /\ (evs = [] \/ exists v, evs = [Eprint v]).
Proof.
  unfold print_accuracy, bind, lift, emit, modify.
  destruct (item a) as [v|]; [destruct (len dl =? 0)|]; cbn [snd].
  - exists []. rewrite app_nil_r. destruct s; split; [reflexivity | now left].
  - eexists [_]. split; [reflexivity | right; eauto].
  - exists []. rewrite app_nil_r. destruct s; split; [reflexivity | now left].
Qed.

Lemma print_accuracy_trace (a : number) (dl : DataLoader) (s : State) :
  exists evs,
    snd (print_accuracy a dl s)
    = {| model := model s; grads := grads s; lr := lr s;
         adam_state := adam_state s; grad_enabled := grad_enabled s;
         generator := generator s; trace := trace s ++ evs |}
    /\ Forall validation_event evs /\ Forall mode_discipline evs.
Proof.
  destruct (print_accuracy_events a dl s) as (evs & E & [->|[v ->]]);
    eexists; (split; [exact E|]); split; repeat constructor.
Qed.
End Frame.

(** C8.  A validation pass, in cell 13 and in cell 17 alike and whether it
    completes or raises, leaves every parameter of the model, the gradients
    and the optimizer (its state and learning rate) as they were; all it adds
    to the trace are validation forward passes with gradients off and the
    printed accuracy: no backward pass and no optimizer step. *)
Theorem validation_pass_changes_no_parameter
        {rt : Runtime} (testloader : DataLoader) :
  (forall s : state Cell3.Classifier,
      let s' := snd (Cell13.validation_pass testloader s) in
      same_parameters s s' /\ model s' = model s
      /\ exists evs, trace s' = trace s ++ evs /\ Forall validation_event evs)
  /\ (forall s : state Cell16.Classifier,
         let s' := snd (Cell17.validation_pass testloader s) in
         same_parameters s s'
         /\ exists evs, trace s' = trace s ++ evs /\ Forall validation_event evs).
Proof.
  split; intros s; cbv zeta;
    remember (snd (_ testloader s)) as s' eqn:E.
  - unfold Cell13.validation_pass, bind, no_grad in E.
    set (s0 := snd (set_grad_enabled false s)) in E.
    assert (H0 : validating s0 s0).
    { unfold validating. repeat split; auto. exists []. now rewrite app_nil_r. }
    pose proof (validating_loop testloader H0) as H.
    destruct (for_batches testloader (PyInt 0) validation_batch s0) as [[a|] s1];
      cbn [snd] in H; destruct H as (Hm & Ha & Hl & Hg & _ & evs & Ht & Hev).
    + destruct (print_accuracy_trace a testloader
                  (snd (set_grad_enabled (grad_enabled s) s1)))
        as (evs' & E' & Hev' & _).
      rewrite E' in E. subst s'. unfold same_parameters.
      cbn [snd set_grad_enabled modify model grads lr adam_state trace].
      rewrite Hm, Ha, Hl, Hg, Ht. cbn. repeat split; auto.
      exists (evs ++ evs'). split; [now rewrite app_assoc | now apply Forall_app].
    + subst s'. unfold same_parameters.
      cbn [snd set_grad_enabled modify model grads lr adam_state trace].
      rewrite Hm, Ha, Hl, Hg, Ht. cbn. repeat split; auto.
      exists evs. auto.
  - unfold Cell17.validation_pass, bind, no_grad in E.
    cbn [fst snd set_model set_grad_enabled modify
         model grads lr adam_state grad_enabled generator trace] in E.
    set (s0 := {| model := Cell16.eval (model s); grads := grads s; lr := lr s;
                  adam_state := adam_state s; grad_enabled := false;
                  generator := generator s; trace := trace s |}) in E.
    assert (H0 : validating s0 s0).
    { unfold validating. repeat split; auto. exists []. now rewrite app_nil_r. }
    pose proof (validating_loop testloader H0) as H.
    destruct (for_batches testloader (PyInt 0) validation_batch s0) as [[a|] s1];
      cbn [snd] in H; destruct H as (Hm & Ha & Hl & Hg & _ & evs & Ht & Hev).
    + match type of E with
      | context [print_accuracy a testloader ?s2] =>
          destruct (print_accuracy_trace a testloader s2) as (evs' & E' & Hev' & _);
          destruct (print_accuracy a testloader s2) as [[[]|] s3]
      end;
        cbn [snd] in E'; subst s3; cbn [snd] in E; subst s';
        unfold same_parameters;
        cbn [snd set_model set_grad_enabled modify model grads lr adam_state trace];
        rewrite ?Hm, Ha, Hl, Hg, Ht; cbn; (repeat split; auto);
        exists (evs ++ evs'); (split; [now rewrite app_assoc | now apply Forall_app]).
    + subst s'. unfold same_parameters.
      cbn [snd set_grad_enabled modify model grads lr adam_state trace].
      rewrite Hm, Ha, Hl, Hg, Ht. cbn. repeat split; auto.
      exists evs. auto.
Qed.

(** ** C4: modes in the dropout loop *)

Section LoopSafety.
Context {S A B : Type}.
Variable body : B -> A -> M S B.

(** [P] holds of every state a loop reaches, when the iterations keep [I]
    as long as they succeed and establish [P] even when they raise. *)
Lemma for_each_safety (I P : S -> Prop) (xs : list A) :
  (forall s, I s -> P s) ->
  (forall acc x s, I s ->
      P (snd (body acc x s))
      /\ (fst (body acc x s) <> None -> I (snd (body acc x s)))) ->
  forall acc s, I s ->
    P (snd (for_each xs acc body s))
    /\ (fst (for_each xs acc body s) <> None -> I (snd (for_each xs acc body s))).
Proof.
  intros HIP Hbody. induction xs as [|x xs IH]; intros acc s Hs; cbn.
  - auto.
  - unfold bind. destruct (Hbody acc x s Hs) as [HP HI].
    destruct (body acc x s) as [[acc'|] s']; cbn in *.
    + apply IH. apply HI. discriminate.
    + split; [exact HP | congruence].
Qed.
End LoopSafety.

Section Modes.
Context {rt : Runtime} {Model : Type}
        {mc : ModelClass Model} {ag : Autograd Model}.
Hypothesis load_mode :
  forall (m : Model) ps, mode (load_parameters m ps) = mode m.

Let State := state Model.

Lemma training_batch_modes (s : State) (rl : R)
      (images : tensor R) (labels : tensor nat) :
  disciplined true s ->
  disciplined true (snd (training_batch rl images labels s)).
Proof.
  intros [Hmd Ht].
  assert (Hfw : Forall mode_discipline
                  (trace s ++ [Ezero_grad]
                   ++ [Eforward Training (mode (model s)) (grad_enabled s)])).
  { apply Forall_app. split; [exact Ht|]. rewrite Hmd. repeat constructor. }
  unfold training_batch, zero_grad, model_call, criterion, backward, step.
  unfold bind, get, emit, set_grads, modify, with_generator, ret, lift.
  cbn [fst snd model grads lr adam_state grad_enabled generator trace].
  unfold disciplined.
  repeat match goal with
         | |- context [match ?x with _ => _ end] =>
             lazymatch x with
             | context [match _ with _ => _ end] => fail
             | _ => destruct x eqn:?
             end;
             cbn [fst snd model grads lr adam_state grad_enabled generator trace
                  value grad_fn option_map tape_labels]
         end;
    (split; [rewrite ?load_mode; exact Hmd|]);
    rewrite <- ?app_assoc;
    repeat (apply Forall_app; split);
    try exact Ht; try (rewrite ?Hmd; repeat constructor).
Qed.

Lemma training_loop_modes (dl : DataLoader) (s : State) :
  disciplined true s ->
  disciplined true (snd (for_batches dl 0%R training_batch s)).
Proof.
  intros H. unfold for_batches, bind at 1, with_generator.
  destruct (sampler dl (generator s)) as [[idx|] g'].
  - apply for_each_invariant.
    + intros acc batch s1 H1. unfold bind, lift.
      destruct (fetch dl batch) as [il|]; [|exact H1].
      now apply training_batch_modes.
    + exact H.
  - exact H.
Qed.

Lemma validation_batch_modes (s : State) (acc : number)
      (images : tensor R) (labels : tensor nat) :
  disciplined false s ->
  disciplined false (snd (validation_batch acc images labels s)).
Proof.
  intros [Hmd Ht].
  unfold validation_batch, model_call, bind, get, emit, modify,
    with_generator, ret, lift.
  cbn [fst snd model generator grad_enabled].
  destruct (call (model s) images (generator s)) as [[y|] g'];
    [destruct (Cell11.accuracy _ labels)|];
    cbn [snd]; unfold disciplined; cbn [model trace];
    (split; [exact Hmd|]); apply Forall_app; (split; [exact Ht|]);
    rewrite Hmd; repeat constructor.
Qed.

Lemma validation_loop_modes (dl : DataLoader) (s : State) :
  disciplined false s ->
  disciplined false (snd (for_batches dl (PyInt 0) validation_batch s)).
Proof.
  intros H. unfold for_batches, bind at 1, with_generator.
  destruct (sampler dl (generator s)) as [[idx|] g'].
  - apply for_each_invariant.
    + intros acc batch s1 H1. unfold bind, lift.
      destruct (fetch dl batch) as [il|]; [|exact H1].
      now apply validation_batch_modes.
    + exact H.
  - exact H.
Qed.
End Modes.

Lemma Cell16_load_mode {rt : Runtime} (m : Cell16.Classifier) (ps : list (tensor R)) :
  mode (load_parameters m ps) = mode m.
Proof.
  cbn [mode load_parameters Cell16_ModelClass]. unfold Cell16.load_parameters.
  do 9 (destruct ps as [|? ps]; try reflexivity).
Qed.

Lemma Cell17_validation_modes {rt : Runtime} (testloader : DataLoader)
      (s : state Cell16.Classifier) :
  Forall mode_discipline (trace s) ->
  let r := Cell17.validation_pass testloader s in
  Forall mode_discipline (trace (snd r))
  /\ (fst r <> None -> disciplined true (snd r)).
Proof.
  intros Ht. cbv zeta.
  remember (Cell17.validation_pass testloader s) as r eqn:E.
  unfold Cell17.validation_pass, bind, no_grad in E.
  cbn [fst snd set_model set_grad_enabled modify
       model grads lr adam_state grad_enabled generator trace] in E.
  set (s0 := {| model := Cell16.eval (model s); grads := grads s; lr := lr s;
                adam_state := adam_state s; grad_enabled := false;
                generator := generator s; trace := trace s |}) in E.
  assert (H0 : disciplined false s0) by (split; [reflexivity | exact Ht]).
  pose proof (validation_loop_modes testloader H0) as H.
  destruct (for_batches testloader (PyInt 0) validation_batch s0) as [[a|] s1];
    cbn [snd] in H; destruct H as [Hmd Ht1].
  - match type of E with
    | context [print_accuracy a testloader ?s2] =>
        destruct (print_accuracy_trace a testloader s2) as (evs' & E' & _ & Hev');
        destruct (print_accuracy a testloader s2) as [[[]|] s3]
    end; cbn [snd] in E'; subst s3 r;
      cbn [fst snd set_model set_grad_enabled modify model trace];
      assert (Hall : Forall mode_discipline (trace s1 ++ evs'))
        by (apply Forall_app; split; assumption).
    + split; [exact Hall|]. intros _. split; [reflexivity | exact Hall].
    + split; [exact Hall | congruence].
  - subst r. cbn [fst snd set_grad_enabled modify trace].
    split; [exact Ht1 | congruence].
Qed.

Lemma Cell17_epoch_modes {rt : Runtime} {ag : Autograd Cell16.Classifier}
      (trainloader testloader : DataLoader) (e : nat)
      (s : state Cell16.Classifier) :
  disciplined true s ->
  let r := Cell17.epoch trainloader testloader e s in
  Forall mode_discipline (trace (snd r))
  /\ (fst r <> None -> disciplined true (snd r)).
Proof.
  intros H. cbv zeta. unfold Cell17.epoch, bind.
  pose proof (training_loop_modes Cell16_load_mode trainloader H) as [Hmd Ht].
  destruct (for_batches trainloader 0%R training_batch s) as [[rl|] s1];
    cbn [snd] in Hmd, Ht.
  - exact (Cell17_validation_modes testloader s1 Ht).
  - cbn [fst snd]. split; [exact Ht | congruence].
Qed.

(** No run of cell 17, completed or not, has a forward pass in the wrong
    mode. *)
Lemma dropout_modes_safe
      {rt : Runtime} {ag : Autograd Cell16.Classifier}
      (trainloader testloader : DataLoader) (g : Generator) :
  Forall mode_discipline
         (trace (snd (Cell17.run trainloader testloader g))).
Proof.
  unfold Cell17.run.
  destruct (Cell16.__init__ g) as [m g0] eqn:Einit.
  assert (Hm : nn.training (Cell16.dropout m) = true).
  { unfold Cell16.__init__ in Einit.
    destruct (nn.Linear_init 784 256 g) as [l1 g1].
    destruct (nn.Linear_init 256 128 g1) as [l2 g2].
    destruct (nn.Linear_init 128 64 g2) as [l3 g3].
    destruct (nn.Linear_init 64 10 g3) as [l4 g4].
    injection Einit as <- _. reflexivity. }
  refine (proj1 (@for_each_safety _ _ _
                   (fun (_ : unit) e => Cell17.epoch trainloader testloader e)
                   (disciplined true)
                   (fun s => Forall mode_discipline (trace s))
                   (seq 0 epochs) _ _ tt (initial_state m g0) _)).
  - intros s [_ H]. exact H.
  - intros [] e s Hs. exact (Cell17_epoch_modes trainloader testloader e Hs).
  - split; [exact Hm | constructor].
Qed.

(** ** C7: inference on one image (cell 19) *)

Lemma view_explicit {A : Type} (t : tensor A) (dims : list Z) :
  forallb (fun d => (0 <=? d)%Z) dims = true ->
  numel (map Z.to_nat dims) = length (data t) ->
  view t dims = Some (Tensor (map Z.to_nat dims) (data t)).
Proof.
  intros Hpos Hn. unfold view.
  assert (E1 : existsb (fun d => (d <? -1)%Z) dims = false).
  { apply not_true_is_false. intros H. apply existsb_exists in H.
    destruct H as (d & Hd & Hlt). rewrite forallb_forall in Hpos.
    specialize (Hpos d Hd). apply Z.leb_le in Hpos. apply Z.ltb_lt in Hlt. lia. }
  assert (E2 : filter (fun d => negb (d =? -1)%Z) dims = dims).
  { clear Hn E1. induction dims as [|d dims IH]; [reflexivity|].
    cbn [forallb] in Hpos. apply andb_prop in Hpos. destruct Hpos as [Hd Hds].
    cbn [filter]. apply Z.leb_le in Hd.
    destruct (Z.eqb_spec d (-1)) as [->|_]; [lia|]. cbn [negb]. now rewrite IH. }
  assert (E3 : count_occ Z.eq_dec dims (-1)%Z = 0).
  { apply count_occ_not_In. intros H. rewrite forallb_forall in Hpos.
    specialize (Hpos _ H). discriminate. }
  rewrite E1, E2, E3, Hn, Nat.eqb_refl. reflexivity.
Qed.

Lemma getitem_first (sh : list nat) (exs : list (tensor R * nat)) (ex : tensor R * nat) :
  length (data (fst ex)) = numel sh ->
  getitem (fst (collate sh (ex :: exs))) 0 = Some (Tensor sh (data (fst ex))).
Proof.
  intros Hd. unfold getitem. cbn [collate fst shape data length flat_map].
  cbn [Nat.ltb Nat.leb Nat.mul skipn].
  now rewrite <- Hd, firstn_app, Nat.sub_diag, firstn_all, firstn_O, app_nil_r.
Qed.

Section Cell19Inference.
Context {rt : Runtime} {laws : RuntimeLaws rt}.
Variables (sh : list nat) (testset : list (tensor R * nat)).
Hypothesis Hds : dataset_ok sh testset = true.
Hypothesis Hne : testset <> [].

Let tl := Cell1.testloader testset.


(** The image of cell 19 is the example at the first index the test loader's
    sampler draws: the first batch holds the examples at the first 64 indices
    drawn, and [images[0]] is the first of them. *)
Lemma first_image_of_first_batch (s : state Cell16.Classifier) :
  exists idx g' i0 img label images labels,
    sampler tl (generator s) = (Some idx, g')
    /\ Permutation idx (seq 0 (length testset))
    /\ hd_error idx = Some i0
    /\ nth_error testset i0 = Some (img, label)
    /\ hd_error (batch_sampler 64 [] idx) = Some (firstn 64 idx)
    /\ fetch tl (firstn 64 idx) = Some (images, labels)
    /\ shape images = Nat.min 64 (length testset) :: sh
    /\ getitem images 0 = Some (Tensor sh (data img))
    /\ Cell19.first_image tl s
       = (Some (Tensor sh (data img)),
          {| model := model s; grads := grads s; lr := lr s;
             adam_state := adam_state s; grad_enabled := grad_enabled s;
             generator := g'; trace := trace s |}).
Proof.
  destruct (sampler_perm tl (generator s)) as (idx & g' & Es & Hperm).
  change (length (dataset tl)) with (length testset) in Hperm.
  pose proof (Permutation_length Hperm) as Hlen. rewrite length_seq in Hlen.
  destruct idx as [|i0 rest].
  { destruct testset; [congruence | discriminate]. }
  assert (Hfirst : hd_error (batch_sampler 64 [] (i0 :: rest))
                   = Some (firstn 64 (i0 :: rest))).
  { rewrite (@batch_sampler_first 64 (i0 :: rest) []); [reflexivity|cbn; lia|discriminate]. }
  assert (Hidx : Forall (fun i => i < length (dataset tl)) (firstn 64 (i0 :: rest))).
  { apply Forall_forall. intros i Hi.
    assert (Hin : In i (i0 :: rest)).
    { rewrite <- (firstn_skipn 64 (i0 :: rest)). apply in_or_app. now left. }
    apply (Permutation_in _ Hperm) in Hin. apply in_seq in Hin.
    change (dataset tl) with testset. lia. }
  assert (Hbne : firstn 64 (i0 :: rest) <> []) by discriminate.
  pose proof (fetch_batch sh tl Hds Hbne Hidx) as Ef.
  destruct (all_some_nth (dataset tl) Hidx) as [_ Hl].
  rewrite length_firstn, Hlen in Hl.
  assert (Hi0 : i0 < length testset).
  { assert (Hin : In i0 (i0 :: rest)) by now left.
    apply (Permutation_in _ Hperm) in Hin. apply in_seq in Hin. lia. }
  destruct (nth_error testset i0) as [[img label]|] eqn:En;
    [|apply nth_error_None in En; lia].
  assert (Eex : examples_at (dataset tl) (firstn 64 (i0 :: rest))
                = (img, label) :: examples_at testset (firstn 63 rest)).
  { change (firstn 64 (i0 :: rest)) with (i0 :: firstn 63 rest).
    unfold examples_at. cbn [flat_map]. change (dataset tl) with testset.
    now rewrite En. }
  destruct (dataset_ok_true _ _ Hds) as [Hnum Hall].
  destruct (Hall _ (nth_error_In _ _ En)) as (_ & Hd & _). cbn [fst] in Hd.
  assert (Eget : getitem (fst (collate sh (examples_at (dataset tl)
                                             (firstn 64 (i0 :: rest))))) 0
                 = Some (Tensor sh (data img))).
  { rewrite Eex. apply (@getitem_first sh _ (img, label)). cbn [fst]. congruence. }
  exists (i0 :: rest), g', i0, img, label.
  eexists _, _. split; [exact Es|]. split; [exact Hperm|].
  split; [reflexivity|]. split; [exact En|]. split; [exact Hfirst|].
  split; [exact Ef|]. split; [cbn [collate fst shape]; now rewrite Hl|].
  split; [exact Eget|].
  unfold Cell19.first_image, bind at 1, with_generator. rewrite Es.
  change (batch_size tl) with 64. unfold bind at 1, lift. rewrite Hfirst.
  unfold bind. rewrite Ef, Eget. reflexivity.
Qed.

Lemma classify_runs (s : state Cell16.Classifier) (img : tensor R) :
  DropoutClassifier_ok (model s) = true ->
  nn.training (Cell16.dropout (model s)) = false ->
  length (data img) = 784 ->
  exists output,
    Cell3.forward (without_dropout (model s)) (Tensor [1; 784] (data img))
    = Some output
    /\ has_shape [1; 10] (torch.exp output) = true
    /\ Cell19.classify img s
       = (Some tt,
          {| model := model s; grads := grads s; lr := lr s;
             adam_state := adam_state s; grad_enabled := grad_enabled s;
             generator := generator s;
             trace := trace s
               ++ [Eforward Inference false false;
                   Eview_classify (Tensor [1; 28; 28] (data img))
                                  (torch.exp output) "Fashion"%string] |}).
Proof.
  intros Hok Hmode Hd.
  assert (Hd1 : length (data (Tensor [1; 784] (data img))) = 1 * 784)
    by (cbn [data]; lia).
  pose proof (@forward_rows (without_dropout (model s)) (Tensor [1; 784] (data img))
                1 [784] Hok eq_refl Nat.lt_0_1 Hd1) as Efw.
  eexists. split; [exact Efw|]. split.
  - apply has_shape_intro; [reflexivity|].
    cbn [torch.exp data shape numel fold_right]. rewrite length_map.
    rewrite (@flat_map_constant_length _ _ 10).
    + rewrite length_flattened_rows. reflexivity.
    + intros r _. now apply length_frow.
  - unfold Cell19.classify, bind at 1, lift.
    rewrite (@view_explicit _ img [1; 784]%Z eq_refl) by (rewrite Hd; reflexivity).
    unfold bind at 1, no_grad, model_call, bind, get, emit, modify,
      with_generator, ret, lift.
    cbn [fst snd set_grad_enabled modify model grads lr adam_state
         grad_enabled generator trace map].
    cbn [call Cell16_ModelClass mode].
    rewrite (@forward_eval_mode rt (without_dropout (model s)) (model s)
               _ _ eq_refl eq_refl eq_refl eq_refl Hmode).
    change (Z.to_nat 1) with 1. change (Z.to_nat 784) with 784.
    rewrite Efw, Hmode. cbn [value data].
    rewrite (@view_explicit _ (Tensor [1; 784] (data img)) [1; 28; 28]%Z eq_refl)
      by (cbn [data]; rewrite Hd; reflexivity).
    cbn [data model grads lr adam_state grad_enabled generator trace].
    rewrite <- app_assoc. reflexivity.
Qed.
End Cell19Inference.

(** C7.  The inference cell puts the model in evaluation mode and iterates
    the test loader once: of the indices the loader's sampler draws, the
    first 64 make the first batch, whose examples are fetched and stacked
    into [images]; [img = images[0]] is the test image at the first index
    drawn.  The cell reshapes it to [(1, 784)], runs the forward pass on it
    with gradients off and dropout off, exponentiates the output into
    probabilities of shape [(1, 10)], and calls [helper.view_classify] with
    the image reshaped to [(1, 28, 28)], those probabilities and
    [version='Fashion']. *)
Theorem inference_on_first_test_image
        {rt : Runtime} {laws : RuntimeLaws rt}
        (sh : list nat) (testset : list (tensor R * nat))
        (s : state Cell16.Classifier) :
  dataset_ok sh testset = true ->
  testset <> [] ->
  DropoutClassifier_ok (model s) = true ->
  exists idx i0 images labels img label output s1 s',
    sampler (Cell1.testloader testset) (generator s) = (Some idx, generator s1)
    /\ hd_error (batch_sampler 64 [] idx) = Some (firstn 64 idx)
    /\ fetch (Cell1.testloader testset) (firstn 64 idx) = Some (images, labels)
    /\ shape images = Nat.min 64 (length testset) :: sh
    /\ hd_error idx = Some i0
    /\ nth_error testset i0 = Some (img, label)
    /\ getitem images 0 = Some img
    /\ img = Tensor sh (data img)
    /\ In (img, label) testset
    /\ Cell19.first_image (Cell1.testloader testset)
                          (snd (set_model Cell16.eval s))
       = (Some (Tensor sh (data img)), s1)
    /\ view (Tensor sh (data img)) [1; 784]%Z = Some (Tensor [1; 784] (data img))
    /\ Cell16.forward (model s1) (Tensor [1; 784] (data img)) (generator s1)
       = (Some output, generator s1)
    /\ model s1 = Cell16.eval (model s)
    /\ has_shape [1; 10] (torch.exp output) = true
    /\ view (Tensor [1; 784] (data img)) [1; 28; 28]%Z
       = Some (Tensor [1; 28; 28] (data img))
    /\ Cell19.inference (Cell1.testloader testset) s = (Some tt, s')
    /\ trace s'
       = trace s
         ++ [Eforward Inference false false;
             Eview_classify (Tensor [1; 28; 28] (data img))
                            (torch.exp output) "Fashion"%string].
Proof.
  intros Hds Hne Hok.
  set (s0 := snd (set_model Cell16.eval s)).
  destruct (@first_image_of_first_batch rt laws sh testset Hds Hne s0)
    as (idx & g' & i0 & img & label & images & labels
        & Es & _ & Hi0 & En & Hfirst & Ef & Hshape0 & Eget & Efirst).
  assert (Hin : In (img, label) testset) by (eapply nth_error_In; exact En).
  destruct (dataset_ok_true _ _ Hds) as [_ Hall].
  destruct (Hall _ Hin) as (Himg & Hd & _). cbn [fst] in Hd, Himg.
  assert (Eimg : img = Tensor sh (data img)) by (destruct img; cbn in *; now subst).
  set (s1 := {| model := model s0; grads := grads s0; lr := lr s0;
                adam_state := adam_state s0; grad_enabled := grad_enabled s0;
                generator := g'; trace := trace s0 |}) in *.
  destruct (@classify_runs rt s1 (Tensor sh (data img)))
    as (output & Efw & Hshape & Eclassify); auto.
  exists idx, i0, images, labels, img, label, output, s1. eexists.
  split; [exact Es|]. split; [exact Hfirst|]. split; [exact Ef|].
  split; [exact Hshape0|]. split; [exact Hi0|]. split; [exact En|].
  split; [rewrite Eget; now rewrite <- Eimg|]. split; [exact Eimg|].
  split; [exact Hin|]. split; [exact Efirst|].
  split; [apply (@view_explicit _ (Tensor sh (data img)) [1; 784]%Z eq_refl);
          cbn [data]; rewrite Hd; reflexivity|].
  split; [rewrite (@forward_eval_mode rt (without_dropout (model s1)) (model s1)
                     _ _ eq_refl eq_refl eq_refl eq_refl eq_refl);
          cbn [data] in Efw; now rewrite Efw|].
  split; [reflexivity|]. split; [exact Hshape|].
  split; [apply (@view_explicit _ (Tensor [1; 784] (data img)) [1; 28; 28]%Z eq_refl);
          cbn [data]; rewrite Hd; reflexivity|].
  split.
  - unfold Cell19.inference, bind. cbn [set_model modify fst snd].
    fold s0. change (snd (set_model Cell16.eval s)) with s0 in Efirst.
    unfold s0 in Efirst. cbn [set_model modify snd] in Efirst.
    rewrite Efirst. exact Eclassify.
  - reflexivity.
Qed.

(** ** C9: evaluation mode is deterministic *)

Lemma forward_eval_plain {rt : Runtime} (d : Cell16.Classifier)
      (x : tensor R) (g : Generator) :
  nn.training (Cell16.dropout d) = false ->
  Cell16.forward d x g = (Cell3.forward (without_dropout d) x, g).
Proof. intros H. now apply forward_eval_mode. Qed.

Lemma forward_same_layers (d1 d2 : Cell16.Classifier) (x : tensor R) :
  same_layers d1 d2 ->
  Cell3.forward (without_dropout d1) x = Cell3.forward (without_dropout d2) x.
Proof.
  intros (E1 & E2 & E3 & E4). unfold Cell3.forward, without_dropout.
  cbn [Cell3.fc1 Cell3.fc2 Cell3.fc3 Cell3.fc4]. now rewrite E1, E2, E3, E4.
Qed.

Lemma validation_batch_eval {rt : Runtime} (s : state Cell16.Classifier)
      (acc : number) (images : tensor R) (labels : tensor nat) :
  nn.training (Cell16.dropout (model s)) = false ->
  fst (validation_batch acc images labels s)
  = obind (Cell3.forward (without_dropout (model s)) images)
          (fun y => option_map (number_add acc)
                               (Cell11.accuracy (torch.exp y) labels)).
Proof.
  intros Hm.
  unfold validation_batch, model_call, bind, get, emit, modify,
    with_generator, ret, lift.
  cbn [fst snd model generator grad_enabled call Cell16_ModelClass].
  rewrite (forward_eval_plain _ _ _ Hm).
  destruct (Cell3.forward (without_dropout (model s)) images) as [y|];
    [|reflexivity].
  cbn [obind value]. now destruct (Cell11.accuracy (torch.exp y) labels).
Qed.

Lemma classify_eval {rt : Runtime} (s : state Cell16.Classifier) (img : tensor R) :
  nn.training (Cell16.dropout (model s)) = false ->
  exists evs,
    trace (snd (Cell19.classify img s)) = trace s ++ evs
    /\ (fst (Cell19.classify img s), evs)
       = match view img [1; 784]%Z with
         | None => (None, [])
         | Some x =>
             match Cell3.forward (without_dropout (model s)) x with
             | None => (None, [Eforward Inference false false])
             | Some output =>
                 match view x [1; 28; 28]%Z with
                 | None => (None, [Eforward Inference false false])
                 | Some img' =>
                     (Some tt,
                      [Eforward Inference false false;
                       Eview_classify img' (torch.exp output) "Fashion"%string])
                 end
             end
         end.
Proof.
  intros Hm. unfold Cell19.classify, bind at 1, lift.
  destruct (view img [1; 784]%Z) as [x|].
  - unfold bind at 1, no_grad, model_call, bind, get, emit, modify,
      with_generator, ret, lift.
    cbn [fst snd set_grad_enabled modify model grads lr adam_state
         grad_enabled generator trace call Cell16_ModelClass mode].
    rewrite (forward_eval_plain _ _ _ Hm), Hm.
    destruct (Cell3.forward (without_dropout (model s)) x) as [output|].
    + cbn [value]. destruct (view x [1; 28; 28]%Z) as [img'|]; cbn [fst snd trace].
      * eexists. split; [now rewrite <- app_assoc | reflexivity].
      * eexists. split; reflexivity.
    + cbn [fst snd trace]. eexists. split; reflexivity.
  - cbn [fst snd]. exists []. split; [now rewrite app_nil_r | reflexivity].
Qed.

Lemma validation_batch_model {rt : Runtime} {Model : Type} {mc : ModelClass Model}
      (s : state Model) (acc : number) (images : tensor R) (labels : tensor nat) :
  model (snd (validation_batch acc images labels s)) = model s.
Proof.
  unfold validation_batch, model_call, bind, get, emit, modify,
    with_generator, ret, lift.
  cbn [fst snd model generator grad_enabled].
  destruct (call (model s) images (generator s)) as [[y|] g'];
    [destruct (Cell11.accuracy _ labels)|]; reflexivity.
Qed.

Lemma validation_batches_eval {rt : Runtime} (d1 d2 : Cell16.Classifier)
      (batches : list (tensor R * tensor nat)) :
  same_layers d1 d2 ->
  forall (acc : number) (s1 s2 : state Cell16.Classifier),
    model s1 = Cell16.eval d1 -> model s2 = Cell16.eval d2 ->
    fst (for_each batches acc
           (fun a b => validation_batch a (fst b) (snd b)) s1)
    = fst (for_each batches acc
             (fun a b => validation_batch a (fst b) (snd b)) s2).
Proof.
  intros Hsame.
  assert (Hsame' : same_layers (Cell16.eval d1) (Cell16.eval d2)) by exact Hsame.
  induction batches as [|[images labels] batches IH]; intros acc s1 s2 E1 E2;
    [reflexivity|].
  cbn [for_each fst snd]. unfold bind.
  pose proof (@validation_batch_eval rt s1 acc images labels) as R1.
  pose proof (@validation_batch_eval rt s2 acc images labels) as R2.
  rewrite E1 in R1. rewrite E2 in R2.
  rewrite (forward_same_layers images Hsame') in R1.
  rewrite <- R2 in R1 by reflexivity. specialize (R1 eq_refl).
  pose proof (validation_batch_model s1 acc images labels) as M1.
  pose proof (validation_batch_model s2 acc images labels) as M2.
  destruct (validation_batch acc images labels s1) as [r1 t1].
  destruct (validation_batch acc images labels s2) as [r2 t2].
  cbn [fst snd] in *. subst r2.
  destruct r1 as [a|]; [|reflexivity].
  apply IH; congruence.
Qed.

(** C9.  In evaluation mode the forward pass of the dropout classifier does
    not depend on the random generator: two runs with the same weights and
    biases on the same input give the same output.  Hence, in evaluation mode,
    the accuracy accumulated by the validation steps over given batches, and
    the outcome of the inference cell's classification of a given image (its
    result and the events it adds: the forward pass and the plotting call
    with its arguments), are the same in any two states whose models have the
    same weights and biases. *)
Theorem eval_mode_is_deterministic {rt : Runtime} (d1 d2 : Cell16.Classifier) :
  same_layers d1 d2 ->
  (forall (x : tensor R) (g1 g2 : Generator),
      fst (Cell16.forward (Cell16.eval d1) x g1)
      = fst (Cell16.forward (Cell16.eval d2) x g2))
  /\ (forall (s1 s2 : state Cell16.Classifier) (acc : number)
             (batches : list (tensor R * tensor nat)),
         model s1 = Cell16.eval d1 -> model s2 = Cell16.eval d2 ->
         fst (for_each batches acc
                (fun a b => validation_batch a (fst b) (snd b)) s1)
         = fst (for_each batches acc
                  (fun a b => validation_batch a (fst b) (snd b)) s2))
  /\ (forall (s1 s2 : state Cell16.Classifier) (img : tensor R),
         model s1 = Cell16.eval d1 -> model s2 = Cell16.eval d2 ->
         fst (Cell19.classify img s1) = fst (Cell19.classify img s2)
         /\ exists evs,
             trace (snd (Cell19.classify img s1)) = trace s1 ++ evs
             /\ trace (snd (Cell19.classify img s2)) = trace s2 ++ evs).
Proof.
  intros Hsame.
  assert (Hsame' : same_layers (Cell16.eval d1) (Cell16.eval d2)) by exact Hsame.
  split; [|split].
  - intros x g1 g2.
    rewrite !forward_eval_plain by reflexivity. cbn [fst].
    now apply forward_same_layers.
  - intros s1 s2 acc batches E1 E2.
    now apply validation_batches_eval with (d1 := d1) (d2 := d2).
  - intros s1 s2 img E1 E2.
    destruct (@classify_eval rt s1 img) as (evs1 & Ht1 & Er1);
      [rewrite E1; reflexivity|].
    destruct (@classify_eval rt s2 img) as (evs2 & Ht2 & Er2);
      [rewrite E2; reflexivity|].
    rewrite E1 in Er1. rewrite E2 in Er2.
    assert (E : (fst (Cell19.classify img s1), evs1)
                = (fst (Cell19.classify img s2), evs2)).
    { rewrite Er1, Er2. destruct (view img [1; 784]%Z) as [x|]; [|reflexivity].
      now rewrite (forward_same_layers x Hsame'). }
    injection E as Er Eev. split; [exact Er|].
    exists evs1. split; [exact Ht1 | now rewrite Eev].
Qed.

(** ** Cell 16 in training mode: shapes *)

Lemma Linear_forward_matrix (l : nn.Linear) (i o n : nat) (x : tensor R) :
  layer_ok i o l = true -> is_matrix n i x ->
  exists y, nn.Linear_forward l x = Some y /\ is_matrix n o y.
Proof.
  intros Hl [Hs Hd]. pose proof (layer_ok_true _ _ _ Hl) as (Hi & Ho & _).
  unfold nn.Linear_forward. rewrite Hs, Hi, Ho, Nat.eqb_refl.
  eexists. split; [reflexivity|]. split; [reflexivity|].
  cbn [data]. rewrite (@flat_map_constant_length _ _ o).
  - now rewrite (length_rows _ Hs).
  - intros r _. now apply length_affine with (i := i).
Qed.

Lemma relu_matrix (n k : nat) (x : tensor R) :
  is_matrix n k x -> is_matrix n k (F.relu x).
Proof.
  intros [Hs Hd]. split; [exact Hs|]. unfold F.relu. cbn [data].
  now rewrite length_map.
Qed.

Lemma Dropout_forward_matrix {rt : Runtime} {laws : RuntimeLaws rt}
      (d : nn.Dropout) (n k : nat) (x : tensor R) (g : Generator) :
  is_matrix n k x ->
  exists y g', nn.Dropout_forward d x g = (Some y, g') /\ is_matrix n k y.
Proof.
  intros [Hs Hd]. unfold nn.Dropout_forward. destruct (nn.training d).
  - pose proof (bernoulli_length g (1 - nn.p d)%R (length (data x))) as Hb.
    destruct (bernoulli g (1 - nn.p d)%R (length (data x))) as [keep g'].
    cbn [fst] in Hb. eexists _, g'. split; [reflexivity|].
    split; [exact Hs|]. cbn [data].
    rewrite length_map, length_combine, Hb, Nat.min_id. exact Hd.
  - exists x, g. split; [reflexivity | now split].
Qed.

Lemma log_softmax_matrix (n k : nat) (x : tensor R) :
  is_matrix n k x ->
  exists y, F.log_softmax x 1 = Some y /\ is_matrix n k y.
Proof.
  intros [Hs Hd]. unfold F.log_softmax. rewrite Hs.
  eexists. split; [reflexivity|]. split; [reflexivity|]. cbn [data].
  rewrite (@flat_map_constant_length _ _ k).
  - now rewrite (length_rows _ Hs).
  - intros r Hr. unfold F.log_softmax_row. rewrite length_map.
    pose proof (rows_lengths x Hs Hd) as Hall. rewrite Forall_forall in Hall.
    now apply Hall.
Qed.

Lemma Cell16_forward_defined {rt : Runtime} {laws : RuntimeLaws rt}
      (m : Cell16.Classifier) (sh : list nat) (exs : list (tensor R * nat))
      (g : Generator) :
  DropoutClassifier_ok m = true -> exs <> [] ->
  (forall ex, In ex exs -> length (data (fst ex)) = 784) ->
  exists y g', Cell16.forward m (fst (collate sh exs)) g = (Some y, g')
               /\ has_shape [length exs; 10] y = true.
Proof.
  intros Hok Hne H784.
  destruct (@layers_ok_true _ _ _ _ Hok) as (H1 & H2 & H3 & H4).
  assert (Hn : 0 < length exs) by (destruct exs; [congruence | cbn; lia]).
  assert (Hd : length (data (fst (collate sh exs))) = length exs * 784).
  { cbn [collate fst data]. now apply flat_map_constant_length. }
  unfold Cell16.forward, bind at 1, lift, shape0.
  cbn [collate fst shape hd_error]. unfold bind at 1.
  change (Tensor (length exs :: sh) (flat_map (fun ex => data (fst ex)) exs))
    with (fst (collate sh exs)).
  rewrite (@view_batch _ (fst (collate sh exs)) (length exs) 784 Hn Hd).
  assert (M0 : is_matrix (length exs) 784
                 (Tensor [length exs; 784] (data (fst (collate sh exs)))))
    by (split; [reflexivity | exact Hd]).
  destruct (@Linear_forward_matrix _ _ _ _ _ H1 M0) as (a1 & E1 & M1).
  apply relu_matrix in M1.
  unfold bind at 1. rewrite E1. cbn [option_map].
  destruct (@Dropout_forward_matrix _ _ (Cell16.dropout m) _ _ _ g M1) as (d1 & g1 & D1 & N1).
  unfold bind at 1. rewrite D1.
  destruct (@Linear_forward_matrix _ _ _ _ _ H2 N1) as (a2 & E2 & M2).
  apply relu_matrix in M2.
  unfold bind at 1. rewrite E2. cbn [option_map].
  destruct (@Dropout_forward_matrix _ _ (Cell16.dropout m) _ _ _ g1 M2) as (d2 & g2 & D2 & N2).
  unfold bind at 1. rewrite D2.
  destruct (@Linear_forward_matrix _ _ _ _ _ H3 N2) as (a3 & E3 & M3).
  apply relu_matrix in M3.
  unfold bind at 1. rewrite E3. cbn [option_map].
  destruct (@Dropout_forward_matrix _ _ (Cell16.dropout m) _ _ _ g2 M3) as (d3 & g3 & D3 & N3).
  unfold bind at 1. rewrite D3.
  destruct (@Linear_forward_matrix _ _ _ _ _ H4 N3) as (a4 & E4 & M4).
  unfold bind at 1. rewrite E4.
  destruct (@log_softmax_matrix _ _ _ M4) as (y & Ey & [Sy Dy]).
  rewrite Ey. exists y, g3. split; [reflexivity|].
  apply has_shape_intro; [exact Sy|]. cbn [numel fold_right]. lia.
Qed.

Lemma Cell16_load_trainable {rt : Runtime} (md : Cell16.Classifier)
      (ps : list (tensor R)) :
  DropoutClassifier_ok md = true ->
  map (fun t => (shape t, length (data t))) ps
  = map (fun t => (shape t, length (data t))) (parameters md) ->
  DropoutClassifier_ok (load_parameters md ps) = true
  /\ mode (load_parameters md ps) = mode md.
Proof.
  intros Hok E.
  destruct (layers_ok_load _ _ _ _ ps E)
    as (w1 & b1 & w2 & b2 & w3 & b3 & w4 & b4 & -> & Eok).
  split; [|reflexivity].
  unfold DropoutClassifier_ok. cbn. unfold DropoutClassifier_ok in Hok.
  now rewrite Eok.
Qed.

(** ** Cell 17: epochs *)

Section Cell17Epochs.
Context {rt : Runtime} {laws : RuntimeLaws rt} {ag : Autograd Cell16.Classifier}.
Variables (sh_train sh_test : list nat).
Variables (trainset testset : list (tensor R * nat)).
Hypothesis Htrain : dataset_ok sh_train trainset = true.
Hypothesis Htest : dataset_ok sh_test testset = true.
Hypothesis Hne : testset <> [].

Let trainloader := Cell1.trainloader trainset.
Let testloader := Cell1.testloader testset.
Let ok (m : Cell16.Classifier) : Prop := DropoutClassifier_ok m = true.

Lemma dropout_validation_pass_prints (s : state Cell16.Classifier) :
  ok (model s) ->
  exists idx g',
    Permutation idx (seq 0 (length testset))
    /\ Cell17.validation_pass testloader s
       = (Some tt,
          {| model := Cell16.train true (Cell16.eval (model s));
             grads := grads s; lr := lr s;
             adam_state := adam_state s; grad_enabled := grad_enabled s;
             generator := g';
             trace := trace s
               ++ repeat (Eforward Validation false false) (len testloader)
               ++ [Eprint (torch.sum
                             (map (fraction_correct (without_dropout (model s)))
                                  (batches_of testloader idx))
                           * 100 / INR (len testloader))%R] |}).
Proof.
  intros Hok.
  set (s0 := {| model := Cell16.eval (model s); grads := grads s; lr := lr s;
                adam_state := adam_state s; grad_enabled := false;
                generator := generator s; trace := trace s |}).
  destruct (@validation_loop rt laws _ Cell16_ModelClass without_dropout
              (fun m => nn.training (Cell16.dropout m) = false)
              (fun md x g H => forward_eval_plain md x g H)
              sh_test testloader Htest s0 eq_refl Hok)
    as (idx & g' & Es & Hperm & Eloop).
  exists idx, g'. split; [exact Hperm|].
  unfold Cell17.validation_pass, bind at 1, no_grad.
  unfold bind at 1. cbn [fst snd set_model set_grad_enabled modify
                        model grads lr adam_state grad_enabled generator trace].
  fold s0. rewrite Eloop.
  cbn [snd set_grad_enabled modify model grads lr adam_state
         grad_enabled generator trace mode Cell16_ModelClass
         Cell16.eval Cell16.train Cell16.dropout nn.training].
  assert (Hlen : length (batches_of testloader idx) = len testloader).
  { unfold batches_of. rewrite length_map. now apply len_testloader. }
  pose proof (len_testloader_pos Hne) as Hpos. change (0 < len testloader) in Hpos.
  rewrite fold_number_add_from_int.
  - unfold print_accuracy, bind, lift. cbn [item].
    destruct (Nat.eqb_spec (len testloader) 0) as [E|_]; [lia|].
    unfold emit, set_model, modify.
    cbn [fst snd model grads lr adam_state grad_enabled generator trace].
    rewrite Hlen, <- app_assoc. reflexivity.
  - intros E. apply (f_equal (@length R)) in E. rewrite length_map, Hlen in E.
    change (len testloader = 0) in E. lia.
Qed.

Lemma dropout_epoch_runs (e : nat) (s : state Cell16.Classifier) (rate : R) :
  training_inv ok true rate s ->
  exists s' a,
    Cell17.epoch trainloader testloader e s = (Some tt, s')
    /\ training_inv ok true rate s'
    /\ trace s'
       = trace s
         ++ epoch_events (len trainloader) (len testloader) true false rate a.
Proof.
  intros Hinv.
  destruct (@training_loop rt laws Cell16.Classifier Cell16_ModelClass ag ok sh_train
              (fun md exs g H1 H2 H3 =>
                 @Cell16_forward_defined rt laws md sh_train exs g H1 H2 H3)
              (fun md ps H E => @Cell16_load_trainable rt md ps H E)
              trainloader Htrain s true rate Hinv)
    as (idx & rl & s1 & Hperm & Eloop & Hinv1 & Ht1).
  destruct Hinv1 as (Hok1 & Hmd1 & Hge1 & Hlr1).
  destruct (dropout_validation_pass_prints s1 Hok1) as (idx' & g' & _ & Eval).
  unfold Cell17.epoch, bind. rewrite Eloop, Eval.
  eexists _, _. split; [reflexivity|].
  split; [unfold training_inv; cbn; auto|].
  cbn [trace]. rewrite Ht1. unfold epoch_events.
  change (batch_size trainloader) with 64.
  rewrite (len_trainloader trainset Hperm), <- !app_assoc.
  reflexivity.
Qed.
End Cell17Epochs.

Lemma Cell16_init_ok {rt : Runtime} {laws : RuntimeLaws rt} (g : Generator) :
  DropoutClassifier_ok (fst (Cell16.__init__ g)) = true
  /\ nn.training (Cell16.dropout (fst (Cell16.__init__ g))) = true.
Proof.
  unfold Cell16.__init__.
  pose proof (Linear_init_ok 784 256 g) as H1.
  destruct (nn.Linear_init 784 256 g) as [l1 g1].
  pose proof (Linear_init_ok 256 128 g1) as H2.
  destruct (nn.Linear_init 256 128 g1) as [l2 g2].
  pose proof (Linear_init_ok 128 64 g2) as H3.
  destruct (nn.Linear_init 128 64 g2) as [l3 g3].
  pose proof (Linear_init_ok 64 10 g3) as H4.
  destruct (nn.Linear_init 64 10 g3) as [l4 g4].
  cbn [fst] in *. unfold DropoutClassifier_ok, layers_ok.
  cbn [Cell16.fc1 Cell16.fc2 Cell16.fc3 Cell16.fc4 Cell16.dropout nn.training].
  now rewrite H1, H2, H3, H4.
Qed.

(** The run of cell 17 completes; its trace is that of 10 epochs, the
    training forward passes in training mode and the validation forward
    passes in evaluation mode. *)
Lemma dropout_loop_trace
      {rt : Runtime} {laws : RuntimeLaws rt} {ag : Autograd Cell16.Classifier}
      (sh_train sh_test : list nat)
      (trainset testset : list (tensor R * nat)) (g : Generator) :
  dataset_ok sh_train trainset = true ->
  dataset_ok sh_test testset = true ->
  testset <> [] ->
  exists s' accuracies,
    Cell17.run (Cell1.trainloader trainset) (Cell1.testloader testset) g
    = (Some tt, s')
    /\ length accuracies = 10
    /\ trace s'
       = flat_map (epoch_events (len (Cell1.trainloader trainset))
                                (len (Cell1.testloader testset))
                                true false 0.003%R)
                  accuracies.
Proof.
  intros Htrain Htest Hne.
  unfold Cell17.run.
  destruct (Cell16_init_ok g) as [Hok Hmode].
  destruct (Cell16.__init__ g) as [m g0]. cbn [fst] in Hok, Hmode.
  set (trainloader := Cell1.trainloader trainset).
  set (testloader := Cell1.testloader testset).
  set (evs := epoch_events _ _ true false 0.003%R).
  pose (J := fun (pre : list nat) (_ : unit) (s : state Cell16.Classifier) =>
               training_inv (fun m => DropoutClassifier_ok m = true) true 0.003%R s
               /\ exists accs, length accs = length pre
                               /\ trace s = flat_map evs accs).
  destruct (@for_each_rel _ _ _
              (fun (_ : unit) e => Cell17.epoch trainloader testloader e)
              (seq 0 epochs) J) with (acc := tt) (s := initial_state m g0)
    as (u & Erun & Hinv & accs & Hlen & Htrace).
  - intros pre e post [] s _ (Hinv & accs & Hlen & Htrace).
    destruct (@dropout_epoch_runs rt laws ag sh_train sh_test trainset testset
                Htrain Htest Hne e s 0.003%R Hinv)
      as (s1 & a & E & Hinv1 & Ht1).
    fold trainloader testloader in E, Ht1. rewrite E. cbn [fst snd].
    exists tt. split; [reflexivity|]. split; [exact Hinv1|].
    exists (accs ++ [a]). split.
    + rewrite !length_app, Hlen. reflexivity.
    + rewrite Ht1, Htrace, flat_map_app. cbn [flat_map].
      rewrite app_nil_r. reflexivity.
  - split.
    + unfold training_inv, initial_state. cbn. auto.
    + exists []. split; reflexivity.
  - destruct (for_each _ _ _ _) as [r s']. cbn [fst snd] in *. subst r.
    destruct u. exists s', accs. split; [reflexivity|].
    split; [|exact Htrace].
    rewrite Hlen. reflexivity.
Qed.

(** C4.  In the dropout training loop of cell 17, every forward pass of the
    training loop finds the dropout module in training mode (dropout active)
    and every forward pass of the validation loop finds it in evaluation mode
    (dropout off), in every run, completed or not.  On well-formed data the
    run completes, and each of its 10 epochs is: the training batches, each
    with its forward pass in training mode; then the validation forward
    passes, all in evaluation mode (the model is put in evaluation mode before
    the test loader is iterated and back in training mode before the next
    epoch's training batches); then the printed accuracy. *)
Theorem dropout_only_while_training
        {rt : Runtime} {laws : RuntimeLaws rt} {ag : Autograd Cell16.Classifier}
        (sh_train sh_test : list nat)
        (trainset testset : list (tensor R * nat)) (g : Generator) :
  dataset_ok sh_train trainset = true ->
  dataset_ok sh_test testset = true ->
  testset <> [] ->
  (forall (trainloader testloader : DataLoader) (g0 : Generator),
      Forall mode_discipline
             (trace (snd (Cell17.run trainloader testloader g0))))
  /\ exists s' accuracies,
      Cell17.run (Cell1.trainloader trainset) (Cell1.testloader testset) g
      = (Some tt, s')
      /\ length accuracies = 10
      /\ trace s'
         = flat_map
             (fun a =>
                concat (repeat [Ezero_grad; Eforward Training true true; Eloss;
                                Ebackward; Estep 0.003%R]
                               (len (Cell1.trainloader trainset)))
                ++ repeat (Eforward Validation false false)
                          (len (Cell1.testloader testset))
                ++ [Eprint a])
             accuracies.
Proof.
  intros Htrain Htest Hne. split.
  - intros trainloader testloader g0. apply dropout_modes_safe.
  - exact (@dropout_loop_trace rt laws ag sh_train sh_test trainset testset g
             Htrain Htest Hne).
Qed.

(** ** The theorems at concrete inputs *)

(** The two rows have their largest entry at index 0 and at index 1; with
    the labels 0 and 3 one example of two is right. *)
Example accuracy_of_two_rows :
  option_map snd (topk two_rows 1 1) = Some (Tensor [2; 1] [0; 1])
  /\ Cell11.accuracy two_rows two_labels = Some (1 / 2)%R.
Proof.
  assert (Erows : rows two_rows = [class0_bias; 0%R :: 1%R :: repeat 0%R 8])
    by reflexivity.
  assert (E0 : row_max class0_bias = (1%R, 0)).
  { unfold row_max, class0_bias. apply max_from_first.
    cbn [repeat]. repeat (apply Forall_cons; [lra|]). apply Forall_nil. }
  assert (E1 : row_max (0%R :: 1%R :: repeat 0%R 8) = (1%R, 1)).
  { unfold row_max. rewrite max_from_next by lra. apply max_from_first.
    cbn [repeat]. repeat (apply Forall_cons; [lra|]). apply Forall_nil. }
  split.
  - unfold topk. cbn [shape two_rows Nat.eqb option_map snd].
    rewrite Erows. cbn [map]. now rewrite E0, E1.
  - rewrite (@accuracy_count two_rows two_labels 2 10 eq_refl) by (cbn; lia).
    unfold correct_in_batch. rewrite Erows.
    cbn [two_labels data combine filter fst snd]. rewrite E0, E1.
    cbn [snd Nat.eqb filter length INR]. reflexivity.
Qed.

Lemma forward_four_layers_witness :
  Classifier_ok class0_model = true
  /\ shape blank_batch = 1 :: [1; 28; 28]
  /\ 0 < 1
  /\ numel [1; 28; 28] = 784
  /\ well_shaped blank_batch = true
  /\ exists x0 a1 a2 a3 a4 y,
      view blank_batch [Z.of_nat 1; (-1)%Z] = Some x0 /\ shape x0 = [1; 784]
      /\ nn.Linear_forward (Cell3.fc1 class0_model) x0 = Some a1
      /\ shape a1 = [1; 256]
      /\ nn.Linear_forward (Cell3.fc2 class0_model) (F.relu a1) = Some a2
      /\ shape a2 = [1; 128]
      /\ nn.Linear_forward (Cell3.fc3 class0_model) (F.relu a2) = Some a3
      /\ shape a3 = [1; 64]
      /\ nn.Linear_forward (Cell3.fc4 class0_model) (F.relu a3) = Some a4
      /\ shape a4 = [1; 10]
      /\ F.log_softmax a4 1 = Some y
      /\ Cell3.forward class0_model blank_batch = Some y
      /\ has_shape [1; 10] y = true.
Proof.
  assert (H1 : Classifier_ok class0_model = true) by (vm_compute; reflexivity).
  assert (H2 : shape blank_batch = 1 :: [1; 28; 28]) by reflexivity.
  assert (H3 : 0 < 1) by lia.
  assert (H4 : numel [1; 28; 28] = 784) by reflexivity.
  assert (H5 : well_shaped blank_batch = true) by (vm_compute; reflexivity).
  repeat (split; [assumption|]).
  exact (forward_four_layers class0_model blank_batch H1 H2 H3 H4 H5).
Defined.

Lemma exp_forward_distribution_witness :
  Classifier_ok class0_model = true
  /\ shape blank_batch = 1 :: [1; 28; 28]
  /\ 0 < 1
  /\ numel [1; 28; 28] = 784
  /\ well_shaped blank_batch = true
  /\ exists y,
      Cell3.forward class0_model blank_batch = Some y
      /\ length (rows (torch.exp y)) = 1
      /\ Forall (fun r => length r = 10
                          /\ Forall (fun v => 0 <= v)%R r
                          /\ torch.sum r = 1%R)
                (rows (torch.exp y)).
Proof.
  assert (H1 : Classifier_ok class0_model = true) by (vm_compute; reflexivity).
  assert (H2 : shape blank_batch = 1 :: [1; 28; 28]) by reflexivity.
  assert (H3 : 0 < 1) by lia.
  assert (H4 : numel [1; 28; 28] = 784) by reflexivity.
  assert (H5 : well_shaped blank_batch = true) by (vm_compute; reflexivity).
  repeat (split; [assumption|]).
  exact (exp_forward_distribution class0_model blank_batch H1 H2 H3 H4 H5).
Defined.

Lemma batch_accuracy_witness :
  has_shape [2; 10] two_rows = true
  /\ 0 < 2
  /\ length (data two_labels) = 2
  /\ Cell11.accuracy two_rows two_labels
     = Some (INR (correct_in_batch two_rows two_labels) / INR 2)%R
  /\ Forall (fun r => is_top1 r (snd (row_max r))) (rows two_rows).
Proof.
  assert (H1 : has_shape [2; 10] two_rows = true) by (vm_compute; reflexivity).
  assert (H2 : 0 < 2) by lia.
  assert (H3 : length (data two_labels) = 2) by reflexivity.
  repeat (split; [assumption|]).
  exact (batch_accuracy two_rows two_labels H1 H2 H3).
Defined.

Lemma dropout_eval_same_output_witness :
  Cell16.fc1 class0_dropout_model = Cell3.fc1 class0_model
  /\ Cell16.fc2 class0_dropout_model = Cell3.fc2 class0_model
  /\ Cell16.fc3 class0_dropout_model = Cell3.fc3 class0_model
  /\ Cell16.fc4 class0_dropout_model = Cell3.fc4 class0_model
  /\ forall (x : tensor R) (g : @Generator constant_runtime),
      @Cell16.forward constant_runtime (Cell16.eval class0_dropout_model) x g
      = (Cell3.forward class0_model x, g).
Proof.
  repeat (split; [reflexivity|]).
  exact (@dropout_eval_same_output constant_runtime class0_model
           class0_dropout_model eq_refl eq_refl eq_refl eq_refl).
Defined.

Lemma eval_mode_is_deterministic_witness :
  same_layers class0_dropout_model class0_dropout_model
  /\ forall (x : tensor R) (g1 g2 : @Generator constant_runtime),
      fst (@Cell16.forward constant_runtime
             (Cell16.eval class0_dropout_model) x g1)
      = fst (@Cell16.forward constant_runtime
               (Cell16.eval class0_dropout_model) x g2).
Proof.
  assert (H : same_layers class0_dropout_model class0_dropout_model)
    by (repeat split; reflexivity).
  split; [exact H|].
  exact (proj1 (@eval_mode_is_deterministic constant_runtime
                  class0_dropout_model class0_dropout_model H)).
Defined.

Lemma training_loop_order_witness :
  RuntimeLaws constant_runtime
  /\ dataset_ok [1; 28; 28] examples64 = true
  /\ dataset_ok [1; 28; 28] examples65 = true
  /\ examples65 <> []
  /\ (forall (m : Cell3.Classifier) (g0 : @Generator constant_runtime)
             (images : tensor R) (labels : tensor nat),
         map (fun t => (shape t, length (data t)))
             (@gradient constant_runtime _ (parameters_as_gradient Cell3_ModelClass)
                m g0 images labels)
         = map (fun t => (shape t, length (data t))) (Cell3.parameters m))
  /\ exists s' accuracies,
      @Cell13.run constant_runtime (parameters_as_gradient Cell3_ModelClass)
        (Cell1.trainloader examples64) (Cell1.testloader examples65) tt
      = (Some tt, s')
      /\ length accuracies = 10
      /\ @training_epochs constant_runtime (parameters_as_gradient Cell3_ModelClass)
           (Cell1.trainloader examples64) (Cell1.testloader examples65)
           accuracies
           (@initial_state constant_runtime _ _
              (fst (@Cell3.__init__ constant_runtime tt))
              (snd (@Cell3.__init__ constant_runtime tt))) s'
      /\ lr s' = 0.003%R
      /\ trace s'
         = flat_map
             (fun a =>
                concat (repeat [Ezero_grad; Eforward Training true true; Eloss;
                                Ebackward; Estep 0.003%R]
                               (len (Cell1.trainloader examples64)))
                ++ repeat (Eforward Validation true false)
                          (len (Cell1.testloader examples65))
                ++ [Eprint a])
             accuracies.
Proof.
  assert (H1 : dataset_ok [1; 28; 28] examples64 = true) by (vm_compute; reflexivity).
  assert (H2 : dataset_ok [1; 28; 28] examples65 = true) by (vm_compute; reflexivity).
  assert (H3 : examples65 <> []) by discriminate.
  assert (H4 : forall (m : Cell3.Classifier) (g0 : @Generator constant_runtime)
                      (images : tensor R) (labels : tensor nat),
             map (fun t => (shape t, length (data t)))
                 (@gradient constant_runtime _ (parameters_as_gradient Cell3_ModelClass)
                    m g0 images labels)
             = map (fun t => (shape t, length (data t))) (Cell3.parameters m))
    by (intros; reflexivity).
  split; [exact constant_runtime_laws|].
  repeat (split; [assumption|]).
  exact (@training_loop_order constant_runtime constant_runtime_laws
           (parameters_as_gradient Cell3_ModelClass) [1; 28; 28] [1; 28; 28]
           examples64 examples65 tt H1 H2 H3 H4).
Defined.

Lemma dropout_only_while_training_witness :
  RuntimeLaws constant_runtime
  /\ dataset_ok [1; 28; 28] examples64 = true
  /\ dataset_ok [1; 28; 28] examples65 = true
  /\ examples65 <> []
  /\ (forall (trainloader testloader : DataLoader) (g0 : @Generator constant_runtime),
         Forall mode_discipline
                (trace (snd (@Cell17.run constant_runtime (parameters_as_gradient _)
                               trainloader testloader g0))))
  /\ exists s' accuracies,
      @Cell17.run constant_runtime (parameters_as_gradient _)
        (Cell1.trainloader examples64) (Cell1.testloader examples65) tt
      = (Some tt, s')
      /\ length accuracies = 10
      /\ trace s'
         = flat_map
             (fun a =>
                concat (repeat [Ezero_grad; Eforward Training true true; Eloss;
                                Ebackward; Estep 0.003%R]
                               (len (Cell1.trainloader examples64)))
                ++ repeat (Eforward Validation false false)
                          (len (Cell1.testloader examples65))
                ++ [Eprint a])
             accuracies.
Proof.
  assert (H1 : dataset_ok [1; 28; 28] examples64 = true) by (vm_compute; reflexivity).
  assert (H2 : dataset_ok [1; 28; 28] examples65 = true) by (vm_compute; reflexivity).
  assert (H3 : examples65 <> []) by discriminate.
  split; [exact constant_runtime_laws|].
  repeat (split; [assumption|]).
  exact (@dropout_only_while_training constant_runtime constant_runtime_laws
           (parameters_as_gradient _) [1; 28; 28] [1; 28; 28]
           examples64 examples65 tt H1 H2 H3).
Defined.

Lemma printed_accuracy_is_mean_of_batch_accuracies_witness :
  RuntimeLaws constant_runtime
  /\ dataset_ok [1; 28; 28] examples64 = true
  /\ dataset_ok [1; 28; 28] examples65 = true
  /\ examples65 <> []
  /\ Classifier_ok (model class0_state) = true
  /\ grad_enabled class0_state = true
  /\ exists running_loss s1 idx g' s' before,
      @for_batches constant_runtime _ R (Cell1.trainloader examples64) 0%R
        (@training_batch constant_runtime _ Cell3_ModelClass
           (parameters_as_gradient Cell3_ModelClass)) class0_state
      = (Some running_loss, s1)
      /\ @sampler constant_runtime (Cell1.testloader examples65) (generator s1)
         = (Some idx, g')
      /\ loader_batches (Cell1.testloader examples65) idx
         = Some (map (collate [1; 28; 28])
                     (batches_of (Cell1.testloader examples65) idx))
      /\ @Cell13.epoch constant_runtime (parameters_as_gradient Cell3_ModelClass)
           (Cell1.trainloader examples64) (Cell1.testloader examples65) 0 class0_state
         = (Some tt, s')
      /\ model s' = model s1
      /\ Permutation (concat (batches_of (Cell1.testloader examples65) idx)) examples65
      /\ length (batches_of (Cell1.testloader examples65) idx)
         = len (Cell1.testloader examples65)
      /\ Forall (fun b => 1 <= length b <= 64)
                (batches_of (Cell1.testloader examples65) idx)
      /\ Forall (fun b => length b = 64)
                (removelast (batches_of (Cell1.testloader examples65) idx))
      /\ Forall (fun b =>
                   exists y,
                     Cell3.forward (model s') (fst (collate [1; 28; 28] b)) = Some y
                     /\ Cell11.accuracy (torch.exp y) (snd (collate [1; 28; 28] b))
                        = Some (fraction_correct (model s') b))
                (batches_of (Cell1.testloader examples65) idx)
      /\ trace s'
         = trace class0_state ++ before
           ++ [Eprint (torch.sum (map (fraction_correct (model s'))
                                      (batches_of (Cell1.testloader examples65) idx))
                       * 100
                       / INR (length (batches_of (Cell1.testloader examples65) idx)))%R]
      /\ Forall (fun ev => match ev with Eprint _ => False | _ => True end) before
      /\ (length examples65 mod 64 = 0 ->
          (torch.sum (map (fraction_correct (model s'))
                          (batches_of (Cell1.testloader examples65) idx))
           * 100 / INR (length (batches_of (Cell1.testloader examples65) idx)))%R
          = (100 * fraction_correct (model s') examples65)%R).
Proof.
  assert (H1 : dataset_ok [1; 28; 28] examples64 = true) by (vm_compute; reflexivity).
  assert (H2 : dataset_ok [1; 28; 28] examples65 = true) by (vm_compute; reflexivity).
  assert (H3 : examples65 <> []) by discriminate.
  assert (H4 : Classifier_ok (model class0_state) = true) by (vm_compute; reflexivity).
  assert (H5 : grad_enabled class0_state = true) by reflexivity.
  split; [exact constant_runtime_laws|].
  repeat (split; [assumption|]).
  exact (@printed_accuracy_is_mean_of_batch_accuracies
           constant_runtime constant_runtime_laws
           (parameters_as_gradient Cell3_ModelClass)
           [1; 28; 28] [1; 28; 28] examples64 examples65 0 class0_state
           H1 H2 H3 H4 H5).
Defined.

Lemma inference_on_first_test_image_witness :
  RuntimeLaws constant_runtime
  /\ dataset_ok [1; 28; 28] examples65 = true
  /\ examples65 <> []
  /\ DropoutClassifier_ok (model class0_dropout_state) = true
  /\ exists idx i0 images labels img label output s1 s',
      @sampler constant_runtime (Cell1.testloader examples65)
        (generator class0_dropout_state) = (Some idx, generator s1)
      /\ hd_error (batch_sampler 64 [] idx) = Some (firstn 64 idx)
      /\ fetch (Cell1.testloader examples65) (firstn 64 idx) = Some (images, labels)
      /\ shape images = Nat.min 64 (length examples65) :: [1; 28; 28]
      /\ hd_error idx = Some i0
      /\ nth_error examples65 i0 = Some (img, label)
      /\ getitem images 0 = Some img
      /\ img = Tensor [1; 28; 28] (data img)
      /\ In (img, label) examples65
      /\ @Cell19.first_image constant_runtime (Cell1.testloader examples65)
           (snd (set_model Cell16.eval class0_dropout_state))
         = (Some (Tensor [1; 28; 28] (data img)), s1)
      /\ view (Tensor [1; 28; 28] (data img)) [1; 784]%Z
         = Some (Tensor [1; 784] (data img))
      /\ Cell16.forward (model s1) (Tensor [1; 784] (data img)) (generator s1)
         = (Some output, generator s1)
      /\ model s1 = Cell16.eval (model class0_dropout_state)
      /\ has_shape [1; 10] (torch.exp output) = true
      /\ view (Tensor [1; 784] (data img)) [1; 28; 28]%Z
         = Some (Tensor [1; 28; 28] (data img))
      /\ @Cell19.inference constant_runtime (Cell1.testloader examples65) class0_dropout_state
         = (Some tt, s')
      /\ trace s'
         = trace class0_dropout_state
           ++ [Eforward Inference false false;
               Eview_classify (Tensor [1; 28; 28] (data img))
                              (torch.exp output) "Fashion"%string].
Proof.
  assert (H1 : dataset_ok [1; 28; 28] examples65 = true) by (vm_compute; reflexivity).
  assert (H2 : examples65 <> []) by discriminate.
  assert (H3 : DropoutClassifier_ok (model class0_dropout_state) = true) by (vm_compute; reflexivity).
  split; [exact constant_runtime_laws|].
  repeat (split; [assumption|]).
  exact (@inference_on_first_test_image constant_runtime constant_runtime_laws
           [1; 28; 28] examples65 class0_dropout_state H1 H2 H3).
Defined.

(** * Further properties of the cells *)

(** ** Views *)

Lemma view_data {A : Type} (t t' : tensor A) (dims : list Z) :
  view t dims = Some t' -> data t' = data t.
Proof.
  unfold view. destruct (existsb _ dims); [discriminate|].
  destruct (count_occ Z.eq_dec dims (-1)%Z) as [|[|k]]; [| |discriminate].
  - destruct (_ =? _); [|discriminate]. now intros [= <-].
  - destruct (_ || _); [discriminate|]. now intros [= <-].
Qed.

Lemma numel_of_nat (sh : list nat) : numel (map Z.to_nat (map Z.of_nat sh)) = numel sh.
Proof.
  rewrite map_map. f_equal. rewrite <- (map_id sh) at 2.
  apply map_ext. intros n. apply Nat2Z.id.
Qed.

Lemma view_own_shape {A : Type} (t0 : tensor A) (sh : list nat) (d : list A) :
  length d = numel sh -> data t0 = d ->
  view t0 (map Z.of_nat sh) = Some (Tensor sh d).
Proof.
  intros Hd E. rewrite view_explicit.
  - rewrite E, map_map. do 2 f_equal. rewrite <- (map_id sh) at 2.
    apply map_ext. intros n. apply Nat2Z.id.
  - apply forallb_forall. intros z Hz. apply in_map_iff in Hz.
    destruct Hz as (n & <- & _). apply Z.leb_le. lia.
  - now rewrite numel_of_nat, E.
Qed.

Lemma filter_no_inferred (dims : list Z) :
  count_occ Z.eq_dec dims (-1)%Z = 0 ->
  filter (fun d => negb (d =? -1)%Z) dims = dims.
Proof.
  induction dims as [|d dims IH]; [reflexivity|].
  cbn [count_occ filter]. destruct (Z.eq_dec d (-1)) as [->|Hd]; [discriminate|].
  intros H. destruct (Z.eqb_spec d (-1)) as [E|_]; [contradiction|].
  cbn [negb]. now rewrite IH.
Qed.

Lemma map_no_inferred (q : nat) (dims : list Z) :
  count_occ Z.eq_dec dims (-1)%Z = 0 ->
  map (fun d => if (d =? -1)%Z then q else Z.to_nat d) dims = map Z.to_nat dims.
Proof.
  induction dims as [|d dims IH]; [reflexivity|].
  cbn [count_occ map]. destruct (Z.eq_dec d (-1)) as [->|Hd]; [discriminate|].
  intros H. destruct (Z.eqb_spec d (-1)) as [E|_]; [contradiction|].
  now rewrite IH.
Qed.

Lemma numel_inferred (q : nat) (dims : list Z) :
  count_occ Z.eq_dec dims (-1)%Z = 1 ->
  numel (map (fun d => if (d =? -1)%Z then q else Z.to_nat d) dims)
  = q * numel (map Z.to_nat (filter (fun d => negb (d =? -1)%Z) dims)).
Proof.
  induction dims as [|d dims IH]; [discriminate|].
  cbn [count_occ map filter]. destruct (Z.eq_dec d (-1)) as [->|Hd].
  - intros [= H]. change (-1 =? -1)%Z with true. cbn [negb].
    rewrite (map_no_inferred q dims H), (filter_no_inferred dims H). reflexivity.
  - intros H. destruct (Z.eqb_spec d (-1)) as [E|_]; [contradiction|].
    cbn [negb map]. unfold numel in *. cbn [fold_right]. rewrite (IH H). lia.
Qed.

Lemma view_well_shaped {A : Type} (t t' : tensor A) (dims : list Z) :
  view t dims = Some t' -> well_shaped t' = true.
Proof.
  unfold view, well_shaped. destruct (existsb _ dims); [discriminate|].
  destruct (count_occ Z.eq_dec dims (-1)%Z) as [|[|k]] eqn:Ec; [| |discriminate].
  - rewrite (filter_no_inferred dims Ec).
    destruct (Nat.eqb_spec (numel (map Z.to_nat dims)) (length (data t))) as [E|_];
      [|discriminate].
    intros [= <-]. cbn [data shape]. apply Nat.eqb_eq. now symmetry.
  - set (p := numel (map Z.to_nat (filter (fun d => negb (d =? -1)%Z) dims))).
    destruct (Nat.eqb_spec p 0) as [|Hp]; [discriminate|]. cbn [orb].
    destruct (Nat.eqb_spec (length (data t) mod p) 0) as [Hm|]; [|discriminate].
    cbn [negb]. intros [= <-]. cbn [data shape]. apply Nat.eqb_eq.
    rewrite (numel_inferred _ dims Ec). fold p.
    apply Nat.Div0.div_exact in Hm. lia.
Qed.

(** A view with explicit, nonnegative dimensions succeeds exactly when they
    multiply to the number of entries. *)
Lemma view_nonneg {A : Type} (t : tensor A) (dims : list Z) :
  forallb (fun d => (0 <=? d)%Z) dims = true ->
  view t dims
  = if numel (map Z.to_nat dims) =? length (data t)
    then Some (Tensor (map Z.to_nat dims) (data t)) else None.
Proof.
  intros Hpos.
  destruct (Nat.eqb_spec (numel (map Z.to_nat dims)) (length (data t))) as [E|E].
  - now apply view_explicit.
  - unfold view.
    assert (E3 : count_occ Z.eq_dec dims (-1)%Z = 0).
    { apply count_occ_not_In. intros H. rewrite forallb_forall in Hpos.
      specialize (Hpos _ H). discriminate. }
    rewrite E3, (filter_no_inferred dims E3).
    destruct (existsb _ dims); [reflexivity|].
    destruct (Nat.eqb_spec (numel (map Z.to_nat dims)) (length (data t)));
      [contradiction|reflexivity].
Qed.

(** X1.  Reshaping never touches the entries: a [view] that succeeds returns
    the same storage under a shape that announces exactly its number of
    entries, and viewing the result under the shape of the tensor one
    started from gives that tensor back (as cell 19 does when it flattens
    the image for the network and unflattens it for the plot). *)
Theorem view_round_trip {A : Type} (t t' : tensor A) (dims : list Z) :
  view t dims = Some t' ->
  data t' = data t
  /\ well_shaped t' = true
  /\ (well_shaped t = true -> view t' (map Z.of_nat (shape t)) = Some t).
Proof.
  intros Hv. pose proof (view_data _ _ Hv) as Hd.
  split; [exact Hd|]. split; [exact (view_well_shaped _ _ Hv)|].
  intros Hw. apply Nat.eqb_eq in Hw. destruct t as [sh d]. cbn [shape data] in *.
  exact (@view_own_shape A t' sh d Hw Hd).
Qed.

Lemma view_round_trip_witness :
  view blank_image [1; 784]%Z = Some (Tensor [1; 784] (data blank_image))
  /\ data (Tensor [1; 784] (data blank_image)) = data blank_image
  /\ well_shaped (Tensor [1; 784] (data blank_image)) = true
  /\ (well_shaped blank_image = true ->
      view (Tensor [1; 784] (data blank_image)) (map Z.of_nat (shape blank_image))
      = Some blank_image).
Proof.
  assert (H : view blank_image [1; 784]%Z
              = Some (Tensor [1; 784] (data blank_image))).
  { apply (@view_explicit R blank_image [1; 784]%Z); reflexivity. }
  split; [exact H|].
  exact (@view_round_trip R blank_image (Tensor [1; 784] (data blank_image))
                          [1; 784]%Z H).
Defined.

(** ** The exercise's accuracy (cells 7-11) *)

(** X2.  For class probabilities of shape [(n, c)], cells 7-11 give a number
    as accuracy exactly when there is at least one class, at least one
    example, and as many labels as examples: without a class [topk] raises,
    with another number of labels [view] raises, and the mean over no example
    is not a number. *)
Theorem accuracy_defined_iff (ps : tensor R) (labels : tensor nat) (n c : nat) :
  shape ps = [n; c] ->
  (exists a, Cell11.accuracy ps labels = Some a)
  <-> 0 < c /\ 0 < n /\ length (data labels) = n.
Proof.
  intros Hs. split.
  - intros [a Ha]. unfold Cell11.accuracy, topk in Ha. rewrite Hs in Ha.
    destruct (Nat.eqb_spec c 0) as [|Hc]; [discriminate|].
    cbn [obind snd shape] in Ha.
    rewrite view_nonneg in Ha
      by (cbn; rewrite ?andb_true_r; apply Z.leb_le; lia).
    cbn [map numel fold_right] in Ha. rewrite Nat2Z.id in Ha.
    change (Z.to_nat (Z.of_nat 1)) with 1 in Ha.
    destruct (Nat.eqb_spec (n * (1 * 1)) (length (data labels))) as [E|];
      [|discriminate].
    split; [lia|]. split; [|lia].
    destruct n as [|n]; [|lia]. exfalso.
    unfold rows in Ha. rewrite Hs in Ha. cbn in Ha. discriminate.
  - intros (Hc & Hn & Hl). eexists. now apply (@accuracy_count ps labels n c).
Qed.

Lemma accuracy_defined_iff_witness :
  shape two_rows = [2; 10]
  /\ ((exists a, Cell11.accuracy two_rows two_labels = Some a)
      <-> 0 < 10 /\ 0 < 2 /\ length (data two_labels) = 2).
Proof.
  split; [reflexivity|].
  exact (@accuracy_defined_iff two_rows two_labels 2 10 eq_refl).
Defined.

Lemma Forall_equiv {A : Type} (P Q : A -> Prop) (l : list A) :
  (forall x, P x <-> Q x) -> (Forall P l <-> Forall Q l).
Proof.
  intros H. split; apply Forall_impl; intros x; apply H.
Qed.

Lemma filter_all {A : Type} (f : A -> bool) (l : list A) :
  length (filter f l) <= length l
  /\ (length (filter f l) = length l <-> Forall (fun x => f x = true) l)
  /\ (length (filter f l) = 0 <-> Forall (fun x => f x = false) l).
Proof.
  induction l as [|x l (IH1 & IH2 & IH3)].
  - cbn. repeat split; intros; try lia; constructor.
  - cbn [filter]. destruct (f x) eqn:E; cbn [length].
    + split; [lia|]. split; split.
      * intros H. constructor; [exact E|]. apply IH2. lia.
      * intros H. inversion H; subst. f_equal. now apply IH2.
      * discriminate.
      * intros H. inversion H; subst. congruence.
    + split; [lia|]. split; split.
      * intros H. lia.
      * intros H. inversion H; subst. congruence.
      * intros H. constructor; [exact E|]. now apply IH3.
      * intros H. inversion H; subst. now apply IH3.
Qed.

(** X3.  The accuracy of a batch is a number between 0 and 1; it is 1 exactly
    when every example's top class is its label and 0 exactly when none is. *)
Theorem accuracy_range (ps : tensor R) (labels : tensor nat) (n c : nat) :
  shape ps = [n; c] -> 0 < c -> 0 < n -> length (data labels) = n ->
  exists a,
    Cell11.accuracy ps labels = Some a
    /\ (0 <= a <= 1)%R
    /\ (a = 1%R <-> Forall (fun rl => snd (row_max (fst rl)) = snd rl)
                           (combine (rows ps) (data labels)))
    /\ (a = 0%R <-> Forall (fun rl => snd (row_max (fst rl)) <> snd rl)
                           (combine (rows ps) (data labels))).
Proof.
  intros Hs Hc Hn Hl. eexists. split; [now apply (@accuracy_count ps labels n c)|].
  unfold correct_in_batch.
  set (f := fun rl : list R * nat => snd (row_max (fst rl)) =? snd rl).
  set (l := combine (rows ps) (data labels)).
  assert (Hlen : length l = n).
  { unfold l. rewrite length_combine, (length_rows ps Hs), Hl. lia. }
  destruct (filter_all f l) as (H1 & H2 & H3). rewrite Hlen in H1, H2.
  assert (Hpos : (0 < INR n)%R) by (apply lt_0_INR; lia).
  split; [|split].
  - split.
    + apply Rmult_le_pos; [apply pos_INR|]. left. now apply Rinv_0_lt_compat.
    + apply Rmult_le_reg_r with (INR n); [exact Hpos|].
      unfold Rdiv. rewrite Rmult_assoc, Rinv_l, Rmult_1_r, Rmult_1_l by lra.
      now apply le_INR.
  - assert (E : Forall (fun rl => snd (row_max (fst rl)) = snd rl) l
                <-> Forall (fun x => f x = true) l).
    { apply Forall_equiv. intros rl. unfold f. now rewrite Nat.eqb_eq. }
    rewrite E, <- H2. split.
    + intros H. apply INR_eq. apply Rmult_eq_reg_r with (/ INR n)%R.
      * unfold Rdiv in H. rewrite H. field. lra.
      * apply Rinv_neq_0_compat. lra.
    + intros ->. field. lra.
  - assert (E : Forall (fun rl => snd (row_max (fst rl)) <> snd rl) l
                <-> Forall (fun x => f x = false) l).
    { apply Forall_equiv. intros rl. unfold f. now rewrite Nat.eqb_neq. }
    rewrite E, <- H3. split.
    + intros H. apply INR_eq. cbn [INR].
      apply Rmult_eq_reg_r with (/ INR n)%R.
      * unfold Rdiv in H. rewrite H. ring.
      * apply Rinv_neq_0_compat. lra.
    + intros ->. cbn [INR]. unfold Rdiv. ring.
Qed.

Lemma accuracy_range_witness :
  shape two_rows = [2; 10] /\ 0 < 10 /\ 0 < 2 /\ length (data two_labels) = 2
  /\ exists a,
      Cell11.accuracy two_rows two_labels = Some a
      /\ (0 <= a <= 1)%R
      /\ (a = 1%R <-> Forall (fun rl => snd (row_max (fst rl)) = snd rl)
                             (combine (rows two_rows) (data two_labels)))
      /\ (a = 0%R <-> Forall (fun rl => snd (row_max (fst rl)) <> snd rl)
                             (combine (rows two_rows) (data two_labels))).
Proof.
  assert (H2 : 0 < 10) by lia.
  assert (H3 : 0 < 2) by lia.
  split; [reflexivity|]. split; [exact H2|]. split; [exact H3|].
  split; [reflexivity|].
  exact (@accuracy_range two_rows two_labels 2 10 eq_refl H2 H3 eq_refl).
Defined.

(** ** Probabilities and log-probabilities *)

Lemma max_from_exp (l : list R) :
  forall (b : R) (bi i : nat),
    max_from (Rtrigo_def.exp b) bi i (map Rtrigo_def.exp l)
    = (Rtrigo_def.exp (fst (max_from b bi i l)), snd (max_from b bi i l)).
Proof.
  induction l as [|v l IH]; intros b bi i; [reflexivity|].
  cbn [map max_from].
  destruct (Rlt_dec b v) as [H|H];
    destruct (Rlt_dec (Rtrigo_def.exp b) (Rtrigo_def.exp v)) as [H'|H'].
  - apply IH.
  - exfalso. apply H'. now apply exp_increasing.
  - exfalso. apply H. now apply exp_lt_inv.
  - apply IH.
Qed.

Lemma row_max_exp (r : list R) :
  snd (row_max (map Rtrigo_def.exp r)) = snd (row_max r).
Proof.
  destruct r as [|v l]; [reflexivity|].
  cbn [map row_max]. now rewrite max_from_exp.
Qed.

Lemma row_at_map {A B : Type} (f : A -> B) (k : nat) (d : list A) (i : nat) :
  row_at k (map f d) i = map f (row_at k d i).
Proof. unfold row_at. now rewrite skipn_map, firstn_map. Qed.

Lemma rows_exp (y : tensor R) :
  rows (torch.exp y) = map (map Rtrigo_def.exp) (rows y).
Proof.
  unfold rows, torch.exp. cbn [shape data].
  destruct (shape y) as [|n [|k [|]]]; try reflexivity.
  rewrite map_map. apply map_ext. intros i. apply row_at_map.
Qed.

(** X4.  Taking [torch.exp] of the network's output changes no prediction:
    the top class of every row, and with it the accuracy of cells 7-11, is
    the same on the log-probabilities as on the probabilities the loops
    compute first. *)
Theorem accuracy_exp (y : tensor R) (labels : tensor nat) :
  option_map snd (topk (torch.exp y) 1 1) = option_map snd (topk y 1 1)
  /\ Cell11.accuracy (torch.exp y) labels = Cell11.accuracy y labels.
Proof.
  assert (E : option_map snd (topk (torch.exp y) 1 1) = option_map snd (topk y 1 1)).
  { unfold topk. rewrite rows_exp. cbn [torch.exp shape].
    destruct (shape y) as [|n [|c [|]]]; try reflexivity.
    destruct (c =? 0); [reflexivity|]. cbn [option_map snd]. do 2 f_equal.
    rewrite !map_map. apply map_ext. intros r. apply row_max_exp. }
  split; [exact E|]. unfold Cell11.accuracy.
  destruct (topk (torch.exp y) 1 1) as [[p1 c1]|];
    destruct (topk y 1 1) as [[p2 c2]|]; cbn in E; try discriminate.
  - injection E as ->. reflexivity.
  - reflexivity.
Qed.

(** ** The forward pass of cell 3 *)

(** X5.  On a well-formed classifier and a well-shaped input, [forward]
    returns exactly when the input has a first dimension of at least one
    example and its other dimensions multiply to 784; on any other input
    ([x.shape[0]], [x.view] or [fc1] raises) there is no output. *)
Theorem forward_defined_iff (m : Cell3.Classifier) (x : tensor R) :
  Classifier_ok m = true -> well_shaped x = true ->
  (exists y, Cell3.forward m x = Some y)
  <-> exists n s, shape x = n :: s /\ 0 < n /\ numel s = 784.
Proof.
  intros Hok Hw. split.
  - intros [y Hy]. destruct (shape x) as [|n s] eqn:Hs.
    { unfold Cell3.forward, shape0 in Hy. rewrite Hs in Hy. discriminate. }
    exists n, s. split; [reflexivity|]. destruct n as [|n].
    { rewrite (@forward_empty_batch m x s Hs) in Hy. discriminate. }
    split; [lia|].
    assert (Hd : length (data x) = S n * numel s).
    { apply Nat.eqb_eq in Hw. rewrite Hw, Hs. reflexivity. }
    unfold Cell3.forward, shape0 in Hy. rewrite Hs in Hy. cbn [hd_error obind] in Hy.
    rewrite (@view_batch R x (S n) (numel s)) in Hy by (lia || exact Hd).
    cbn [obind] in Hy.
    destruct (nn.Linear_forward (Cell3.fc1 m) (Tensor [S n; numel s] (data x)))
      as [a1|] eqn:E1; [|discriminate].
    unfold nn.Linear_forward in E1. cbn [shape] in E1.
    destruct (Nat.eqb_spec (numel s) (nn.in_features (Cell3.fc1 m))) as [E|];
      [|discriminate].
    destruct (layers_ok_true _ _ _ _ Hok) as (H1 & _).
    destruct (layer_ok_true _ _ _ H1) as (Hi & _). congruence.
  - intros (n & s & Hs & Hn & Hk). eexists.
    apply (@forward_rows m x n s Hok Hs Hn).
    exact (@well_shaped_batch R x n s Hs Hk Hw).
Qed.

Lemma forward_defined_iff_witness :
  Classifier_ok class0_model = true /\ well_shaped blank_batch = true
  /\ ((exists y, Cell3.forward class0_model blank_batch = Some y)
      <-> exists n s, shape blank_batch = n :: s /\ 0 < n /\ numel s = 784).
Proof.
  assert (H1 : Classifier_ok class0_model = true) by (vm_compute; reflexivity).
  assert (H2 : well_shaped blank_batch = true) by (vm_compute; reflexivity).
  split; [exact H1|]. split; [exact H2|].
  exact (@forward_defined_iff class0_model blank_batch H1 H2).
Defined.

(** X6.  The network treats the examples of a batch independently: row [i]
    of the output for a batch is the output for the [i]-th example fed alone
    (as a batch of one). *)
Theorem forward_batch_independent (m : Cell3.Classifier) (sh : list nat)
        (exs : list (tensor R * nat)) :
  Classifier_ok m = true -> exs <> [] ->
  (forall ex, In ex exs -> length (data (fst ex)) = 784) ->
  exists y,
    Cell3.forward m (fst (collate sh exs)) = Some y
    /\ length (rows y) = length exs
    /\ forall i ex, nth_error exs i = Some ex ->
         exists r, nth_error (rows y) i = Some r
                   /\ Cell3.forward m (fst (collate sh [ex]))
                      = Some (Tensor [1; 10] r).
Proof.
  intros Hok Hne Hex. eexists. split; [exact (@forward_collated m sh exs Hok Hne Hex)|].
  rewrite (@rows_rowwise_n _ _ _ exs (length exs) 10 eq_refl)
    by (intros; now apply length_frow).
  split; [apply length_map|].
  intros i ex Hi. eexists. split; [exact (map_nth_error _ _ _ Hi)|].
  rewrite (@forward_collated m sh [ex] Hok).
  - cbn [length flat_map]. now rewrite app_nil_r.
  - discriminate.
  - intros ex' [<-|[]]. apply Hex. eapply nth_error_In. exact Hi.
Qed.

Lemma forward_batch_independent_witness :
  Classifier_ok class0_model = true /\ examples65 <> []
  /\ (forall ex, In ex examples65 -> length (data (fst ex)) = 784)
  /\ exists y,
      Cell3.forward class0_model (fst (collate [1; 28; 28] examples65)) = Some y
      /\ length (rows y) = length examples65
      /\ forall i ex, nth_error examples65 i = Some ex ->
           exists r, nth_error (rows y) i = Some r
                     /\ Cell3.forward class0_model (fst (collate [1; 28; 28] [ex]))
                        = Some (Tensor [1; 10] r).
Proof.
  assert (H1 : Classifier_ok class0_model = true) by (vm_compute; reflexivity).
  assert (H2 : examples65 <> []) by discriminate.
  assert (H3 : forall ex, In ex examples65 -> length (data (fst ex)) = 784).
  { intros ex Hin. exact (proj1 (proj2 (proj2 (dataset_ok_true _ _ examples65_ok) ex Hin))). }
  split; [exact H1|]. split; [exact H2|]. split; [exact H3|].
  exact (@forward_batch_independent class0_model [1; 28; 28] examples65 H1 H2 H3).
Defined.

Lemma exp_le_sum (r : list R) (v : R) :
  In v r -> (Rtrigo_def.exp v <= torch.sum (map Rtrigo_def.exp r))%R.
Proof.
  induction r as [|w r IH]; [intros []|]. cbn [map torch.sum fold_right].
  intros [->|Hin].
  - destruct r as [|u r].
    + cbn. lra.
    + assert (H : (0 < torch.sum (map Rtrigo_def.exp (u :: r)))%R)
        by (apply sum_exp_pos; discriminate).
      unfold torch.sum in H. lra.
  - specialize (IH Hin). pose proof (exp_pos w). unfold torch.sum in IH. lra.
Qed.

Lemma log_softmax_row_nonpos (r : list R) (w : R) :
  In w (F.log_softmax_row r) -> (w <= 0)%R.
Proof.
  unfold F.log_softmax_row. intros H. apply in_map_iff in H.
  destruct H as (v & <- & Hin).
  assert (Hs : (0 < torch.sum (map Rtrigo_def.exp r))%R).
  { apply sum_exp_pos. intros ->. destruct Hin. }
  pose proof (exp_le_sum r v Hin) as Hle. pose proof (exp_pos v) as Hv.
  set (q := (Rtrigo_def.exp v / torch.sum (map Rtrigo_def.exp r))%R).
  assert (Hq0 : (0 < q)%R).
  { unfold q, Rdiv. apply Rmult_lt_0_compat; [exact Hv|]. now apply Rinv_0_lt_compat. }
  assert (Hq1 : (q <= 1)%R).
  { apply Rmult_le_reg_r with (torch.sum (map Rtrigo_def.exp r)); [exact Hs|].
    unfold q, Rdiv. rewrite Rmult_assoc, Rinv_l, Rmult_1_r, Rmult_1_l by lra.
    exact Hle. }
  destruct Hq1 as [Hlt|Heq].
  - left. rewrite <- ln_1. now apply ln_increasing.
  - rewrite Heq, ln_1. lra.
Qed.

Lemma NLLLoss_nonneg (log_ps : tensor R) (labels : tensor nat) (v : R) :
  Forall (fun w => w <= 0)%R (data log_ps) ->
  nn.NLLLoss log_ps labels = Some v -> (0 <= v)%R.
Proof.
  intros Hneg. unfold nn.NLLLoss.
  destruct (shape log_ps) as [|n [|c [|]]] eqn:Hs; try discriminate.
  destruct (shape labels) as [|k [|]]; try discriminate.
  destruct ((n =? k) && (0 <? n)) eqn:E; [|discriminate].
  apply andb_prop in E. destruct E as [_ Hn]. apply Nat.ltb_lt in Hn.
  assert (Hpos : (0 < INR n)%R) by (apply lt_0_INR; lia).
  assert (Hrows : forall rl, In rl (combine (rows log_ps) (data labels)) ->
                    Forall (fun w => w <= 0)%R (fst rl)).
  { intros [r l] Hin. apply in_combine_l in Hin. unfold rows in Hin.
    rewrite Hs in Hin. apply in_map_iff in Hin. destruct Hin as (i & <- & _).
    cbn [fst]. apply Forall_forall. intros w Hw.
    rewrite Forall_forall in Hneg. apply Hneg. eapply in_row_at. exact Hw. }
  revert v Hrows. generalize (combine (rows log_ps) (data labels)).
  induction l as [|rl l IH]; intros v Hrows; cbn [fold_right].
  - intros [= <-]. lra.
  - destruct (nth_error (fst rl) (snd rl)) as [w|] eqn:Ew; [|discriminate].
    destruct (fold_right _ _ l) as [a|] eqn:Ea; [|discriminate].
    intros [= <-].
    assert (Ha : (0 <= a)%R).
    { apply IH; [|reflexivity]. intros rl' Hin. apply Hrows. now right. }
    assert (Hw : (w <= 0)%R).
    { specialize (Hrows rl (or_introl eq_refl)). rewrite Forall_forall in Hrows.
      apply Hrows. eapply nth_error_In. exact Ew. }
    assert (Hq : (w / INR n <= 0)%R).
    { unfold Rdiv. rewrite <- (Rmult_0_l (/ INR n)).
      apply Rmult_le_compat_r; [|exact Hw]. left. now apply Rinv_0_lt_compat. }
    lra.
Qed.

(** X7.  On a batch of labelled examples the network's outputs are
    log-probabilities, none of them positive, and the loss the training loop
    computes from them with [nn.NLLLoss] is defined and never negative. *)
Theorem training_loss_nonneg (m : Cell3.Classifier) (sh : list nat)
        (exs : list (tensor R * nat)) :
  Classifier_ok m = true -> exs <> [] ->
  (forall ex, In ex exs -> length (data (fst ex)) = 784 /\ snd ex < 10) ->
  exists y v,
    Cell3.forward m (fst (collate sh exs)) = Some y
    /\ Forall (fun w => w <= 0)%R (data y)
    /\ nn.NLLLoss y (snd (collate sh exs)) = Some v
    /\ (0 <= v)%R.
Proof.
  intros Hok Hne Hex.
  assert (Hex' : forall ex, In ex exs -> length (data (fst ex)) = 784)
    by (intros ex Hin; apply (Hex ex Hin)).
  pose proof (@forward_collated m sh exs Hok Hne Hex') as Hf.
  set (y := Tensor [length exs; 10]
              (flat_map (fun ex : tensor R * nat =>
                           forward_row (Cell3.fc1 m) (Cell3.fc2 m) (Cell3.fc3 m)
                                       (Cell3.fc4 m) (data (fst ex))) exs)) in *.
  assert (Hneg : Forall (fun w => w <= 0)%R (data y)).
  { apply Forall_forall. intros w Hw. unfold y in Hw. cbn [data] in Hw.
    apply in_flat_map in Hw. destruct Hw as (ex & _ & Hw).
    unfold forward_row in Hw. eapply log_softmax_row_nonpos. exact Hw. }
  assert (Hy : has_shape [length exs; 10] y = true).
  { apply has_shape_intro; [reflexivity|]. unfold y. cbn [data numel fold_right].
    rewrite (@flat_map_constant_length _ _ 10); [lia|].
    intros ex _. now apply length_frow. }
  destruct (@NLLLoss_defined y (snd (collate sh exs)) (length exs) Hy) as [v Hv].
  - destruct exs; [contradiction|cbn; lia].
  - reflexivity.
  - cbn [collate snd data]. apply Forall_forall. intros l Hl.
    apply in_map_iff in Hl. destruct Hl as (ex & <- & Hin). apply (Hex ex Hin).
  - exists y, v. split; [exact Hf|]. split; [exact Hneg|]. split; [exact Hv|].
    exact (NLLLoss_nonneg y _ Hneg Hv).
Qed.

Lemma training_loss_nonneg_witness :
  Classifier_ok class0_model = true /\ examples65 <> []
  /\ (forall ex, In ex examples65 -> length (data (fst ex)) = 784 /\ snd ex < 10)
  /\ exists y v,
      Cell3.forward class0_model (fst (collate [1; 28; 28] examples65)) = Some y
      /\ Forall (fun w => w <= 0)%R (data y)
      /\ nn.NLLLoss y (snd (collate [1; 28; 28] examples65)) = Some v
      /\ (0 <= v)%R.
Proof.
  assert (H1 : Classifier_ok class0_model = true) by (vm_compute; reflexivity).
  assert (H2 : examples65 <> []) by discriminate.
  assert (H3 : forall ex, In ex examples65 ->
                 length (data (fst ex)) = 784 /\ snd ex < 10).
  { intros ex Hin. exact (proj2 (proj2 (dataset_ok_true _ _ examples65_ok) ex Hin)). }
  split; [exact H1|]. split; [exact H2|]. split; [exact H3|].
  exact (@training_loss_nonneg class0_model [1; 28; 28] examples65 H1 H2 H3).
Defined.

(** ** The loaders of cell 1 *)

(** X8.  One iteration over a loader hands out every example of its data set
    exactly once: the batches, concatenated, are a reordering of the data set;
    there are [len(loader)] of them, none is empty or larger than the batch
    size, and all but the last have exactly the batch size (64 for the loaders
    of cell 1). *)
Theorem loader_batches_partition {rt : Runtime} {laws : RuntimeLaws rt}
        (dl : DataLoader) (g : Generator) :
  0 < batch_size dl ->
  exists idx g',
    sampler dl g = (Some idx, g')
    /\ Permutation (concat (batches_of dl idx)) (dataset dl)
    /\ length (batches_of dl idx) = len dl
    /\ Forall (fun b => 1 <= length b <= batch_size dl) (batches_of dl idx)
    /\ Forall (fun b => length b = batch_size dl) (removelast (batches_of dl idx)).
Proof.
  intros Hbs. destruct (sampler_perm dl g) as (idx & g' & Es & Hperm).
  exists idx, g'. split; [exact Es|].
  pose proof (batch_sampler_concat (batch_size dl) idx []) as Hc. cbn in Hc.
  destruct (@batch_sampler_sizes (batch_size dl) idx Hbs [] Hbs) as [Hs1 Hs2].
  assert (Hlen : forall b, In b (batch_sampler (batch_size dl) [] idx) ->
                   length (examples_at (dataset dl) b) = length b).
  { intros b Hb. apply all_some_nth. apply Forall_forall. intros i Hi.
    assert (Hin : In i idx) by (rewrite <- Hc; apply in_concat; eauto).
    apply (Permutation_in _ Hperm) in Hin. apply in_seq in Hin. lia. }
  unfold batches_of. split; [|split; [|split]].
  - rewrite <- examples_at_concat, Hc. now apply examples_at_perm.
  - rewrite length_map, (@batch_sampler_length (batch_size dl) idx Hbs [] Hbs).
    apply Permutation_length in Hperm. rewrite length_seq in Hperm.
    unfold len. cbn [length]. now rewrite Hperm.
  - apply Forall_forall. intros b Hb. apply in_map_iff in Hb.
    destruct Hb as (ib & <- & Hib). rewrite (Hlen ib Hib).
    rewrite Forall_forall in Hs1. now apply Hs1.
  - rewrite removelast_map. apply Forall_forall. intros b Hb.
    apply in_map_iff in Hb. destruct Hb as (ib & <- & Hib).
    rewrite (Hlen ib (In_removelast _ _ Hib)).
    rewrite Forall_forall in Hs2. now apply Hs2.
Qed.

Lemma loader_batches_partition_witness :
  RuntimeLaws constant_runtime
  /\ 0 < batch_size (Cell1.testloader examples65)
  /\ exists idx g',
      @sampler constant_runtime (Cell1.testloader examples65) tt = (Some idx, g')
      /\ Permutation (concat (batches_of (Cell1.testloader examples65) idx))
                     (dataset (Cell1.testloader examples65))
      /\ length (batches_of (Cell1.testloader examples65) idx)
         = len (Cell1.testloader examples65)
      /\ Forall (fun b => 1 <= length b <= batch_size (Cell1.testloader examples65))
                (batches_of (Cell1.testloader examples65) idx)
      /\ Forall (fun b => length b = batch_size (Cell1.testloader examples65))
                (removelast (batches_of (Cell1.testloader examples65) idx)).
Proof.
  assert (H : 0 < batch_size (Cell1.testloader examples65)) by (cbn; lia).
  split; [exact constant_runtime_laws|]. split; [exact H|].
  exact (@loader_batches_partition constant_runtime constant_runtime_laws
           (Cell1.testloader examples65) tt H).
Defined.

(** ** The validation passes of cells 13 and 17 *)

Lemma fraction_correct_range (m : Cell3.Classifier) (exs : list (tensor R * nat)) :
  exs <> [] -> (0 <= fraction_correct m exs <= 1)%R.
Proof.
  intros Hne. unfold fraction_correct.
  assert (Hpos : (0 < INR (length exs))%R).
  { apply lt_0_INR. destruct exs; [contradiction|cbn; lia]. }
  destruct (filter_all (correct m) exs) as (H1 & _). split.
  - apply Rmult_le_pos; [apply pos_INR|]. left. now apply Rinv_0_lt_compat.
  - apply Rmult_le_reg_r with (INR (length exs)); [exact Hpos|].
    unfold Rdiv. rewrite Rmult_assoc, Rinv_l, Rmult_1_r, Rmult_1_l by lra.
    now apply le_INR.
Qed.

Lemma sum_fractions_range (m : Cell3.Classifier)
      (bs : list (list (tensor R * nat))) :
  Forall (fun b => b <> []) bs ->
  (0 <= torch.sum (map (fraction_correct m) bs) <= INR (length bs))%R.
Proof.
  induction 1 as [|b bs Hb _ IH].
  - cbn. lra.
  - cbn [map torch.sum fold_right length]. rewrite S_INR.
    pose proof (fraction_correct_range m Hb). unfold torch.sum in IH. lra.
Qed.

Lemma batches_of_nonempty (testset : list (tensor R * nat)) (idx : list nat) :
  Permutation idx (seq 0 (length testset)) ->
  Forall (fun b => b <> []) (batches_of (Cell1.testloader testset) idx).
Proof.
  intros Hperm. unfold batches_of. cbn [Cell1.testloader dataset batch_size].
  pose proof (batch_sampler_concat 64 idx []) as Hc. cbn in Hc.
  pose proof (batch_sampler_nonempty 64 idx []) as Hn.
  apply Forall_forall. intros b Hb. apply in_map_iff in Hb.
  destruct Hb as (ib & <- & Hib). rewrite Forall_forall in Hn.
  specialize (Hn ib Hib).
  assert (Hl : length (examples_at testset ib) = length ib).
  { apply all_some_nth. apply Forall_forall. intros i Hi.
    assert (Hin : In i idx) by (rewrite <- Hc; apply in_concat; eauto).
    apply (Permutation_in _ Hperm) in Hin. apply in_seq in Hin. lia. }
  intros E. rewrite E in Hl. destruct ib; [contradiction|discriminate].
Qed.

Lemma mean_percent_range (x : R) (n : nat) :
  0 < n -> (0 <= x <= INR n)%R -> (0 <= x * 100 / INR n <= 100)%R.
Proof.
  intros Hn [H0 H1].
  assert (Hpos : (0 < INR n)%R) by (apply lt_0_INR; lia).
  split.
  - apply Rmult_le_pos; [lra|]. left. now apply Rinv_0_lt_compat.
  - apply Rmult_le_reg_r with (INR n); [exact Hpos|].
    unfold Rdiv. rewrite Rmult_assoc, Rinv_l, Rmult_1_r by lra. lra.
Qed.

(** X9.  On a nonempty test set of well-formed examples the validation pass
    of cell 13 runs one forward pass per test batch, gradients off, and then
    prints exactly one number, a percentage between 0 and 100. *)
Theorem printed_accuracy_range
        {rt : Runtime} {laws : RuntimeLaws rt}
        (sh : list nat) (testset : list (tensor R * nat))
        (s : state Cell3.Classifier) :
  dataset_ok sh testset = true -> testset <> [] ->
  Classifier_ok (model s) = true ->
  exists v s',
    Cell13.validation_pass (Cell1.testloader testset) s = (Some tt, s')
    /\ trace s'
       = trace s
         ++ repeat (Eforward Validation (Cell3.training (model s)) false)
                   (len (Cell1.testloader testset))
         ++ [Eprint v]
    /\ (0 <= v <= 100)%R.
Proof.
  intros Hds Hne Hok.
  destruct (@validation_pass_prints rt laws sh testset Hds Hne s Hok)
    as (idx & g' & _ & Hperm & Ev).
  eexists. eexists. split; [exact Ev|]. split; [reflexivity|].
  destruct (batches_of_testloader testset Hperm) as (_ & Hlen & _).
  rewrite <- Hlen. apply mean_percent_range.
  - rewrite Hlen. now apply len_testloader_pos.
  - apply sum_fractions_range. now apply batches_of_nonempty.
Qed.

Lemma printed_accuracy_range_witness :
  RuntimeLaws constant_runtime
  /\ dataset_ok [1; 28; 28] examples65 = true /\ examples65 <> []
  /\ Classifier_ok (model class0_state) = true
  /\ exists v s',
      @Cell13.validation_pass constant_runtime
        (Cell1.testloader examples65) class0_state = (Some tt, s')
      /\ trace s'
         = trace class0_state
           ++ repeat (Eforward Validation (Cell3.training (model class0_state)) false)
                     (len (Cell1.testloader examples65))
           ++ [Eprint v]
      /\ (0 <= v <= 100)%R.
Proof.
  assert (H2 : examples65 <> []) by discriminate.
  assert (H3 : Classifier_ok (model class0_state) = true) by (vm_compute; reflexivity).
  split; [exact constant_runtime_laws|].
  split; [exact examples65_ok|]. split; [exact H2|]. split; [exact H3|].
  exact (@printed_accuracy_range constant_runtime constant_runtime_laws
           [1; 28; 28] examples65 class0_state examples65_ok H2 H3).
Defined.

Lemma fraction_correct_layers (m : Cell3.Classifier) (d : Cell16.Classifier)
      (exs : list (tensor R * nat)) :
  same_layers_as m d ->
  fraction_correct m exs = fraction_correct (without_dropout d) exs.
Proof.
  intros (E1 & E2 & E3 & E4). unfold fraction_correct. do 3 f_equal.
  apply filter_ext. intros ex. unfold correct, without_dropout.
  cbn [Cell3.fc1 Cell3.fc2 Cell3.fc3 Cell3.fc4]. now rewrite E1, E2, E3, E4.
Qed.

Lemma dropout_validation_pass_sampled {rt : Runtime} {laws : RuntimeLaws rt}
      (sh : list nat) (testset : list (tensor R * nat))
      (s : state Cell16.Classifier) :
  dataset_ok sh testset = true -> testset <> [] ->
  DropoutClassifier_ok (model s) = true ->
  exists idx g',
    sampler (Cell1.testloader testset) (generator s) = (Some idx, g')
    /\ Permutation idx (seq 0 (length testset))
    /\ Cell17.validation_pass (Cell1.testloader testset) s
       = (Some tt,
          {| model := Cell16.train true (Cell16.eval (model s));
             grads := grads s; lr := lr s;
             adam_state := adam_state s; grad_enabled := grad_enabled s;
             generator := g';
             trace := trace s
               ++ repeat (Eforward Validation false false)
                         (len (Cell1.testloader testset))
               ++ [Eprint (torch.sum
                             (map (fraction_correct (without_dropout (model s)))
                                  (batches_of (Cell1.testloader testset) idx))
                           * 100 / INR (len (Cell1.testloader testset)))%R] |}).
Proof.
  intros Hds Hne Hok. set (tl := Cell1.testloader testset).
  set (s0 := {| model := Cell16.eval (model s); grads := grads s; lr := lr s;
                adam_state := adam_state s; grad_enabled := false;
                generator := generator s; trace := trace s |}).
  destruct (@validation_loop rt laws _ Cell16_ModelClass without_dropout
              (fun m => nn.training (Cell16.dropout m) = false)
              (fun md x g H => forward_eval_plain md x g H)
              sh tl Hds s0 eq_refl Hok)
    as (idx & g' & Es & Hperm & Eloop).
  exists idx, g'. split; [exact Es|]. split; [exact Hperm|].
  unfold Cell17.validation_pass, bind at 1, no_grad.
  unfold bind at 1. cbn [fst snd set_model set_grad_enabled modify
                        model grads lr adam_state grad_enabled generator trace].
  fold s0. rewrite Eloop.
  cbn [snd set_grad_enabled modify model grads lr adam_state
         grad_enabled generator trace mode Cell16_ModelClass
         Cell16.eval Cell16.train Cell16.dropout nn.training].
  assert (Hlen : length (batches_of tl idx) = len tl).
  { unfold batches_of. rewrite length_map. now apply len_testloader. }
  pose proof (len_testloader_pos Hne) as Hpos. change (0 < len tl) in Hpos.
  rewrite fold_number_add_from_int.
  - unfold print_accuracy, bind, lift. cbn [item].
    destruct (Nat.eqb_spec (len tl) 0) as [E|_]; [lia|].
    unfold emit, set_model, modify.
    cbn [fst snd model grads lr adam_state grad_enabled generator trace].
    rewrite Hlen, <- app_assoc. reflexivity.
  - intros E. apply (f_equal (@length R)) in E. rewrite length_map, Hlen in E.
    change (len tl = 0) in E. lia.
Qed.

(** X10.  Dropout plays no part in validation: started from the same
    generator state on a model with the same weights and biases, the
    validation pass of cell 17 (which switches to evaluation mode first)
    prints the very number the validation pass of cell 13 prints, and leaves
    the generator in the same state. *)
Theorem dropout_validation_agrees {rt : Runtime} {laws : RuntimeLaws rt}
        (sh : list nat) (testset : list (tensor R * nat))
        (s13 : state Cell3.Classifier) (s17 : state Cell16.Classifier) :
  dataset_ok sh testset = true -> testset <> [] ->
  Classifier_ok (model s13) = true ->
  same_layers_as (model s13) (model s17) ->
  generator s13 = generator s17 ->
  exists v s13' s17',
    Cell13.validation_pass (Cell1.testloader testset) s13 = (Some tt, s13')
    /\ Cell17.validation_pass (Cell1.testloader testset) s17 = (Some tt, s17')
    /\ trace s13'
       = trace s13
         ++ repeat (Eforward Validation (Cell3.training (model s13)) false)
                   (len (Cell1.testloader testset))
         ++ [Eprint v]
    /\ trace s17'
       = trace s17
         ++ repeat (Eforward Validation false false)
                   (len (Cell1.testloader testset))
         ++ [Eprint v]
    /\ generator s13' = generator s17'.
Proof.
  intros Hds Hne Hok Hl Hg.
  assert (Hok17 : DropoutClassifier_ok (model s17) = true).
  { destruct Hl as (E1 & E2 & E3 & E4). unfold DropoutClassifier_ok.
    rewrite <- E1, <- E2, <- E3, <- E4. exact Hok. }
  destruct (@validation_pass_prints rt laws sh testset Hds Hne s13 Hok)
    as (idx & g' & Es & _ & Ev).
  destruct (@dropout_validation_pass_sampled rt laws sh testset s17 Hds Hne Hok17)
    as (idx' & g'' & Es' & _ & Ev').
  rewrite Hg, Es' in Es. injection Es as <- <-.
  rewrite (map_ext _ _ (fun exs => fraction_correct_layers exs Hl)) in Ev.
  eexists. eexists. eexists. split; [exact Ev|]. split; [exact Ev'|].
  cbn [trace generator]. repeat split; reflexivity.
Qed.

Lemma dropout_validation_agrees_witness :
  RuntimeLaws constant_runtime
  /\ dataset_ok [1; 28; 28] examples65 = true /\ examples65 <> []
  /\ Classifier_ok (model class0_state) = true
  /\ same_layers_as (model class0_state) (model class0_dropout_state)
  /\ generator class0_state = generator class0_dropout_state
  /\ exists v s13' s17',
      @Cell13.validation_pass constant_runtime
        (Cell1.testloader examples65) class0_state = (Some tt, s13')
      /\ @Cell17.validation_pass constant_runtime
           (Cell1.testloader examples65) class0_dropout_state = (Some tt, s17')
      /\ trace s13'
         = trace class0_state
           ++ repeat (Eforward Validation (Cell3.training (model class0_state)) false)
                     (len (Cell1.testloader examples65))
           ++ [Eprint v]
      /\ trace s17'
         = trace class0_dropout_state
           ++ repeat (Eforward Validation false false)
                     (len (Cell1.testloader examples65))
           ++ [Eprint v]
      /\ generator s13' = generator s17'.
Proof.
  assert (H2 : examples65 <> []) by discriminate.
  assert (H3 : Classifier_ok (model class0_state) = true) by (vm_compute; reflexivity).
  assert (H4 : same_layers_as (model class0_state) (model class0_dropout_state))
    by (repeat split; reflexivity).
  assert (H5 : generator class0_state = generator class0_dropout_state)
    by reflexivity.
  split; [exact constant_runtime_laws|].
  split; [exact examples65_ok|]. split; [exact H2|]. split; [exact H3|].
  split; [exact H4|]. split; [exact H5|].
  exact (@dropout_validation_agrees constant_runtime constant_runtime_laws
           [1; 28; 28] examples65 class0_state class0_dropout_state
           examples65_ok H2 H3 H4 H5).
Defined.

(** X11.  The validation pass of cell 17 always restores the gradient mode
    it found, but it switches the model back to training mode only when it
    runs to its end: if anything in it raises, the model is left in
    evaluation mode. *)
Theorem dropout_validation_exception_safety {rt : Runtime}
        (testloader : DataLoader) (s : state Cell16.Classifier) :
  grad_enabled (snd (Cell17.validation_pass testloader s)) = grad_enabled s
  /\ nn.training (Cell16.dropout (model (snd (Cell17.validation_pass testloader s))))
     = match fst (Cell17.validation_pass testloader s) with
       | Some _ => true
       | None => false
       end.
Proof.
  remember (Cell17.validation_pass testloader s) as r eqn:E.
  unfold Cell17.validation_pass, bind, no_grad in E.
  cbn [fst snd set_model set_grad_enabled modify
       model grads lr adam_state grad_enabled generator trace] in E.
  set (s0 := {| model := Cell16.eval (model s); grads := grads s; lr := lr s;
                adam_state := adam_state s; grad_enabled := false;
                generator := generator s; trace := trace s |}) in E.
  assert (H0 : validating s0 s0).
  { unfold validating. repeat split. exists []. split; [now rewrite app_nil_r|constructor]. }
  pose proof (validating_loop testloader H0) as H.
  destruct (for_batches testloader (PyInt 0) validation_batch s0) as [[a|] s1];
    cbn [snd] in H; destruct H as (Hm & Ha & Hl & Hg & _).
  - match type of E with
    | context [print_accuracy a testloader ?s2] =>
        destruct (print_accuracy_events a testloader s2) as (evs' & E' & _);
        destruct (print_accuracy a testloader s2) as [[[]|] s3]
    end; cbn [snd] in E'; subst s3 r;
      cbn [fst snd set_model set_grad_enabled modify model grads lr adam_state
             grad_enabled trace];
      cbn [model]; rewrite ?Hm; split; reflexivity.
  - subst r. cbn [fst snd set_grad_enabled modify model grads lr adam_state
                    grad_enabled].
    rewrite Hm. split; reflexivity.
Qed.

(** ** Inference (cell 19) *)

Lemma first_image_frame {rt : Runtime} (testloader : DataLoader)
      (s : state Cell16.Classifier) :
  exists g',
    snd (Cell19.first_image testloader s)
    = {| model := model s; grads := grads s; lr := lr s;
         adam_state := adam_state s; grad_enabled := grad_enabled s;
         generator := g'; trace := trace s |}.
Proof.
  unfold Cell19.first_image, bind, with_generator, lift.
  destruct (sampler testloader (generator s)) as [[idx|] g']; cbn [fst snd].
  - destruct (hd_error _) as [b|]; cbn [fst snd]; [|eauto].
    destruct (fetch testloader b) as [il|]; cbn [fst snd]; eauto.
  - eauto.
Qed.

Lemma classify_frame {rt : Runtime} (s : state Cell16.Classifier) (img : tensor R) :
  nn.training (Cell16.dropout (model s)) = false ->
  model (snd (Cell19.classify img s)) = model s
  /\ grads (snd (Cell19.classify img s)) = grads s
  /\ lr (snd (Cell19.classify img s)) = lr s
  /\ adam_state (snd (Cell19.classify img s)) = adam_state s
  /\ grad_enabled (snd (Cell19.classify img s)) = grad_enabled s
  /\ generator (snd (Cell19.classify img s)) = generator s
  /\ exists evs,
      trace (snd (Cell19.classify img s)) = trace s ++ evs
      /\ match fst (Cell19.classify img s) with
         | Some _ =>
             exists img' ps,
               evs = [Eforward Inference false false;
                      Eview_classify img' ps "Fashion"%string]
         | None => evs = [] \/ evs = [Eforward Inference false false]
         end.
Proof.
  intros Hm. unfold Cell19.classify, bind at 1, lift.
  destruct (view img [1; 784]%Z) as [x|].
  - unfold bind at 1, no_grad, model_call, bind, get, emit, modify,
      with_generator, ret, lift.
    cbn [fst snd set_grad_enabled modify model grads lr adam_state
         grad_enabled generator trace call Cell16_ModelClass mode].
    rewrite (forward_eval_plain _ _ _ Hm), Hm.
    destruct (Cell3.forward (without_dropout (model s)) x) as [output|].
    + cbn [value]. destruct (view x [1; 28; 28]%Z) as [img'|];
        cbn [fst snd model grads lr adam_state grad_enabled generator trace];
        repeat (split; [reflexivity|]).
      * eexists. split; [now rewrite <- app_assoc | do 2 eexists; reflexivity].
      * eexists. split; [reflexivity | now right].
    + cbn [fst snd model grads lr adam_state grad_enabled generator trace].
      repeat (split; [reflexivity|]).
      eexists. split; [reflexivity | now right].
  - cbn [fst snd]. repeat (split; [reflexivity|]).
    exists []. split; [now rewrite app_nil_r | now left].
Qed.

(** X12.  Whatever the test loader and the state, and whether it completes
    or raises, the inference cell changes no parameter, no gradient and
    nothing of the optimizer, restores the gradient mode and leaves the model
    in evaluation mode.  It runs at most one forward pass, dropout off and
    gradients off, and the plotting call happens exactly when the cell runs
    to its end, as its last step. *)
Theorem inference_frame {rt : Runtime} (testloader : DataLoader)
        (s : state Cell16.Classifier) :
  model (snd (Cell19.inference testloader s)) = Cell16.eval (model s)
  /\ same_parameters s (snd (Cell19.inference testloader s))
  /\ grad_enabled (snd (Cell19.inference testloader s)) = grad_enabled s
  /\ exists evs,
      trace (snd (Cell19.inference testloader s)) = trace s ++ evs
      /\ match fst (Cell19.inference testloader s) with
         | Some _ =>
             exists img ps,
               evs = [Eforward Inference false false;
                      Eview_classify img ps "Fashion"%string]
         | None => evs = [] \/ evs = [Eforward Inference false false]
         end.
Proof.
  remember (Cell19.inference testloader s) as res eqn:E.
  unfold Cell19.inference in E. unfold bind at 1 in E.
  cbn [set_model modify fst snd] in E.
  set (s0 := {| model := Cell16.eval (model s); grads := grads s; lr := lr s;
                adam_state := adam_state s; grad_enabled := grad_enabled s;
                generator := generator s; trace := trace s |}) in E.
  unfold bind at 1 in E.
  destruct (first_image_frame testloader s0) as (g' & E1).
  destruct (Cell19.first_image testloader s0) as [[img|] s1];
    cbn [snd] in E1; subst s1.
  - match type of E with
    | context [Cell19.classify img ?s1] =>
        destruct (@classify_frame rt s1 img eq_refl)
          as (Hm & Hg & Hl & Ha & Hge & _ & evs & Ht & Hev)
    end.
    rewrite <- E in Hm, Hg, Hl, Ha, Hge, Ht, Hev. clear E. subst s0.
    cbn [model grads lr adam_state grad_enabled trace] in Hm, Hg, Hl, Ha, Hge, Ht.
    unfold same_parameters. rewrite Hm, Hg, Hl, Ha, Hge.
    split; [reflexivity|]. split; [repeat split; reflexivity|].
    split; [reflexivity|]. exists evs. split; [exact Ht | exact Hev].
  - subst res s0. cbn [fst snd model grads lr adam_state grad_enabled trace].
    unfold same_parameters. cbn [model grads lr adam_state].
    split; [reflexivity|]. split; [repeat split; reflexivity|].
    split; [reflexivity|].
    exists []. split; [now rewrite app_nil_r | now left].
Qed.

(** ** Gradients in the training loop *)

(** X13.  Gradients never pile up from one batch to the next: because
    every training step starts with [optimizer.zero_grad()], after a training
    step that ran to its end the parameters' [.grad] holds exactly the
    gradient of that batch's loss, whatever it held before (any earlier
    gradients having the shapes autograd produces). *)
Theorem training_batch_fresh_gradient
        {rt : Runtime} {Model : Type} {mc : ModelClass Model} {ag : Autograd Model}
        (s : state Model) (running_loss : R)
        (images : tensor R) (labels : tensor nat) :
  (forall g0, grads s = Some g0 ->
      map (fun t => (shape t, length (data t))) g0
      = map (fun t => (shape t, length (data t)))
            (gradient (model s) (generator s) images labels)) ->
  fst (training_batch running_loss images labels s) <> None ->
  grads (snd (training_batch running_loss images labels s))
  = Some (gradient (model s) (generator s) images labels).
Proof.
  intros Hsh.
  unfold training_batch, zero_grad, model_call, criterion, backward, step.
  unfold bind, get, emit, set_grads, modify, with_generator, ret, lift.
  cbn [fst snd model grads lr adam_state grad_enabled generator trace].
  destruct (call (model s) images (generator s)) as [[y|] g'];
    cbn [fst snd value grad_fn]; [|congruence].
  destruct (nn.NLLLoss y labels) as [v|]; cbn [fst snd value grad_fn]; [|congruence].
  destruct (grad_enabled s);
    cbn [option_map grad_fn tape_labels tape_model tape_generator tape_images
         fst snd model grads lr adam_state grad_enabled generator trace];
    [|congruence].
  intros _.
  destruct (grads s) as [g0|] eqn:Eg; cbn [option_map].
  - rewrite (accumulate_on_zeroed _ _ (Hsh g0 eq_refl)).
    destruct (adam_update _ _ _ _) as [ps st]. reflexivity.
  - destruct (adam_update _ _ _ _) as [ps st]. reflexivity.
Qed.

Lemma training_batch_fresh_gradient_witness :
  (forall g0, grads class0_state_with_grads = Some g0 ->
      map (fun t => (shape t, length (data t))) g0
      = map (fun t => (shape t, length (data t)))
            (@gradient constant_runtime _ (parameters_as_gradient Cell3_ModelClass)
               (model class0_state_with_grads) (generator class0_state_with_grads)
               (fst (collate [1; 28; 28] examples64))
               (snd (collate [1; 28; 28] examples64))))
  /\ fst (@training_batch constant_runtime _ Cell3_ModelClass
            (parameters_as_gradient Cell3_ModelClass) 0%R
            (fst (collate [1; 28; 28] examples64))
            (snd (collate [1; 28; 28] examples64)) class0_state_with_grads)
     <> None
  /\ grads (snd (@training_batch constant_runtime _ Cell3_ModelClass
                   (parameters_as_gradient Cell3_ModelClass) 0%R
                   (fst (collate [1; 28; 28] examples64))
                   (snd (collate [1; 28; 28] examples64)) class0_state_with_grads))
     = Some (@gradient constant_runtime _ (parameters_as_gradient Cell3_ModelClass)
               (model class0_state_with_grads) (generator class0_state_with_grads)
               (fst (collate [1; 28; 28] examples64))
               (snd (collate [1; 28; 28] examples64))).
Proof.
  assert (H1 : forall g0, grads class0_state_with_grads = Some g0 ->
      map (fun t => (shape t, length (data t))) g0
      = map (fun t => (shape t, length (data t)))
            (@gradient constant_runtime _ (parameters_as_gradient Cell3_ModelClass)
               (model class0_state_with_grads) (generator class0_state_with_grads)
               (fst (collate [1; 28; 28] examples64))
               (snd (collate [1; 28; 28] examples64)))).
  { intros g0 E. injection E as <-. reflexivity. }
  assert (H2 : fst (@training_batch constant_runtime _ Cell3_ModelClass
                      (parameters_as_gradient Cell3_ModelClass) 0%R
                      (fst (collate [1; 28; 28] examples64))
                      (snd (collate [1; 28; 28] examples64)) class0_state_with_grads)
               <> None).
  { destruct (@training_batch_collated constant_runtime constant_runtime_laws
                Cell3.Classifier Cell3_ModelClass
                (parameters_as_gradient Cell3_ModelClass)
                (fun m => Classifier_ok m = true) [1; 28; 28]
                (@Cell3_call_defined constant_runtime [1; 28; 28])
                (@Cell3_load_trainable constant_runtime)
                class0_state_with_grads true 0.003%R 0%R examples64)
      as (rl & s' & E & _).
    - split; [exact class0_model_ok | repeat split].
    - discriminate.
    - intros ex Hin.
      exact (proj2 (proj2 (dataset_ok_true _ _ examples64_ok) ex Hin)).
    - rewrite E. discriminate. }
  split; [exact H1|]. split; [exact H2|].
  exact (@training_batch_fresh_gradient constant_runtime Cell3.Classifier
           Cell3_ModelClass (parameters_as_gradient Cell3_ModelClass)
           class0_state_with_grads 0%R
           (fst (collate [1; 28; 28] examples64))
           (snd (collate [1; 28; 28] examples64)) H1 H2).
Defined.

(** ** A first look at one batch (cells 5 and 7) *)

Lemma batch_sampler_head (bs : nat) (idx : list nat) :
  0 < bs ->
  forall batch, length batch < bs -> 0 < length batch + length idx ->
    exists b rest,
      batch_sampler bs batch idx = b :: rest
      /\ length b = Nat.min bs (length batch + length idx).
Proof.
  intros Hbs. induction idx as [|i idx IH]; intros batch Hb Hpos.
  - cbn [batch_sampler]. destruct batch as [|j batch]; [cbn in Hpos; lia|].
    eexists _, _. split; [reflexivity|]. rewrite length_rev. cbn [length] in *. lia.
  - cbn [batch_sampler]. destruct (Nat.eqb_spec (length (i :: batch)) bs) as [E|E].
    + eexists _, _. split; [reflexivity|]. rewrite length_rev. cbn [length] in *. lia.
    + destruct (IH (i :: batch)) as (b & rest & Eb & Hl);
        [cbn [length] in *; lia | cbn [length]; lia |].
      exists b, rest. split; [exact Eb|]. cbn [length] in *. lia.
Qed.

Lemma first_batch_drawn {rt : Runtime} {laws : RuntimeLaws rt}
      (sh : list nat) (testset : list (tensor R * nat)) (g : Generator) :
  dataset_ok sh testset = true -> testset <> [] ->
  exists idx exs g',
    sampler (Cell1.testloader testset) (snd (Cell3.__init__ g)) = (Some idx, g')
    /\ hd_error (batch_sampler 64 [] idx) = Some (firstn 64 idx)
    /\ exs = examples_at testset (firstn 64 idx)
    /\ fetch (Cell1.testloader testset) (firstn 64 idx) = Some (collate sh exs)
    /\ exs <> []
    /\ length exs = Nat.min 64 (length testset)
    /\ incl exs testset
    /\ Classifier_ok (fst (Cell3.__init__ g)) = true
    /\ Cell5.run (Cell1.testloader testset) g
       = (Some {| Cell5.model := fst (Cell3.__init__ g);
                  Cell5.images := fst (collate sh exs);
                  Cell5.labels := snd (collate sh exs);
                  Cell5.ps :=
                    torch.exp
                      (Tensor [length exs; 10]
                         (flat_map
                            (fun ex : tensor R * nat =>
                               forward_row (Cell3.fc1 (fst (Cell3.__init__ g)))
                                           (Cell3.fc2 (fst (Cell3.__init__ g)))
                                           (Cell3.fc3 (fst (Cell3.__init__ g)))
                                           (Cell3.fc4 (fst (Cell3.__init__ g)))
                                           (data (fst ex))) exs));
                  Cell5.printed := [length exs; 10] |}, g').
Proof.
  intros Hds Hne. unfold Cell5.run.
  destruct (Cell3_init_ok g) as [Hok _].
  destruct (Cell3.__init__ g) as [m g0]. cbn [fst snd] in *.
  set (tl := Cell1.testloader testset).
  destruct (sampler_perm tl g0) as (idx & g' & Es & Hperm).
  unfold bind at 1. rewrite Es.
  pose proof (Permutation_length Hperm) as Hlen. rewrite length_seq in Hlen.
  change (length (dataset tl)) with (length testset) in Hlen.
  assert (Hpos : 0 < length testset) by (destruct testset; [congruence|cbn; lia]).
  destruct (@batch_sampler_head 64 idx ltac:(lia) [] ltac:(cbn; lia)
              ltac:(cbn [length]; lia))
    as (b & rest & Eb & Hb).
  cbn [length Nat.add] in Hb. rewrite Hlen in Hb.
  assert (Hfirst : hd_error (batch_sampler 64 [] idx) = Some (firstn 64 idx)).
  { rewrite (@batch_sampler_first 64 idx []); [reflexivity | cbn; lia |].
    cbn [app]. intros E. rewrite E in Hlen. cbn in Hlen. lia. }
  assert (Eb' : b = firstn 64 idx).
  { rewrite Eb in Hfirst. cbn [hd_error] in Hfirst. now injection Hfirst. }
  change (batch_size tl) with 64. rewrite Eb.
  unfold bind at 1, lift. cbn [hd_error].
  pose proof (batch_sampler_concat 64 idx []) as Hc. cbn [rev app] in Hc.
  rewrite Eb in Hc.
  assert (Hidx : Forall (fun i => i < length (dataset tl)) b).
  { apply Forall_forall. intros i Hi.
    assert (Hin : In i idx) by (rewrite <- Hc; cbn; apply in_or_app; now left).
    apply (Permutation_in _ Hperm) in Hin. apply in_seq in Hin.
    change (dataset tl) with testset in *. lia. }
  assert (Hbne : b <> []) by (intros ->; cbn [length] in Hb; lia).
  unfold bind at 1.
  pose proof (fetch_batch sh tl Hds Hbne Hidx) as Ef. rewrite Ef.
  destruct (all_some_nth (dataset tl) Hidx) as [_ Hl].
  pose proof (examples_at_incl (dataset tl) b) as Hincl.
  set (exs := examples_at (dataset tl) b) in *.
  assert (Hexs : exs <> []) by (intros E; rewrite E in Hl; cbn in Hl; lia).
  assert (H784 : forall ex, In ex exs -> length (data (fst ex)) = 784).
  { intros ex Hin. apply Hincl in Hin.
    exact (proj1 (proj2 (proj2 (dataset_ok_true _ _ Hds) ex Hin))). }
  unfold bind at 1.
  rewrite (@forward_collated m sh exs Hok Hexs H784).
  exists idx, exs, g'. split; [reflexivity|]. split; [exact Hfirst|].
  split; [unfold exs; now rewrite Eb'|]. split; [now rewrite <- Eb'|].
  split; [exact Hexs|]. split; [lia|]. split; [exact Hincl|].
  split; [exact Hok | reflexivity].
Qed.

(** X14.  Cell 5, run on a nonempty test set of well-formed examples,
    builds a classifier, draws the first batch of the test loader and prints
    the shape of the class probabilities: one row of 10 per example of the
    batch, which has 64 examples (all of them when the test set has fewer);
    the images and labels of the batch have the same first dimension. *)
Theorem first_batch_probabilities_shape {rt : Runtime} {laws : RuntimeLaws rt}
        (sh : list nat) (testset : list (tensor R * nat)) (g : Generator) :
  dataset_ok sh testset = true -> testset <> [] ->
  exists r g',
    Cell5.run (Cell1.testloader testset) g = (Some r, g')
    /\ Cell5.printed r = [Nat.min 64 (length testset); 10]
    /\ has_shape [Nat.min 64 (length testset); 10] (Cell5.ps r) = true
    /\ shape (Cell5.images r) = Nat.min 64 (length testset) :: sh
    /\ shape (Cell5.labels r) = [Nat.min 64 (length testset)].
Proof.
  intros Hds Hne.
  destruct (@first_batch_drawn rt laws sh testset g Hds Hne)
    as (idx & exs & g' & _ & _ & _ & _ & Hexs & Hl & Hincl & Hok & Erun).
  eexists _, g'. split; [exact Erun|].
  cbn [Cell5.printed Cell5.ps Cell5.images Cell5.labels collate fst snd shape].
  rewrite Hl. split; [reflexivity|]. split; [|split; reflexivity].
  apply has_shape_intro; [reflexivity|]. unfold torch.exp.
  cbn [data numel fold_right].
  rewrite length_map, (@flat_map_constant_length _ _ 10).
  - lia.
  - intros ex _. now apply length_frow.
Qed.

Lemma first_batch_probabilities_shape_witness :
  RuntimeLaws constant_runtime
  /\ dataset_ok [1; 28; 28] examples65 = true /\ examples65 <> []
  /\ exists r g',
      @Cell5.run constant_runtime (Cell1.testloader examples65) tt = (Some r, g')
      /\ Cell5.printed r = [Nat.min 64 (length examples65); 10]
      /\ has_shape [Nat.min 64 (length examples65); 10] (Cell5.ps r) = true
      /\ shape (Cell5.images r) = Nat.min 64 (length examples65) :: [1; 28; 28]
      /\ shape (Cell5.labels r) = [Nat.min 64 (length examples65)].
Proof.
  assert (H2 : examples65 <> []) by discriminate.
  split; [exact constant_runtime_laws|].
  split; [exact examples65_ok|]. split; [exact H2|].
  exact (@first_batch_probabilities_shape constant_runtime constant_runtime_laws
           [1; 28; 28] examples65 tt examples65_ok H2).
Defined.

Lemma row_max_index (r : list R) :
  r <> [] -> nth_error r (snd (row_max r)) = Some (fst (row_max r)).
Proof.
  destruct r as [|v l]; [congruence|]. intros _. unfold row_max.
  destruct (max_from_spec l v 0 1) as (_ & _ & [E|[Hi Hn]]).
  - rewrite E. reflexivity.
  - destruct (snd (max_from v 0 1 l)) as [|k]; [lia|].
    cbn [nth_error]. now replace (S k - 1) with k in Hn by lia.
Qed.

(** X15.  Cell 7, on class probabilities of shape [(n, c)] with at least
    one class: [topk] returns one top probability and one top class per
    example, both of shape [(n, 1)]; every top class is a valid class index
    and the top probability is the row's entry at that index; what the cell
    prints are the top classes of the first 10 examples (of all, when there
    are fewer). *)
Theorem top_classes_valid (ps : tensor R) (n c : nat) :
  shape ps = [n; c] -> 0 < c -> length (data ps) = n * c ->
  exists top_p top_class printed,
    Cell7.run ps = Some (top_p, top_class, printed)
    /\ has_shape [n; 1] top_p = true
    /\ has_shape [n; 1] top_class = true
    /\ Forall (fun k => k < c) (data top_class)
    /\ (forall i r, nth_error (rows ps) i = Some r ->
          exists k v, nth_error (data top_class) i = Some k
                      /\ nth_error (data top_p) i = Some v
                      /\ nth_error r k = Some v)
    /\ shape printed = [Nat.min 10 n; 1]
    /\ data printed = firstn 10 (data top_class).
Proof.
  intros Hs Hc Hd. unfold Cell7.run, topk. rewrite Hs.
  destruct (Nat.eqb_spec c 0) as [|_]; [lia|].
  cbn [obind fst snd]. unfold slice_rows. cbn [shape data].
  pose proof (rows_lengths ps Hs Hd) as Hrows. rewrite Forall_forall in Hrows.
  assert (Hne : forall r, In r (rows ps) -> r <> []).
  { intros r Hr E. specialize (Hrows r Hr). rewrite E in Hrows. cbn in Hrows. lia. }
  assert (Hlen : length (rows ps) = n) by exact (length_rows ps Hs).
  eexists _, _, _. split; [reflexivity|]. cbn [shape data].
  split; [|split; [|split; [|split; [|split]]]].
  - apply has_shape_intro; [reflexivity|]. cbn [data numel fold_right].
    rewrite !length_map. lia.
  - apply has_shape_intro; [reflexivity|]. cbn [data numel fold_right].
    rewrite !length_map. lia.
  - apply Forall_forall. intros k Hk. rewrite map_map in Hk.
    apply in_map_iff in Hk. destruct Hk as (r & <- & Hr).
    rewrite <- (Hrows r Hr). apply nth_error_Some.
    rewrite (row_max_index (Hne r Hr)). discriminate.
  - intros i r Hi. exists (snd (row_max r)), (fst (row_max r)).
    rewrite !map_map.
    split; [exact (map_nth_error (fun x => snd (row_max x)) _ _ Hi)|].
    split; [exact (map_nth_error (fun x => fst (row_max x)) _ _ Hi)|].
    apply row_max_index. apply Hne. eapply nth_error_In. exact Hi.
  - reflexivity.
  - rewrite Nat.mul_1_r.
    assert (Hl : length (map snd (map row_max (rows ps))) = n)
      by (rewrite !length_map; exact Hlen).
    destruct (Nat.le_gt_cases n 10) as [Hle|Hgt].
    + rewrite Nat.min_r by exact Hle.
      rewrite !firstn_all2 by (rewrite Hl; lia). reflexivity.
    + rewrite Nat.min_l by lia. reflexivity.
Qed.

Lemma top_classes_valid_witness :
  shape two_rows = [2; 10] /\ 0 < 10 /\ length (data two_rows) = 2 * 10
  /\ exists top_p top_class printed,
      Cell7.run two_rows = Some (top_p, top_class, printed)
      /\ has_shape [2; 1] top_p = true
      /\ has_shape [2; 1] top_class = true
      /\ Forall (fun k => k < 10) (data top_class)
      /\ (forall i r, nth_error (rows two_rows) i = Some r ->
            exists k v, nth_error (data top_class) i = Some k
                        /\ nth_error (data top_p) i = Some v
                        /\ nth_error r k = Some v)
      /\ shape printed = [Nat.min 10 2; 1]
      /\ data printed = firstn 10 (data top_class).
Proof.
  assert (H2 : 0 < 10) by lia.
  split; [reflexivity|]. split; [exact H2|]. split; [reflexivity|].
  exact (@top_classes_valid two_rows 2 10 eq_refl H2 eq_refl).
Defined.

(** ** From training to inference (cells 17 and 19) *)





(** ** The dropout classifier in training mode (cell 16) *)

Lemma log_softmax_distribution (n k : nat) (x y : tensor R) :
  is_matrix n k x -> 0 < k -> F.log_softmax x 1 = Some y ->
  Forall (fun r => length r = k
                   /\ Forall (fun v => 0 <= v)%R r
                   /\ torch.sum r = 1%R)
         (rows (torch.exp y)).
Proof.
  intros [Hs Hd] Hk. unfold F.log_softmax. rewrite Hs. intros [= <-].
  pose proof (rows_lengths x Hs Hd) as Hrows. rewrite Forall_forall in Hrows.
  rewrite rows_exp.
  rewrite (@rows_rowwise_n _ _ F.log_softmax_row (rows x) n k (length_rows x Hs))
    by (intros r Hr; unfold F.log_softmax_row; rewrite length_map; now apply Hrows).
  apply Forall_forall. intros q Hq. rewrite map_map in Hq.
  apply in_map_iff in Hq. destruct Hq as (r & <- & Hr).
  assert (Hne : r <> []).
  { intros E. specialize (Hrows r Hr). rewrite E in Hrows. cbn in Hrows. lia. }
  destruct (softmax_row_distribution Hne) as [Hpos Hsum].
  split; [|split; assumption].
  unfold F.log_softmax_row. rewrite !length_map. now apply Hrows.
Qed.

(** X17.  Dropout never touches the output layer: in training mode as in
    evaluation mode, whatever the random draws, the dropout classifier turns
    a batch of examples into one row of 10 log-probabilities per example,
    whose exponentials are nonnegative and sum to 1. *)
Theorem dropout_forward_log_probabilities
        {rt : Runtime} {laws : RuntimeLaws rt}
        (m : Cell16.Classifier) (sh : list nat) (exs : list (tensor R * nat))
        (g : Generator) :
  DropoutClassifier_ok m = true -> exs <> [] ->
  (forall ex, In ex exs -> length (data (fst ex)) = 784) ->
  exists y g',
    Cell16.forward m (fst (collate sh exs)) g = (Some y, g')
    /\ has_shape [length exs; 10] y = true
    /\ Forall (fun r => length r = 10
                        /\ Forall (fun v => 0 <= v)%R r
                        /\ torch.sum r = 1%R)
              (rows (torch.exp y)).
Proof.
  intros Hok Hne H784.
  destruct (@layers_ok_true _ _ _ _ Hok) as (H1 & H2 & H3 & H4).
  assert (Hn : 0 < length exs) by (destruct exs; [congruence | cbn; lia]).
  assert (Hd : length (data (fst (collate sh exs))) = length exs * 784).
  { cbn [collate fst data]. now apply flat_map_constant_length. }
  unfold Cell16.forward, bind at 1, lift, shape0.
  cbn [collate fst shape hd_error]. unfold bind at 1.
  change (Tensor (length exs :: sh) (flat_map (fun ex => data (fst ex)) exs))
    with (fst (collate sh exs)).
  rewrite (@view_batch _ (fst (collate sh exs)) (length exs) 784 Hn Hd).
  assert (M0 : is_matrix (length exs) 784
                 (Tensor [length exs; 784] (data (fst (collate sh exs)))))
    by (split; [reflexivity | exact Hd]).
  destruct (@Linear_forward_matrix _ _ _ _ _ H1 M0) as (a1 & E1 & M1).
  apply relu_matrix in M1.
  unfold bind at 1. rewrite E1. cbn [option_map].
  destruct (@Dropout_forward_matrix _ _ (Cell16.dropout m) _ _ _ g M1)
    as (d1 & g1 & D1 & N1).
  unfold bind at 1. rewrite D1.
  destruct (@Linear_forward_matrix _ _ _ _ _ H2 N1) as (a2 & E2 & M2).
  apply relu_matrix in M2.
  unfold bind at 1. rewrite E2. cbn [option_map].
  destruct (@Dropout_forward_matrix _ _ (Cell16.dropout m) _ _ _ g1 M2)
    as (d2 & g2 & D2 & N2).
  unfold bind at 1. rewrite D2.
  destruct (@Linear_forward_matrix _ _ _ _ _ H3 N2) as (a3 & E3 & M3).
  apply relu_matrix in M3.
  unfold bind at 1. rewrite E3. cbn [option_map].
  destruct (@Dropout_forward_matrix _ _ (Cell16.dropout m) _ _ _ g2 M3)
    as (d3 & g3 & D3 & N3).
  unfold bind at 1. rewrite D3.
  destruct (@Linear_forward_matrix _ _ _ _ _ H4 N3) as (a4 & E4 & M4).
  unfold bind at 1. rewrite E4.
  destruct (@log_softmax_matrix _ _ _ M4) as (y & Ey & [Sy Dy]).
  rewrite Ey. exists y, g3. split; [reflexivity|]. split.
  - apply has_shape_intro; [exact Sy|]. cbn [numel fold_right]. lia.
  - apply (@log_softmax_distribution (length exs) 10 a4 y M4); [lia | exact Ey].
Qed.

Lemma dropout_forward_log_probabilities_witness :
  RuntimeLaws constant_runtime
  /\ DropoutClassifier_ok class0_dropout_model = true /\ examples65 <> []
  /\ (forall ex, In ex examples65 -> length (data (fst ex)) = 784)
  /\ exists y g',
      @Cell16.forward constant_runtime class0_dropout_model
        (fst (collate [1; 28; 28] examples65)) tt = (Some y, g')
      /\ has_shape [length examples65; 10] y = true
      /\ Forall (fun r => length r = 10
                          /\ Forall (fun v => 0 <= v)%R r
                          /\ torch.sum r = 1%R)
                (rows (torch.exp y)).
Proof.
  assert (H1 : DropoutClassifier_ok class0_dropout_model = true)
    by (vm_compute; reflexivity).
  assert (H2 : examples65 <> []) by discriminate.
  assert (H3 : forall ex, In ex examples65 -> length (data (fst ex)) = 784).
  { intros ex Hin.
    exact (proj1 (proj2 (proj2 (dataset_ok_true _ _ examples65_ok) ex Hin))). }
  split; [exact constant_runtime_laws|].
  split; [exact H1|]. split; [exact H2|]. split; [exact H3|].
  exact (@dropout_forward_log_probabilities constant_runtime constant_runtime_laws
           class0_dropout_model [1; 28; 28] examples65 tt H1 H2 H3).
Defined.

(** ** Cells 5 to 11, one after the other *)

#[local] Instance biased_runtime_laws : RuntimeLaws biased_runtime.
Proof.
  constructor; cbn; intros.
  - apply repeat_length.
  - apply Permutation_refl.
  - rewrite length_firstn. destruct g; cbn [length]; rewrite repeat_length; lia.
  - reflexivity.
Qed.

(** In the classifier [biased_runtime] builds from the generator state
    [false], the output layer has zero weights and the bias
    [(1, 0, ..., 0)]. *)
Lemma biased_runtime_fc4 :
  Cell3.fc4 (fst (@Cell3.__init__ biased_runtime false))
  = zero_layer 64 10 class0_bias.
Proof. vm_compute. reflexivity. Qed.

(** With that classifier every image gets class 0 with a probability
    strictly above that of every other class: no tie. *)
Lemma biased_runtime_untied (img : tensor R) :
  exists p q : R,
    (q < p)%R
    /\ map Rtrigo_def.exp
           (forward_row (Cell3.fc1 (fst (@Cell3.__init__ biased_runtime false)))
                        (Cell3.fc2 (fst (@Cell3.__init__ biased_runtime false)))
                        (Cell3.fc3 (fst (@Cell3.__init__ biased_runtime false)))
                        (Cell3.fc4 (fst (@Cell3.__init__ biased_runtime false)))
                        (data img))
       = p :: repeat q 9.
Proof.
  unfold forward_row. rewrite biased_runtime_fc4.
  rewrite (@affine_zero_layer 64 10 class0_bias _ eq_refl).
  rewrite exp_log_softmax_row by discriminate.
  set (S := torch.sum _).
  assert (HS : (0 < S)%R) by (apply sum_exp_pos; discriminate).
  exists (Rtrigo_def.exp (0 + 1) / S)%R, (Rtrigo_def.exp (0 + 0) / S)%R. split.
  - apply Rmult_lt_compat_r; [now apply Rinv_0_lt_compat|].
    apply exp_increasing. lra.
  - reflexivity.
Qed.

(** X18.  Run one after the other on a nonempty test set of well-formed
    examples, cells 5 to 11 all complete.  The batch of cell 5 is the first
    batch of the test loader: with [idx] the indices the loader's sampler
    draws (after the classifier was built), its images and labels are those
    of the examples at the first 64 indices of [idx], stacked in this order.
    The top classes of cell 7 are the classes the freshly built model
    predicts for these examples, one per example in order, and the accuracy
    of cell 11 is the fraction of these examples whose predicted class is
    their label. *)
Theorem first_batch_accuracy {rt : Runtime} {laws : RuntimeLaws rt}
        (sh : list nat) (testset : list (tensor R * nat)) (g : Generator) :
  dataset_ok sh testset = true -> testset <> [] ->
  exists r g' idx exs top_p top_class printed,
    Cell5.run (Cell1.testloader testset) g = (Some r, g')
    /\ Cell5.model r = fst (Cell3.__init__ g)
    /\ sampler (Cell1.testloader testset) (snd (Cell3.__init__ g)) = (Some idx, g')
    /\ hd_error (batch_sampler 64 [] idx) = Some (firstn 64 idx)
    /\ fetch (Cell1.testloader testset) (firstn 64 idx)
       = Some (Cell5.images r, Cell5.labels r)
    /\ exs = examples_at testset (firstn 64 idx)
    /\ Cell5.images r = fst (collate sh exs)
    /\ Cell5.labels r = snd (collate sh exs)
    /\ incl exs testset
    /\ length exs = Nat.min 64 (length testset)
    /\ Cell7.run (Cell5.ps r) = Some (top_p, top_class, printed)
    /\ data top_class
       = map (fun ex => predicted_class (Cell3.fc1 (Cell5.model r))
                                        (Cell3.fc2 (Cell5.model r))
                                        (Cell3.fc3 (Cell5.model r))
                                        (Cell3.fc4 (Cell5.model r)) (fst ex)) exs
    /\ Cell11.accuracy (Cell5.ps r) (Cell5.labels r)
       = Some (fraction_correct (Cell5.model r) exs).
Proof.
  intros Hds Hne.
  destruct (@first_batch_drawn rt laws sh testset g Hds Hne)
    as (idx & exs & g' & Es & Hfirst & Eexs & Ef & Hexs & Hl & Hincl & Hok & Erun).
  set (m := fst (Cell3.__init__ g)) in *.
  assert (H784 : forall ex, In ex exs -> length (data (fst ex)) = 784).
  { intros ex Hin. apply Hincl in Hin.
    exact (proj1 (proj2 (proj2 (dataset_ok_true _ _ Hds) ex Hin))). }
  assert (Erows : rows (torch.exp
                    (Tensor [length exs; 10]
                       (flat_map
                          (fun ex : tensor R * nat =>
                             forward_row (Cell3.fc1 m) (Cell3.fc2 m) (Cell3.fc3 m)
                                         (Cell3.fc4 m) (data (fst ex))) exs)))
                  = map (fun ex : tensor R * nat =>
                           map Rtrigo_def.exp
                               (forward_row (Cell3.fc1 m) (Cell3.fc2 m) (Cell3.fc3 m)
                                            (Cell3.fc4 m) (data (fst ex)))) exs).
  { rewrite rows_exp.
    rewrite (@rows_rowwise_n _ _ _ exs (length exs) 10 eq_refl)
      by (intros; now apply length_frow).
    now rewrite map_map. }
  eexists _, g', idx, exs. eexists _, _, _.
  split; [exact Erun|].
  cbn [Cell5.ps Cell5.labels Cell5.model Cell5.images].
  split; [reflexivity|]. split; [exact Es|]. split; [exact Hfirst|].
  split; [rewrite Ef; now destruct (collate sh exs)|].
  split; [exact Eexs|]. split; [reflexivity|]. split; [reflexivity|].
  split; [exact Hincl|]. split; [exact Hl|].
  split; [|split].
  - unfold Cell7.run, topk. cbn [torch.exp shape Nat.eqb obind fst snd].
    unfold slice_rows. cbn [shape data]. reflexivity.
  - cbn [data]. change (map Rtrigo_def.exp _) with
      (data (torch.exp
               (Tensor [length exs; 10]
                  (flat_map
                     (fun ex : tensor R * nat =>
                        forward_row (Cell3.fc1 m) (Cell3.fc2 m) (Cell3.fc3 m)
                                    (Cell3.fc4 m) (data (fst ex))) exs)))).
    change (Tensor [length exs; 10] (data (torch.exp ?t))) with (torch.exp t).
    rewrite Erows, !map_map. reflexivity.
  - exact (@accuracy_collated m sh exs Hok Hexs H784).
Qed.

Lemma first_batch_accuracy_witness :
  RuntimeLaws biased_runtime
  /\ dataset_ok [1; 28; 28] examples65 = true /\ examples65 <> []
  /\ exists r g' idx exs top_p top_class printed,
      @Cell5.run biased_runtime (Cell1.testloader examples65) false = (Some r, g')
      /\ Cell5.model r = fst (@Cell3.__init__ biased_runtime false)
      /\ @sampler biased_runtime (Cell1.testloader examples65)
           (snd (@Cell3.__init__ biased_runtime false)) = (Some idx, g')
      /\ hd_error (batch_sampler 64 [] idx) = Some (firstn 64 idx)
      /\ fetch (Cell1.testloader examples65) (firstn 64 idx)
         = Some (Cell5.images r, Cell5.labels r)
      /\ exs = examples_at examples65 (firstn 64 idx)
      /\ Cell5.images r = fst (collate [1; 28; 28] exs)
      /\ Cell5.labels r = snd (collate [1; 28; 28] exs)
      /\ incl exs examples65
      /\ length exs = Nat.min 64 (length examples65)
      /\ Cell7.run (Cell5.ps r) = Some (top_p, top_class, printed)
      /\ data top_class
         = map (fun ex => predicted_class (Cell3.fc1 (Cell5.model r))
                                          (Cell3.fc2 (Cell5.model r))
                                          (Cell3.fc3 (Cell5.model r))
                                          (Cell3.fc4 (Cell5.model r)) (fst ex)) exs
      /\ Cell11.accuracy (Cell5.ps r) (Cell5.labels r)
         = Some (fraction_correct (Cell5.model r) exs).
Proof.
  assert (H2 : examples65 <> []) by discriminate.
  split; [exact biased_runtime_laws|].
  split; [exact examples65_ok|]. split; [exact H2|].
  exact (@first_batch_accuracy biased_runtime biased_runtime_laws
           [1; 28; 28] examples65 false examples65_ok H2).
Defined.
(** ** The whole run of cell 13 *)

Lemma epoch_events_percentage (n_train n_test : nat) (md_train md_val : bool)
      (rate a : R) :
  (0 <= a <= 100)%R ->
  Forall prints_percentage (epoch_events n_train n_test md_train md_val rate a).
Proof.
  intros Ha. unfold epoch_events. apply Forall_app. split; [|apply Forall_app; split].
  - apply Forall_forall. intros ev Hev. apply in_concat in Hev.
    destruct Hev as (l & Hl & Hev). apply repeat_spec in Hl. subst l.
    unfold training_events in Hev. cbn [In] in Hev.
    destruct Hev as [<-|[<-|[<-|[<-|[<-|[]]]]]]; exact I.
  - apply Forall_forall. intros ev Hev. apply repeat_spec in Hev. subst ev. exact I.
  - constructor; [exact Ha | constructor].
Qed.

(** X19.  On well-formed data the run of cell 13 completes and leaves a
    model that is still a well-formed classifier (every layer with the shapes
    [__init__] gave it), in training mode, with gradients enabled and the
    learning rate at 0.003; and every accuracy it printed on the way is a
    percentage between 0 and 100. *)
Theorem training_run_outcome
        {rt : Runtime} {laws : RuntimeLaws rt} {ag : Autograd Cell3.Classifier}
        (sh_train sh_test : list nat)
        (trainset testset : list (tensor R * nat)) (g : Generator) :
  dataset_ok sh_train trainset = true ->
  dataset_ok sh_test testset = true ->
  testset <> [] ->
  exists s',
    Cell13.run (Cell1.trainloader trainset) (Cell1.testloader testset) g
    = (Some tt, s')
    /\ Classifier_ok (model s') = true
    /\ Cell3.training (model s') = true
    /\ grad_enabled s' = true
    /\ lr s' = 0.003%R
    /\ Forall prints_percentage (trace s').
Proof.
  intros Htrain Htest Hne.
  unfold Cell13.run.
  destruct (Cell3_init_ok g) as [Hok Hmode].
  destruct (Cell3.__init__ g) as [m g0]. cbn [fst] in Hok, Hmode.
  set (trainloader := Cell1.trainloader trainset).
  set (testloader := Cell1.testloader testset).
  pose (J := fun (pre : list nat) (_ : unit) (s : state Cell3.Classifier) =>
               training_inv (fun m => Classifier_ok m = true) true 0.003%R s
               /\ Forall prints_percentage (trace s)).
  destruct (@for_each_rel _ _ _
              (fun (_ : unit) e => Cell13.epoch trainloader testloader e)
              (seq 0 epochs) J) with (acc := tt) (s := initial_state m g0)
    as (u & Erun & Hinv & Htrace).
  - intros pre e post [] s _ (Hinv & Htrace).
    destruct (@epoch_runs rt laws ag sh_train sh_test trainset testset
                Htrain Htest Hne e s true 0.003%R Hinv)
      as (s1 & idx & E & Hinv1 & Hperm & Ht1).
    fold trainloader testloader in E, Ht1. rewrite E. cbn [fst snd].
    exists tt. split; [reflexivity|]. split; [exact Hinv1|].
    rewrite Ht1. apply Forall_app. split; [exact Htrace|].
    apply epoch_events_percentage.
    destruct (batches_of_testloader testset Hperm) as (_ & Hlen & _).
    fold testloader in Hlen. rewrite <- Hlen. apply mean_percent_range.
    + rewrite Hlen. now apply len_testloader_pos.
    + apply sum_fractions_range. now apply batches_of_nonempty.
  - split.
    + unfold training_inv, initial_state. cbn. auto.
    + constructor.
  - destruct (for_each _ _ _ _) as [r s']. cbn [fst snd] in *. subst r.
    destruct u. destruct Hinv as (Hok' & Hmd' & Hge' & Hlr').
    exists s'. split; [reflexivity|]. split; [exact Hok'|].
    split; [exact Hmd'|]. split; [exact Hge'|]. split; [exact Hlr' | exact Htrace].
Qed.

Lemma training_run_outcome_witness :
  RuntimeLaws constant_runtime
  /\ dataset_ok [1; 28; 28] examples64 = true
  /\ dataset_ok [1; 28; 28] examples65 = true
  /\ examples65 <> []
  /\ exists s',
      @Cell13.run constant_runtime (parameters_as_gradient _)
        (Cell1.trainloader examples64) (Cell1.testloader examples65) tt
      = (Some tt, s')
      /\ Classifier_ok (model s') = true
      /\ Cell3.training (model s') = true
      /\ grad_enabled s' = true
      /\ lr s' = 0.003%R
      /\ Forall prints_percentage (trace s').
Proof.
  assert (H3 : examples65 <> []) by discriminate.
  split; [exact constant_runtime_laws|].
  split; [exact examples64_ok|]. split; [exact examples65_ok|].
  split; [exact H3|].
  exact (@training_run_outcome constant_runtime constant_runtime_laws
           (parameters_as_gradient _) [1; 28; 28] [1; 28; 28]
           examples64 examples65 tt examples64_ok examples65_ok H3).
Defined.
